(** * POS backend (pos_backend_by_rk/run.py): pricing, sale recording, stock

    A shallow embedding of the request handlers of [run.py] and of the lookup
    helpers they are built from.  The spreadsheet is a store of named tabs;
    every handler is a computation over that store which either returns a
    value or raises, and which leaves behind the list of store calls it made.

    Python built-ins whose behaviour is not part of the repository
    ([float(str)], [int(str)], [date.fromisoformat], [str(float)], how the
    sheet renders a number) are the fields of [PyRuntime]; every general
    theorem holds for all runtimes.  [Reference.cpython] is one runtime, used
    to run the handlers on concrete tables.

    Not modelled: reading the add-on options and building the service client
    (lines 17-26), which make no call to the sheet; failures of the service
    itself; [fire_event], whose failures the source swallows; the label
    endpoint.  Request fields are scalars (null, booleans, integers, floats,
    strings); the cells a tab returns are strings. *)

From Stdlib Require Import ZArith Ascii String PrimFloat SpecFloat Uint63 FloatOps.
From stdpp Require Import gmap strings list fin_maps pretty.

Open Scope string_scope.
Open Scope list_scope.
Open Scope Z_scope.

(** ** Values, exceptions, dates *)

(** The scalar Python values that travel through the handlers: JSON request
    fields, cells handed to the sheet, numbers computed for a sale. *)
Inductive pyval : Type :=
  | PNone
  | PBool (b : bool)
  | PInt (z : Z)
  | PFloat (f : float)
  | PStr (s : string).

Inductive pyerr : Type :=
  | ValueError
  | TypeError
  | OverflowError
  | HTTPException (status_code : Z) (detail : string).

Inductive res (A : Type) : Type :=
  | Ok (a : A)
  | Raise (e : pyerr).
Arguments Ok {A} a.
Arguments Raise {A} e.

(** [datetime.date]: compared as the tuple (year, month, day). *)
Record date : Type := Date { year : Z; month : Z; day : Z }.

Definition date_leb (a b : date) : bool :=
  (year a <? year b)
  || ((year a =? year b)
      && ((month a <? month b)
          || ((month a =? month b) && (day a <=? day b)))).

(** [date(1970,1,1)], [date(9999,12,31)] of the source, and Python's
    [date.min], the earliest date the type represents. *)
Definition epoch : date := Date 1970 1 1.
Definition date_max : date := Date 9999 12 31.

(** A record of [to_dicts]: header name to cell text. *)
Abbreviation record := (gmap string string).
Abbreviation table := (list (list string)).

(** ** The Python runtime *)

Class PyRuntime : Type := {
  (** [float(s)] on a string; [None] is [ValueError]. *)
  float_of_str : string -> option float;
  (** [int(s)] on a string; [None] is [ValueError]. *)
  int_of_str : string -> option Z;
  (** [datetime.date.fromisoformat(s)]; [None] is [ValueError]. *)
  fromisoformat : string -> option date;
  (** [str(f)] on a float. *)
  str_of_float : float -> string;
  (** The text the sheet shows for a value written RAW that is not a string. *)
  sheet_text : pyval -> string;
  (** [f"{it}"] on a checkout item. *)
  repr_item : gmap string pyval -> string;
  (** The literal default of line 71 is an ISO date; the empty string is not. *)
  fromisoformat_epoch : fromisoformat "1970-01-01" = Some epoch;
  fromisoformat_empty : fromisoformat "" = None
}.

(** ** Conversions of the language itself *)

(** Truth value of a scalar ([if x], [not x], [x or y]). *)
Definition truthy (v : pyval) : bool :=
  match v with
  | PNone => false
  | PBool b => b
  | PInt z => negb (z =? 0)
  | PFloat f => negb (PrimFloat.eqb f 0%float)
  | PStr s => negb (String.eqb s "")
  end.

(** [int -> float] as [float * int] and [float - int] convert their integer
    operand: round to nearest even, [OverflowError] past the largest float.
    Below 2^62 the primitive conversion is used directly; above, the top 62
    bits with a sticky last bit are converted and scaled. *)
Definition float_of_int (z : Z) : option float :=
  let a := Z.abs z in
  let f :=
    if a <? 2 ^ 62 then of_uint63 (Uint63.of_Z a)
    else
      let k := Z.log2 a - 61 in
      let sticky := if Z.land a (Z.ones k) =? 0 then 0 else 1 in
      Z.ldexp (of_uint63 (Uint63.of_Z (Z.lor (Z.shiftr a k) sticky))) k in
  if is_infinity f then None
  else Some (if z <? 0 then PrimFloat.opp f else f).

(** [int(f)] on a float: truncation toward zero. *)
Definition int_of_float (f : float) : res Z :=
  match Prim2SF f with
  | S754_zero _ => Ok 0
  | S754_infinity _ => Raise OverflowError
  | S754_nan => Raise ValueError
  | S754_finite s m e =>
      let a := if 0 <=? e then Z.shiftl (Z.pos m) e else Z.shiftr (Z.pos m) (- e) in
      Ok (if s then - a else a)
  end.

(** What [dict.get(key)] returned ([None] or a cell) compared with [==] to a
    scalar: [None == None], a string equals only the same string. *)
Definition get_eq (c : option string) (v : pyval) : bool :=
  match c, v with
  | None, PNone => true
  | Some s, PStr s' => String.eqb s s'
  | _, _ => false
  end.

Definition of_cell (c : option string) : pyval :=
  match c with
  | None => PNone
  | Some s => PStr s
  end.

Section Handlers.
Context {RT : PyRuntime}.

(** [int(x)]. *)
Definition py_int (v : pyval) : res Z :=
  match v with
  | PNone => Raise TypeError
  | PBool b => Ok (if b then 1 else 0)
  | PInt z => Ok z
  | PFloat f => int_of_float f
  | PStr s => match int_of_str s with Some z => Ok z | None => Raise ValueError end
  end.

(** [str(x)]. *)
Definition py_str (v : pyval) : string :=
  match v with
  | PNone => "None"
  | PBool b => if b then "True" else "False"
  | PInt z => pretty z
  | PFloat f => str_of_float f
  | PStr s => s
  end.

(** A value as the sheet holds it after a RAW write. *)
Definition cell_text (v : pyval) : string :=
  match v with
  | PStr s => s
  | _ => sheet_text v
  end.

(** ** Record mapper: [to_dicts] *)

(** The dict comprehension of line 36: one entry per header position, a
    missing trailing cell is [""], a repeated header keeps its last cell. *)
Definition to_dict (headers r : list string) : record :=
  list_to_map (reverse (imap (fun i h => (h, default "" (r !! i))) headers)).

Definition to_dicts (rows : table) : list record :=
  match rows with
  | [] => []
  | headers :: rest => to_dict headers <$> rest
  end.

(** [not d] on a dict. *)
Definition dict_empty (d : record) : bool := bool_decide (d = ∅).

(** ** Pure scans of the lookup helpers *)

(** The loop of [lookup_user], lines 41-44. *)
Fixpoint lookup_user_scan (us : list record) (user_id : pyval) : record :=
  match us with
  | [] => ∅
  | u :: us' =>
      if get_eq (u !! "user_id") user_id then u
      else lookup_user_scan us' user_id
  end.

(** The loop of [lookup_product], lines 47-52. *)
Fixpoint lookup_product_scan (ps : list record) (product_id short_id : pyval)
  : record :=
  match ps with
  | [] => ∅
  | p :: ps' =>
      if truthy product_id && get_eq (p !! "product_id") product_id then p
      else if truthy short_id && get_eq (p !! "short_id") short_id then p
      else lookup_product_scan ps' product_id short_id
  end.

(** Lines 62-69: the window of a row, with the defaults for an empty or
    unparseable cell. *)
Definition vf_date (r : record) : date :=
  let vf := default "" (r !! "valid_from") in
  if String.eqb vf "" then epoch else default epoch (fromisoformat vf).

Definition vt_date (r : record) : date :=
  let vt := default "" (r !! "valid_to") in
  if String.eqb vt "" then date_max else default date_max (fromisoformat vt).

Definition ids_match (reseller_id product_id : pyval) (r : record) : bool :=
  get_eq (r !! "reseller_id") reseller_id && get_eq (r !! "product_id") product_id.

Definition in_window (on_date : date) (r : record) : bool :=
  date_leb (vf_date r) on_date && date_leb on_date (vt_date r).

(** One iteration of the loop of [lookup_reseller_price], lines 60-72.  The
    comparison of line 71 parses the incumbent's [valid_from] cell again,
    outside any [try]. *)
Definition price_step (reseller_id product_id : pyval) (on_date : date)
    (best r : record) : res record :=
  if negb (ids_match reseller_id product_id r) then Ok best
  else if in_window on_date r then
    if dict_empty best then Ok r
    else
      match fromisoformat (default "1970-01-01" (best !! "valid_from")) with
      | None => Raise ValueError
      | Some b => if date_leb b (vf_date r) then Ok r else Ok best
      end
  else Ok best.

Fixpoint price_scan (reseller_id product_id : pyval) (on_date : date)
    (best : record) (rows : list record) : res record :=
  match rows with
  | [] => Ok best
  | r :: rows' =>
      match price_step reseller_id product_id on_date best r with
      | Ok best' => price_scan reseller_id product_id on_date best' rows'
      | Raise e => Raise e
      end
  end.

(** ** The store and the handler monad *)

(** One call to the spreadsheet service. *)
Inductive access : Type :=
  | SheetGet (tab : string)
  | SheetAppend (tab : string) (row : list pyval)
  | SheetUpdate (tab : string) (row_idx : nat) (width : nat) (row_values : list pyval).

(** The world a request runs in: the tabs of the sheet, the clock, and the
    store calls made so far, oldest first. *)
Record world : Type := World {
  tabs : gmap string table;
  today : date;
  now_iso : string;
  calls : list access
}.

(** A handler: runs in a world, returns or raises, and leaves a world.  What
    was written before a raise stays written. *)
Definition M (A : Type) : Type := world -> res A * world.

#[export] Instance M_ret : MRet M := fun A (a : A) w => (Ok a, w).

#[export] Instance M_bind : MBind M := fun A B (k : A -> M B) (c : M A) w =>
  match c w with
  | (Ok a, w') => k a w'
  | (Raise e, w') => (Raise e, w')
  end.

Definition raise {A : Type} (e : pyerr) : M A := fun w => (Raise e, w).

Definition lift {A : Type} (r : res A) : M A := fun w => (r, w).

Definition logged (c : access) (w : world) : world :=
  World (tabs w) (today w) (now_iso w) (calls w ++ [c]).

Definition with_tab (tab : string) (rows : table) (w : world) : world :=
  World (<[tab := rows]> (tabs w)) (today w) (now_iso w) (calls w).

(** [read_tab], lines 28-30: the rows of a tab, [[]] when it has no values. *)
Definition read_tab (tab : string) : M table := fun w =>
  (Ok (default [] (tabs w !! tab)), logged (SheetGet tab) w).

(** [values().append] of lines 148 and 188: the row goes below the last one. *)
Definition append_row (tab : string) (row : list pyval) : M unit := fun w =>
  (Ok tt,
   logged (SheetAppend tab row)
     (with_tab tab (default [] (tabs w !! tab) ++ [cell_text <$> row]) w)).

(** [update_row], lines 75-83: the sheet row [row_idx] (1-based) of the tab is
    replaced by the values; a position below the table changes nothing.  The
    range written is as wide as the header; the call records that width. *)
Definition update_row (tab : string) (row_idx : nat) (headers : list string)
    (row_values : list pyval) : M unit := fun w =>
  (Ok tt,
   logged (SheetUpdate tab row_idx (length headers) row_values)
     (with_tab tab
        (<[(row_idx - 1)%nat := cell_text <$> row_values]> (default [] (tabs w !! tab)))
        w)).

Definition date_today : M date := fun w => (Ok (today w), w).

Definition datetime_now_isoformat : M string := fun w => (Ok (now_iso w), w).

(** ** Lookup helpers *)

(** [lookup_user], lines 38-44. *)
Definition lookup_user (user_id : pyval) : M record :=
  if negb (truthy user_id) then mret ∅
  else
    rows ← read_tab "Users";
    mret (lookup_user_scan (to_dicts rows) user_id).

(** [lookup_product], lines 46-52. *)
Definition lookup_product (product_id short_id : pyval) : M record :=
  rows ← read_tab "Products";
  mret (lookup_product_scan (to_dicts rows) product_id short_id).

(** [lookup_reseller_price], lines 54-73. *)
Definition lookup_reseller_price (reseller_id product_id : pyval)
    (on_date : option date) : M record :=
  rows ← read_tab "ResellerPricing";
  d ← match on_date with Some d => mret d | None => date_today end;
  lift (price_scan reseller_id product_id d ∅ (to_dicts rows)).

(** ** Listing stock: [get_stock], lines 116-125 *)

Definition reseller_is (rid : pyval) (x : record) : bool :=
  get_eq (x !! "reseller_id") rid.

Definition get_stock (reseller_id user_id : pyval) : M (list record) :=
  rows ← read_tab "Stock";
  let items := to_dicts rows in
  if truthy user_id then
    u ← lookup_user user_id;
    let rid := if dict_empty u then PNone else of_cell (u !! "user_id") in
    if truthy rid then mret (List.filter (reseller_is rid) items) else mret items
  else if truthy reseller_id then mret (List.filter (reseller_is reseller_id) items)
  else mret items.

(** ** Listing users and customers: lines 106-114 *)

Definition get_users : M (list record) :=
  rows ← read_tab "Users";
  mret (to_dicts rows).

Definition get_customers : M (list record) :=
  rows ← read_tab "Customers";
  mret (to_dicts rows).

(** ** Price and commission of a line: lines 142-145 *)

(** The operand [x] of [x or y] when it is the one chosen: a present,
    non-empty cell. *)
Definition chosen (c : option string) : option string :=
  match c with
  | Some s => if String.eqb s "" then None else Some s
  | None => None
  end.

(** [float(c or 0)]. *)
Definition float_or_zero (c : option string) : res float :=
  match chosen c with
  | Some s =>
      match float_of_str s with
      | Some f => Ok f
      | None => Raise ValueError
      end
  | None => Ok 0%float
  end.

(** [rp.get("price") or prod.get("base_price")]. *)
Definition price_source (rp prod : record) : option string :=
  match chosen (rp !! "price") with
  | Some s => Some s
  | None => prod !! "base_price"
  end.

(** Lines 142-143: the [try] converts the first non-empty of the reseller
    price and the base price; its handler converts the base price alone, and
    nothing guards the handler. *)
Definition sale_price (rp prod : record) : res float :=
  match float_or_zero (price_source rp prod) with
  | Ok f => Ok f
  | Raise _ => float_or_zero (prod !! "base_price")
  end.

(** Lines 144-145. *)
Definition sale_commission (rp : record) : float :=
  match float_or_zero (rp !! "commission_pct") with
  | Ok f => f
  | Raise _ => 0%float
  end.

(** [price * qty] and [cur - qty]: the integer operand is converted first. *)
Definition float_mul_int (x : float) (n : Z) : res float :=
  match float_of_int n with
  | Some y => Ok (PrimFloat.mul x y)
  | None => Raise OverflowError
  end.

Definition float_sub_int (x : float) (n : Z) : res float :=
  match float_of_int n with
  | Some y => Ok (PrimFloat.sub x y)
  | None => Raise OverflowError
  end.

(** ** Stock adjustment: lines 149-161 (and 189-201) *)

(** [hdr.index(name)]; [None] is [ValueError]. *)
Fixpoint list_index (name : string) (hdr : list string) : option nat :=
  match hdr with
  | [] => None
  | h :: hdr' => if String.eqb h name then Some 0%nat else S <$> list_index name hdr'
  end.

(** [r[i] if len(r) > i else ""]. *)
Definition cell_at (r : list string) (i : nat) : string := default "" (r !! i).

(** Line 158: [None] is the [ValueError] of [float]. *)
Definition current_qty (r : list string) (qty_idx : nat) : option float :=
  match r !! qty_idx with
  | Some s => if String.eqb s "" then Some 0%float else float_of_str s
  | None => Some 0%float
  end.

(** Line 159: the row padded to the header's width, the quantity replaced. *)
Definition padded (hdr r : list string) : list pyval :=
  (PStr <$> r) ++ replicate (length hdr - length r)%nat (PStr "").

Definition stock_row_matches (pid_idx rid_idx : nat) (product_id reseller_id : pyval)
    (r : list string) : bool :=
  String.eqb (cell_at r pid_idx) (py_str product_id)
  && String.eqb (cell_at r rid_idx) (py_str reseller_id).

(** The loop of lines 155-160; [i] is the sheet position of the head of
    [rows].  A [ValueError] of line 158 leaves the loop through the handler of
    line 161, which is why it ends the scan with nothing written. *)
Fixpoint stock_scan (hdr : list string) (pid_idx rid_idx qty_idx : nat)
    (product_id reseller_id : pyval) (qty : Z) (i : nat) (rows : table) : M unit :=
  match rows with
  | [] => mret tt
  | r :: rows' =>
      if stock_row_matches pid_idx rid_idx product_id reseller_id r then
        match current_qty r qty_idx with
        | None => mret tt
        | Some cur =>
            v ← lift (float_sub_int cur qty);
            update_row "Stock" i hdr (<[qty_idx := PFloat v]> (padded hdr r))
        end
      else stock_scan hdr pid_idx rid_idx qty_idx product_id reseller_id qty (S i) rows'
  end.

Definition adjust_stock (product_id reseller_id : pyval) (qty : Z) : M unit :=
  stock_rows ← read_tab "Stock";
  match stock_rows with
  | [] => mret tt
  | hdr :: body =>
      match list_index "product_id" hdr, list_index "reseller_id" hdr,
            list_index "reseller_qty" hdr with
      | Some pid_idx, Some rid_idx, Some qty_idx =>
          if truthy reseller_id then
            stock_scan hdr pid_idx rid_idx qty_idx product_id reseller_id qty 2%nat body
          else mret tt
      | _, _, _ => mret tt
      end
  end.

(** ** Recording one sale: [pos_sale], lines 127-163 *)

Record sale_response : Type := SaleResponse {
  sale_total : float;
  sale_customer_id : pyval;
  sale_payment_method : pyval;
  sale_price_used : float;
  sale_commission_pct : float
}.

(** [p.get(key, dflt)] on the request body. *)
Definition field (p : gmap string pyval) (key : string) (dflt : pyval) : pyval :=
  default dflt (p !! key).

(** The Sale row of lines 147 and 187. *)
Definition sale_row (now : string) (user_id : pyval) (person_entity_id : string)
    (customer_id product_id short_id : pyval) (qty : Z)
    (price commission_pct total : float) (payment_method : pyval) : list pyval :=
  [PStr now; user_id; PStr person_entity_id; customer_id; product_id; short_id;
   PInt qty; PFloat price; PFloat commission_pct; PFloat total; payment_method].

(** Lines 140-161, shared word for word by [pos_sale] and the body of the
    loop of [checkout]: price the resolved product, append the Sale row,
    adjust the stock.  Returns price, commission and total. *)
Definition record_line (user_id reseller_id customer_id payment_method : pyval)
    (person_entity_id : string) (prod : record) (qty : Z)
  : M (float * float * float) :=
  let product_id := of_cell (prod !! "product_id") in
  let short_id := of_cell (prod !! "short_id") in
  rp ← lookup_reseller_price reseller_id product_id None;
  price ← lift (sale_price rp prod);
  let commission_pct := sale_commission rp in
  total ← lift (float_mul_int price qty);
  now ← datetime_now_isoformat;
  append_row "Sales"
    (sale_row now user_id person_entity_id customer_id product_id short_id
       qty price commission_pct total payment_method);;
  adjust_stock product_id reseller_id qty;;
  mret (price, commission_pct, total).

Definition person_entity (u : record) : string :=
  if dict_empty u then "" else default "" (u !! "person_entity_id").

Definition pos_sale (p : gmap string pyval) : M sale_response :=
  let user_id := field p "user_id" (PStr "") in
  let reseller_id := field p "reseller_id" (PStr "") in
  let product_id := field p "product_id" PNone in
  let short_id := field p "short_id" PNone in
  qty ← lift (py_int (field p "qty" (PInt 1)));
  let customer_id := field p "customer_id" (PStr "C-000") in
  let payment_method := field p "payment_method" (PStr "cash") in
  if negb (truthy product_id) && negb (truthy short_id) then
    raise (HTTPException 400 "product_id or short_id required")
  else
    u ← lookup_user user_id;
    prod ← lookup_product product_id short_id;
    if dict_empty prod then raise (HTTPException 404 "Product not found")
    else
      '(price, commission_pct, total) ←
        record_line user_id reseller_id customer_id payment_method
          (person_entity u) prod qty;
      mret (SaleResponse total customer_id payment_method price commission_pct).

(** ** Batch: [checkout], lines 165-203 *)

Record checkout_response : Type := CheckoutResponse {
  checkout_total : float;
  checkout_lines : Z;
  checkout_customer_id : pyval;
  checkout_payment_method : pyval
}.

(** The loop of lines 176-201 with its two accumulators. *)
Fixpoint checkout_loop (user_id reseller_id customer_id payment_method : pyval)
    (person_entity_id : string) (items : list (gmap string pyval))
    (grand_total : float) (written : Z) : M (float * Z) :=
  match items with
  | [] => mret (grand_total, written)
  | it :: items' =>
      prod ← lookup_product (field it "product_id" PNone) (field it "short_id" PNone);
      if dict_empty prod then
        raise (HTTPException 404 ("Product not found: " +:+ repr_item it))
      else
        qty ← lift (py_int (field it "qty" (PInt 1)));
        '(_, _, total) ←
          record_line user_id reseller_id customer_id payment_method
            person_entity_id prod qty;
        checkout_loop user_id reseller_id customer_id payment_method
          person_entity_id items' (PrimFloat.add grand_total total) (written + 1)
  end.

(** [items] is the list under the key ["items"] of the body [p]; a body
    without the key, or with something else than a list under it, is the
    empty list here, and meets the same guard of line 169. *)
Definition checkout (p : gmap string pyval) (items : list (gmap string pyval))
  : M checkout_response :=
  match items with
  | [] => raise (HTTPException 400 "No items")
  | _ :: _ =>
      let user_id := field p "user_id" (PStr "") in
      let reseller_id := field p "reseller_id" (PStr "") in
      let customer_id := field p "customer_id" (PStr "C-000") in
      let payment_method := field p "payment_method" (PStr "cash") in
      u ← lookup_user user_id;
      '(grand_total, written) ←
        checkout_loop user_id reseller_id customer_id payment_method
          (person_entity u) items 0%float 0;
      mret (CheckoutResponse grand_total written customer_id payment_method)
  end.

End Handlers.

(** ** A reference runtime

    One [PyRuntime], enough to run the handlers on concrete tables.  It reads
    the plain forms the sheets of this application hold: dates as YYYY-MM-DD,
    integers as an optional sign and decimal digits, floats as an optional
    sign and decimal digits with an optional fraction.  On those it agrees
    with CPython as long as the digits of a float, read as one integer, stay
    below 2^53 and the fraction has at most 22 digits (both operands of the
    final division are then exact).  A float is shown by its exact decimal
    expansion, which is what CPython and the sheet show for the values met
    here (integral ones, halves, quarters); the shortest round-trip form of
    other floats, exponents, and the longer ISO date forms are not covered. *)
Module Reference.

Definition digit_of (c : ascii) : option Z :=
  let n := Z.of_N (N_of_ascii c) in
  if (48 <=? n) && (n <=? 57) then Some (n - 48) else None.

Fixpoint digits_value (acc : Z) (s : string) : option Z :=
  match s with
  | EmptyString => Some acc
  | String c s' =>
      match digit_of c with
      | Some d => digits_value (10 * acc + d) s'
      | None => None
      end
  end.

(** A non-empty run of decimal digits. *)
Definition number (s : string) : option Z :=
  match s with
  | EmptyString => None
  | _ => digits_value 0 s
  end.

(** Splits off a leading sign: [true] for minus. *)
Definition signed (s : string) : bool * string :=
  match s with
  | String "-" s' => (true, s')
  | String "+" s' => (false, s')
  | _ => (false, s)
  end.

Definition parse_int (s : string) : option Z :=
  let '(neg, body) := signed s in
  match number body with
  | Some z => Some (if neg then - z else z)
  | None => None
  end.

(** The text before and after the first ["."]. *)
Fixpoint split_point (s : string) : string * option string :=
  match s with
  | EmptyString => (EmptyString, None)
  | String "." s' => (EmptyString, Some s')
  | String c s' => let '(a, b) := split_point s' in (String c a, b)
  end.

Definition parse_float (s : string) : option float :=
  let '(neg, body) := signed s in
  let '(whole, frac) := split_point body in
  let frac := default EmptyString frac in
  match whole, frac with
  | EmptyString, EmptyString => None
  | _, _ =>
      match digits_value 0 (whole +:+ frac), float_of_int (10 ^ Z.of_nat (String.length frac)) with
      | Some m, Some scale =>
          match float_of_int m with
          | Some f => Some (let q := PrimFloat.div f scale in if neg then PrimFloat.opp q else q)
          | None => None
          end
      | _, _ => None
      end
  end.

Definition is_leap (y : Z) : bool :=
  (y mod 4 =? 0) && (negb (y mod 100 =? 0) || (y mod 400 =? 0)).

Definition days_in_month (y m : Z) : Z :=
  if m =? 2 then (if is_leap y then 29 else 28)
  else if (m =? 4) || (m =? 6) || (m =? 9) || (m =? 11) then 30
  else 31.

Definition parse_date (s : string) : option date :=
  if negb (String.length s =? 10)%nat then None
  else if negb (String.eqb (substring 4 1 s) "-" && String.eqb (substring 7 1 s) "-")
  then None
  else
    match number (substring 0 4 s), number (substring 5 2 s), number (substring 8 2 s) with
    | Some y, Some m, Some d =>
        if (1 <=? y) && (1 <=? m) && (m <=? 12) && (1 <=? d) && (d <=? days_in_month y m)
        then Some (Date y m d)
        else None
    | _, _, _ => None
    end.

(** The exact decimal expansion of a finite float: sign, digits, and how
    many of the digits stand after the point (no trailing zero among them). *)
Fixpoint strip_zeros (fuel : nat) (digits : Z) (places : nat) : Z * nat :=
  match fuel, places with
  | S fuel', S places' =>
      if digits mod 10 =? 0 then strip_zeros fuel' (digits / 10) places'
      else (digits, places)
  | _, _ => (digits, places)
  end.

Definition decimal_of_float (f : float) : option (bool * Z * nat) :=
  match Prim2SF f with
  | S754_zero s => Some (s, 0, 0%nat)
  | S754_finite s m e =>
      if 0 <=? e then Some (s, Z.shiftl (Z.pos m) e, 0%nat)
      else
        let places := Z.to_nat (- e) in
        let '(digits, places') := strip_zeros places (Z.pos m * 5 ^ (- e)) places in
        Some (s, digits, places')
  | _ => None
  end.

(** [places] digits of [n], with leading zeros. *)
Definition padded_digits (n : Z) (places : nat) : string :=
  match pretty (10 ^ Z.of_nat places + n) with
  | String _ rest => rest
  | EmptyString => EmptyString
  end.

Definition show_decimal (whole_only : string) (d : bool * Z * nat) : string :=
  let '(neg, digits, places) := d in
  let scale := 10 ^ Z.of_nat places in
  (if neg then "-" else "")
  +:+ pretty (digits / scale)
  +:+ match places with
      | O => whole_only
      | S _ => "." +:+ padded_digits (digits mod scale) places
      end.

(** [str(f)]: ["10.0"], ["12.5"], ["-3.0"]. *)
Definition show_float (f : float) : string :=
  match decimal_of_float f with
  | Some d => show_decimal ".0" d
  | None => "nan"
  end.

(** The sheet's text for a number: ["10"], ["12.5"], ["-3"]. *)
Definition show_cell (v : pyval) : string :=
  match v with
  | PNone => ""
  | PBool b => if b then "TRUE" else "FALSE"
  | PInt z => pretty z
  | PFloat f =>
      match decimal_of_float f with
      | Some d => show_decimal "" d
      | None => "#NUM!"
      end
  | PStr s => s
  end.

(** The text of an item in the detail of the 404 response; no statement
    looks into it. *)
Definition show_item (it : gmap string pyval) : string := "{...}".

Definition cpython : PyRuntime :=
  Build_PyRuntime parse_float parse_int parse_date show_float show_cell show_item eq_refl eq_refl.

End Reference.

(** ** Vocabulary of the statements *)

Section Vocabulary.
Context {RT : PyRuntime}.

(** The rows a tab holds. *)
Definition sheet (w : world) (tab : string) : table := default [] (tabs w !! tab).

(** A row answers the lookup under either key. *)
Definition product_hit (product_id short_id : pyval) (p : record) : bool :=
  get_eq (p !! "product_id") product_id || get_eq (p !! "short_id") short_id.

(** The first row in scan order that answers, the empty record when none. *)
Definition first_hit (product_id short_id : pyval) (ps : list record) : record :=
  default ∅ (List.find (product_hit product_id short_id) ps).

(** A row the resolver may select. *)
Definition candidate (reseller_id product_id : pyval) (on_date : date) (r : record)
  : bool :=
  ids_match reseller_id product_id r && in_window on_date r.

(** The comparison of line 71 can read the row once it is the incumbent. *)
Definition reparses (r : record) : Prop :=
  is_Some (fromisoformat (default "1970-01-01" (r !! "valid_from"))).

(** What the scan holds after the rows seen so far: nothing when none was a
    candidate, else a candidate whose [valid_from] is the latest. *)
Definition latest_of (reseller_id product_id : pyval) (on_date : date)
    (rows : list record) (best : record) : Prop :=
  (best = ∅ /\ Forall (fun r => candidate reseller_id product_id on_date r = false) rows)
  \/ (best <> ∅ /\ best ∈ rows
      /\ candidate reseller_id product_id on_date best = true
      /\ Forall (fun r => candidate reseller_id product_id on_date r = true ->
                          date_leb (vf_date r) (vf_date best) = true) rows).

(** The request fields a line is recorded under. *)
Definition reseller_of (p : gmap string pyval) : pyval := field p "reseller_id" (PStr "").
Definition user_of (p : gmap string pyval) : pyval := field p "user_id" (PStr "").
Definition customer_of (p : gmap string pyval) : pyval := field p "customer_id" (PStr "C-000").
Definition payment_of (p : gmap string pyval) : pyval := field p "payment_method" (PStr "cash").

(** The item [it], sold under [reseller_id], gets as far as a price: its
    quantity converts to [q], its product is the row [prod], the resolver
    returns [rp], and [price] and [total] are the numbers of lines 142-146. *)
Definition line_resolves (it : gmap string pyval) (reseller_id : pyval) (w : world)
    (q : Z) (prod rp : record) (price total : float) : Prop :=
  py_int (field it "qty" (PInt 1)) = Ok q
  /\ lookup_product_scan (to_dicts (sheet w "Products"))
       (field it "product_id" PNone) (field it "short_id" PNone) = prod
  /\ dict_empty prod = false
  /\ price_scan reseller_id (of_cell (prod !! "product_id")) (today w) ∅
       (to_dicts (sheet w "ResellerPricing")) = Ok rp
  /\ sale_price rp prod = Ok price
  /\ float_mul_int price q = Ok total.

(** The Sale row of a resolved line of the request [p]. *)
Definition line_row (p : gmap string pyval) (w : world) (q : Z) (prod rp : record)
    (price total : float) : list pyval :=
  sale_row (now_iso w) (user_of p)
    (person_entity (if truthy (user_of p)
                    then lookup_user_scan (to_dicts (sheet w "Users")) (user_of p)
                    else ∅))
    (customer_of p) (of_cell (prod !! "product_id")) (of_cell (prod !! "short_id"))
    q price (sale_commission rp) total (payment_of p).

(** The world in which the stock adjustment of a line starts: the user, the
    product and the price have been read and the Sale row appended. *)
Definition world_sold (user_id : pyval) (row : list pyval) (w : world) : world :=
  snd (append_row "Sales" row
         (logged (SheetGet "ResellerPricing")
            (logged (SheetGet "Products") (snd (lookup_user user_id w))))).


(** A cell that gives no number: missing, empty, or rejected by [float]. *)
Definition unusable (c : option string) : Prop :=
  chosen c = None \/ exists s, c = Some s /\ float_of_str s = None.


(** The user record a request is recorded under. *)
Definition fst_user (p : gmap string pyval) (w : world) : record :=
  if truthy (user_of p)
  then lookup_user_scan (to_dicts (sheet w "Users")) (user_of p)
  else ∅.


(** The store calls of a request up to the Products tab. *)
Definition reads_to_products (p : gmap string pyval) : list access :=
  (if truthy (user_of p) then [SheetGet "Users"] else []) ++ [SheetGet "Products"].

(** A checkout item together with what it resolves to. *)
Record line_plan : Type := LinePlan {
  plan_item : gmap string pyval;
  plan_qty : Z;
  plan_product : record;
  plan_price_row : record;
  plan_price : float;
  plan_total : float
}.

Definition plan_resolves (reseller_id : pyval) (w : world) (pl : line_plan) : Prop :=
  line_resolves (plan_item pl) reseller_id w (plan_qty pl) (plan_product pl)
    (plan_price_row pl) (plan_price pl) (plan_total pl).

Definition plan_row (p : gmap string pyval) (w : world) (pl : line_plan) : list pyval :=
  line_row p w (plan_qty pl) (plan_product pl) (plan_price_row pl) (plan_price pl)
    (plan_total pl).

(** [grand_total += total], item after item. *)
Definition plans_total (start : float) (pls : list line_plan) : float :=
  fold_left (fun acc pl => PrimFloat.add acc (plan_total pl)) pls start.

(** Two worlds with the same clock and the same tabs, Sales and Stock apart. *)
Definition same_catalog (w1 w0 : world) : Prop :=
  (forall t, t <> "Sales" -> t <> "Stock" -> sheet w1 t = sheet w0 t)
  /\ today w1 = today w0
  /\ now_iso w1 = now_iso w0.

(** The world a resolved line leaves: Products and ResellerPricing read, the
    row appended, the stock adjusted. *)
Definition after_line (row : list pyval) (product_id reseller_id : pyval) (q : Z)
    (w : world) : world :=
  snd (adjust_stock product_id reseller_id q
         (snd (append_row "Sales" row
                 (logged (SheetGet "ResellerPricing") (logged (SheetGet "Products") w))))).


(** What a request may do to the world: append to Sales, rewrite rows of
    Stock below its header, call the store; nothing else. *)
Definition extends (w w' : world) : Prop :=
  same_catalog w' w
  /\ (exists more, sheet w' "Sales" = sheet w "Sales" ++ more)
  /\ length (sheet w' "Stock") = length (sheet w "Stock")
  /\ head (sheet w' "Stock") = head (sheet w "Stock")
  /\ exists new, calls w' = calls w ++ new.

Definition keeps {A : Type} (c : M A) : Prop := forall w, extends w (snd (c w)).


(** The rows appended, and the rows updated, among some store calls. *)
Definition appended (cs : list access) : list (string * list pyval) :=
  omap (fun c => match c with SheetAppend t row => Some (t, row) | _ => None end) cs.

Definition updated (cs : list access) : list (string * nat * list pyval) :=
  omap (fun c => match c with SheetUpdate t i _ row => Some (t, i, row) | _ => None end) cs.

End Vocabulary.

(** ** Concrete sheets *)

Module Fixtures.

Definition mk_world (sheets : list (string * table)) : world :=
  World (list_to_map sheets) (Date 2024 7 1) "2024-07-01T12:00:00" [].

Definition pricing_header : list string :=
  ["reseller_id"; "product_id"; "valid_from"; "valid_to"; "price"; "commission_pct"].

(** An open-ended price followed by a dated one. *)
Definition open_then_dated : world :=
  mk_world [("ResellerPricing",
             [pricing_header;
              ["R1"; "P1"; ""; ""; "10.0"; "5.0"];
              ["R1"; "P1"; "2024-01-01"; "2024-12-31"; "12.5"; "5.0"]])].


(** A single price whose start is not a date. *)
Definition garbled_only : world :=
  mk_world [("ResellerPricing",
             [pricing_header; ["R1"; "P1"; "n/a"; "n/a"; "10.0"; "5.0"]])].

Definition users_header : list string := ["user_id"; "person_entity_id"; "reseller_id"].
Definition products_header : list string := ["product_id"; "short_id"; "name"; "base_price"].
Definition stock_header : list string := ["product_id"; "reseller_id"; "reseller_qty"].

(** A small shop: user U1 sells for reseller R1; the jam row, whose short id
    is S9, stands before the honey row, whose product id is P1. *)
Definition shop_with (pricing stock : table) : world :=
  mk_world
    [("Users", [users_header; ["U1"; "person.anna"; "R1"]]);
     ("Products",
      [products_header; ["P2"; "S9"; "Jam"; "8.0"]; ["P1"; "S1"; "Honey"; "12.0"]]);
     ("ResellerPricing", pricing_header :: pricing);
     ("Stock", stock_header :: stock);
     ("Sales", [])].

Definition honey_price_row : list string :=
  ["R1"; "P1"; "2024-01-01"; "2024-12-31"; "10.0"; "5.0"].

Definition shop : world :=
  shop_with [honey_price_row]
    [["P2"; "R1"; "4"]; ["P1"; "R1"; "2"]; ["P1"; "U1"; "9"]; ["P1"; "R1"; "40"]].

(** The same shop with a stock count that is not a number. *)
Definition shop_bad_count : world :=
  shop_with [honey_price_row] [["P1"; "R1"; "n/a"]; ["P1"; "R1"; "40"]].

(** The same shop with a reseller price and a commission that are not numbers. *)
Definition garbled_price_row : list string :=
  ["R1"; "P1"; "2024-01-01"; "2024-12-31"; "abc"; "n/a"].

Definition shop_bad_price : world :=
  shop_with [garbled_price_row] [["P1"; "R1"; "2"]].

Definition honey : record := to_dict products_header ["P1"; "S1"; "Honey"; "12.0"].
Definition jam : record := to_dict products_header ["P2"; "S9"; "Jam"; "8.0"].
Definition honey_price : record := to_dict pricing_header honey_price_row.
Definition garbled_price : record := to_dict pricing_header garbled_price_row.

(** A sale of honey by U1 for R1. *)
Definition sale_of (qty : pyval) : gmap string pyval :=
  list_to_map
    [("user_id", PStr "U1"); ("reseller_id", PStr "R1"); ("product_id", PStr "P1");
     ("qty", qty)].

(** A request that names no product. *)
Definition nameless (qty : pyval) : gmap string pyval :=
  list_to_map [("user_id", PStr "U1"); ("reseller_id", PStr "R1"); ("qty", qty)].

(** A checkout body, and two items: honey, and a product the shop lacks. *)
Definition basket_body : gmap string pyval :=
  list_to_map [("user_id", PStr "U1"); ("reseller_id", PStr "R1")].
Definition honey_item : gmap string pyval :=
  list_to_map [("product_id", PStr "P1"); ("qty", PInt 2)].
Definition ghost_item : gmap string pyval :=
  list_to_map [("product_id", PStr "P404")].


Definition garbled_window : record :=
  to_dict pricing_header ["R1"; "P1"; "n/a"; "n/a"; "10.0"; "5.0"].


(** Two overlapping dated prices. *)
Definition overlapping : world :=
  mk_world [("ResellerPricing",
             [pricing_header;
              ["R1"; "P1"; "2024-01-01"; "2024-12-31"; "10.0"; "5.0"];
              ["R1"; "P1"; "2024-06-01"; "2024-12-31"; "12.5"; "5.0"]])].


Definition open_price : record := to_dict pricing_header ["R1"; "P1"; ""; ""; "10.0"; "5.0"].
Definition dated_price : record :=
  to_dict pricing_header ["R1"; "P1"; "2024-01-01"; "2024-12-31"; "12.5"; "5.0"].

(** A shop whose honey has a base price that is not a number, and no
    reseller price. *)
Definition shop_bad_base : world :=
  mk_world
    [("Users", [users_header; ["U1"; "person.anna"; "R1"]]);
     ("Products", [products_header; ["P1"; "S1"; "Honey"; "free"]]);
     ("ResellerPricing", [pricing_header]);
     ("Stock", [stock_header; ["P1"; "R1"; "2"]]);
     ("Sales", [])].

Definition free_honey : record := to_dict products_header ["P1"; "S1"; "Honey"; "free"].

(** Requests: a product the shop lacks; honey without reseller; honey for a
    reseller that has no price; jam in a basket. *)
Definition ghost_sale : gmap string pyval :=
  list_to_map [("user_id", PStr "U1"); ("reseller_id", PStr "R1");
               ("product_id", PStr "P404")].
Definition house_sale : gmap string pyval :=
  list_to_map [("user_id", PStr "U1"); ("product_id", PStr "P1")].
Definition stranger_sale : gmap string pyval :=
  list_to_map [("user_id", PStr "U1"); ("reseller_id", PStr "R9");
               ("product_id", PStr "P1"); ("qty", PInt 2)].
Definition jam_item : gmap string pyval := list_to_map [("short_id", PStr "S9")].

Definition honey_plan : line_plan := LinePlan honey_item 2 honey honey_price 10%float 20%float.
Definition jam_plan : line_plan := LinePlan jam_item 1 jam ∅ 8%float 8%float.


Definition overlap_first : record :=
  to_dict pricing_header ["R1"; "P1"; "2024-01-01"; "2024-12-31"; "10.0"; "5.0"].
Definition overlap_second : record :=
  to_dict pricing_header ["R1"; "P1"; "2024-06-01"; "2024-12-31"; "12.5"; "5.0"].

(** Jam whose quantity is a word. *)
Definition garbled_jam_item : gmap string pyval :=
  list_to_map [("short_id", PStr "S9"); ("qty", PStr "two")].






End Fixtures.

(** * Properties *)

Section Proofs.
Context {RT : PyRuntime}.

(** ** The monad *)

Lemma bind_ok {A B : Type} (c : M A) (k : A -> M B) (w w' : world) (a : A) :
  c w = (Ok a, w') -> (c ≫= k) w = k a w'.
Proof. intros H. unfold mbind, M_bind. now rewrite H. Qed.

Lemma bind_raise {A B : Type} (c : M A) (k : A -> M B) (w w' : world) (e : pyerr) :
  c w = (Raise e, w') -> (c ≫= k) w = (Raise e, w').
Proof. intros H. unfold mbind, M_bind. now rewrite H. Qed.

Lemma sheet_logged (c : access) (w : world) (tab : string) :
  sheet (logged c w) tab = sheet w tab.
Proof. reflexivity. Qed.

Lemma sheet_with_tab_ne (t tab : string) (rows : table) (w : world) :
  t <> tab -> sheet (with_tab t rows w) tab = sheet w tab.
Proof. intros H. unfold sheet, with_tab; simpl. now rewrite lookup_insert_ne. Qed.

Lemma sheet_with_tab_eq (t : string) (rows : table) (w : world) :
  sheet (with_tab t rows w) t = rows.
Proof. unfold sheet, with_tab; simpl. now rewrite lookup_insert_eq. Qed.

(** ** Product lookup *)

Lemma lookup_product_scan_first_hit (ps : list record) (product_id short_id : pyval) :
  truthy product_id = true -> truthy short_id = true ->
  lookup_product_scan ps product_id short_id = first_hit product_id short_id ps.
Proof.
  intros Hp Hs. unfold first_hit, product_hit.
  induction ps as [|p ps IH]; simpl; [reflexivity|].
  rewrite Hp, Hs; simpl.
  destruct (get_eq (p !! "product_id") product_id); simpl; [reflexivity|].
  destruct (get_eq (p !! "short_id") short_id); simpl; [reflexivity|].
  exact IH.
Qed.

Lemma first_hit_skip (product_id short_id : pyval) (pre rest : list record) :
  Forall (fun x => product_hit product_id short_id x = false) pre ->
  first_hit product_id short_id (pre ++ rest) = first_hit product_id short_id rest.
Proof.
  unfold first_hit. induction 1 as [|x pre Hx _ IH]; simpl; [reflexivity|].
  now rewrite Hx.
Qed.

(** C9.  With both keys supplied, [lookup_product] returns the first row in
    scan order whose [product_id] equals the one asked for or whose
    [short_id] equals the one asked for.  A row that matches on [short_id]
    and has no matching row before it is the result, whatever rows matching
    on [product_id] come after it; the empty record is returned when no row
    matches either key. *)
Theorem lookup_product_scan_order (w : world) (product_id short_id : pyval) :
  truthy product_id = true -> truthy short_id = true ->
  let ps := to_dicts (sheet w "Products") in
  fst (lookup_product product_id short_id w) = Ok (first_hit product_id short_id ps)
  /\ (forall (pre : list record) (r : record) (post : list record),
        ps = pre ++ r :: post ->
        Forall (fun x => product_hit product_id short_id x = false) pre ->
        get_eq (r !! "short_id") short_id = true ->
        fst (lookup_product product_id short_id w) = Ok r)
  /\ (Forall (fun x => product_hit product_id short_id x = false) ps ->
      fst (lookup_product product_id short_id w) = Ok ∅).
Proof.
  intros Hp Hs ps.
  assert (Hrun : fst (lookup_product product_id short_id w)
                 = Ok (first_hit product_id short_id ps)).
  { unfold lookup_product, mbind, M_bind, read_tab, mret, M_ret; simpl.
    f_equal. now apply lookup_product_scan_first_hit. }
  split; [exact Hrun|split].
  - intros pre r post Hps Hpre Hr. rewrite Hrun, Hps, first_hit_skip by exact Hpre.
    unfold first_hit, product_hit; simpl. rewrite Hr, orb_true_r. reflexivity.
  - intros Hnone. rewrite Hrun.
    rewrite <- (app_nil_r ps), first_hit_skip by exact Hnone. reflexivity.
Qed.

(** ** Dates *)

Lemma date_leb_refl (a : date) : date_leb a a = true.
Proof.
  unfold date_leb. rewrite !Z.eqb_refl, Z.leb_refl; simpl.
  now rewrite !orb_true_r.
Qed.

Lemma date_leb_true (a b : date) :
  date_leb a b = true
  <-> (year a < year b
       \/ (year a = year b
           /\ (month a < month b \/ (month a = month b /\ day a <= day b)))).
Proof.
  unfold date_leb.
  rewrite orb_true_iff, andb_true_iff, orb_true_iff, andb_true_iff.
  now rewrite !Z.ltb_lt, !Z.eqb_eq, Z.leb_le.
Qed.

Lemma date_leb_trans (a b c : date) :
  date_leb a b = true -> date_leb b c = true -> date_leb a c = true.
Proof. rewrite !date_leb_true. lia. Qed.

Lemma date_leb_total (a b : date) : date_leb a b = false -> date_leb b a = true.
Proof.
  intros H. apply date_leb_true.
  assert (Hn : ~ date_leb a b = true) by now rewrite H.
  rewrite date_leb_true in Hn. lia.
Qed.

(** ** Price resolution *)

Lemma reparse_vf_date (r : record) (b : date) :
  fromisoformat (default "1970-01-01" (r !! "valid_from")) = Some b -> b = vf_date r.
Proof.
  unfold vf_date. destruct (r !! "valid_from") as [s|]; simpl.
  - destruct (String.eqb_spec s "") as [->|_].
    + rewrite fromisoformat_empty. discriminate.
    + intros ->. reflexivity.
  - rewrite fromisoformat_epoch. now intros [= <-].
Qed.

Lemma price_step_skip (reseller_id product_id : pyval) (on_date : date)
    (best r : record) :
  candidate reseller_id product_id on_date r = false ->
  price_step reseller_id product_id on_date best r = Ok best.
Proof.
  unfold candidate, price_step.
  destruct (ids_match reseller_id product_id r); simpl; [|reflexivity].
  now intros ->.
Qed.

Lemma price_step_first (reseller_id product_id : pyval) (on_date : date) (r : record) :
  candidate reseller_id product_id on_date r = true ->
  price_step reseller_id product_id on_date ∅ r = Ok r.
Proof.
  unfold candidate, price_step. intros [-> ->]%andb_true_iff. reflexivity.
Qed.

Lemma price_step_next (reseller_id product_id : pyval) (on_date : date)
    (best r : record) :
  candidate reseller_id product_id on_date r = true ->
  best <> ∅ -> reparses best ->
  price_step reseller_id product_id on_date best r
  = Ok (if date_leb (vf_date best) (vf_date r) then r else best).
Proof.
  unfold candidate, price_step. intros [-> ->]%andb_true_iff Hne [b Hb]; simpl.
  unfold dict_empty. rewrite bool_decide_eq_false_2 by exact Hne.
  rewrite Hb. rewrite (reparse_vf_date _ _ Hb).
  now destruct (date_leb (vf_date best) (vf_date r)).
Qed.

Lemma price_scan_skip (reseller_id product_id : pyval) (on_date : date)
    (best : record) (rows : list record) :
  Forall (fun r => ids_match reseller_id product_id r = false) rows ->
  price_scan reseller_id product_id on_date best rows = Ok best.
Proof.
  induction 1 as [|r rows Hr _ IH]; simpl; [reflexivity|].
  rewrite price_step_skip; [exact IH|].
  unfold candidate. now rewrite Hr.
Qed.

Lemma price_scan_app (reseller_id product_id : pyval) (on_date : date)
    (best mid : record) (pre post : list record) :
  price_scan reseller_id product_id on_date best pre = Ok mid ->
  price_scan reseller_id product_id on_date best (pre ++ post)
  = price_scan reseller_id product_id on_date mid post.
Proof.
  revert best. induction pre as [|r pre IH]; simpl; intros best.
  - now intros [= ->].
  - destruct (price_step reseller_id product_id on_date best r); [apply IH|discriminate].
Qed.

Lemma price_scan_invariant (reseller_id product_id : pyval) (on_date : date)
    (rows seen : list record) (best : record) :
  Forall (fun r => candidate reseller_id product_id on_date r = true ->
                   r <> ∅ /\ reparses r) (seen ++ rows) ->
  latest_of reseller_id product_id on_date seen best ->
  exists best',
    price_scan reseller_id product_id on_date best rows = Ok best'
    /\ latest_of reseller_id product_id on_date (seen ++ rows) best'.
Proof.
  revert seen best. induction rows as [|r rows IH]; intros seen best Hall Hinv; simpl.
  - exists best. now rewrite app_nil_r.
  - replace (seen ++ r :: rows) with ((seen ++ [r]) ++ rows) in *
      by now rewrite <- app_assoc.
    assert (Hr : candidate reseller_id product_id on_date r = true -> r <> ∅ /\ reparses r).
    { pose proof Hall as Hall'.
      apply Forall_app in Hall' as [Hall' _]. apply Forall_app in Hall' as [_ Hall'].
      now inversion Hall'. }
    destruct (candidate reseller_id product_id on_date r) eqn:Hc.
    + destruct (Hr eq_refl) as [Hne Hre].
      destruct Hinv as [[-> Hnone] | (Hbne & Hin & Hbc & Hmax)].
      * rewrite price_step_first by exact Hc. apply IH; [exact Hall|].
        right. repeat split; [exact Hne|rewrite elem_of_app, list_elem_of_singleton; now right|exact Hc|].
        apply Forall_app; split.
        -- eapply Forall_impl; [exact Hnone|]. simpl. intros x Hx Hx'. congruence.
        -- constructor; [|constructor]. intros _. apply date_leb_refl.
      * assert (Hbre : reparses best).
        { pose proof Hall as Hall'. rewrite Forall_forall in Hall'.
          apply Hall'; [|exact Hbc]. rewrite !elem_of_app. now left; left. }
        rewrite price_step_next by assumption.
        destruct (date_leb (vf_date best) (vf_date r)) eqn:Hle.
        -- apply IH; [exact Hall|]. right.
           repeat split; [exact Hne|rewrite elem_of_app, list_elem_of_singleton; now right|exact Hc|].
           apply Forall_app; split.
           ++ eapply Forall_impl; [exact Hmax|]. simpl. intros x Hx Hx'.
              eapply date_leb_trans; [now apply Hx|exact Hle].
           ++ constructor; [|constructor]. intros _. apply date_leb_refl.
        -- apply IH; [exact Hall|]. right.
           repeat split; [exact Hbne|rewrite elem_of_app; now left|exact Hbc|].
           apply Forall_app; split; [exact Hmax|].
           constructor; [|constructor]. intros _. now apply date_leb_total.
    + rewrite price_step_skip by exact Hc. apply IH; [exact Hall|].
      destruct Hinv as [[-> Hnone] | (Hbne & Hin & Hbc & Hmax)].
      * left. split; [reflexivity|]. apply Forall_app; split; [exact Hnone|].
        now constructor.
      * right. repeat split; [exact Hbne|rewrite elem_of_app; now left|exact Hbc|].
        apply Forall_app; split; [exact Hmax|].
        constructor; [|constructor]. intros Hx. congruence.
Qed.

(** When every candidate row can be read again by line 71, the resolver
    returns, and returns the candidate with the latest [valid_from], or the
    empty record when there is no candidate. *)
Theorem price_scan_latest (reseller_id product_id : pyval) (on_date : date)
    (rows : list record) :
  Forall (fun r => candidate reseller_id product_id on_date r = true ->
                   r <> ∅ /\ reparses r) rows ->
  exists best,
    price_scan reseller_id product_id on_date ∅ rows = Ok best
    /\ latest_of reseller_id product_id on_date rows best.
Proof.
  intros Hall.
  apply (price_scan_invariant reseller_id product_id on_date rows [] ∅ Hall).
  left. split; [reflexivity|constructor].
Qed.

Lemma lookup_reseller_price_run (reseller_id product_id : pyval)
    (on_date : option date) (w : world) :
  lookup_reseller_price reseller_id product_id on_date w
  = (price_scan reseller_id product_id (default (today w) on_date) ∅
       (to_dicts (sheet w "ResellerPricing")),
     logged (SheetGet "ResellerPricing") w).
Proof. destruct on_date; reflexivity. Qed.

Lemma price_scan_single (reseller_id product_id : pyval) (on_date : date)
    (pre post : list record) (r : record) :
  Forall (fun x => ids_match reseller_id product_id x = false) pre ->
  Forall (fun x => ids_match reseller_id product_id x = false) post ->
  ids_match reseller_id product_id r = true ->
  price_scan reseller_id product_id on_date ∅ (pre ++ r :: post)
  = Ok (if in_window on_date r then r else ∅).
Proof.
  intros Hpre Hpost Hr.
  rewrite (price_scan_app _ _ _ ∅ ∅) by now apply price_scan_skip.
  simpl. unfold price_step at 1. rewrite Hr; simpl.
  destruct (in_window on_date r); simpl; now apply price_scan_skip.
Qed.

(** ** Stock adjustment *)

Ltac run_bind := unfold mbind at 1, M_bind at 1.

Lemma lift_run {A : Type} (r : res A) (w : world) : lift r w = (r, w).
Proof. reflexivity. Qed.

Lemma stock_scan_none (hdr : list string) (pid_idx rid_idx qty_idx : nat)
    (product_id reseller_id : pyval) (qty : Z) (rows : table) (i : nat) (w : world) :
  Forall (fun r => stock_row_matches pid_idx rid_idx product_id reseller_id r = false) rows ->
  stock_scan hdr pid_idx rid_idx qty_idx product_id reseller_id qty i rows w = (Ok tt, w).
Proof.
  intros H. revert i. induction H as [|r rows Hr _ IH]; intros i; simpl.
  - reflexivity.
  - rewrite Hr. apply IH.
Qed.

(** The scan stops at the first matching row, which sits at sheet position
    [i + length pre]. *)
Lemma stock_scan_first (hdr : list string) (pid_idx rid_idx qty_idx : nat)
    (product_id reseller_id : pyval) (qty : Z) (pre post : table) (r : list string)
    (i : nat) (w : world) :
  Forall (fun r => stock_row_matches pid_idx rid_idx product_id reseller_id r = false) pre ->
  stock_row_matches pid_idx rid_idx product_id reseller_id r = true ->
  stock_scan hdr pid_idx rid_idx qty_idx product_id reseller_id qty i (pre ++ r :: post) w
  = match current_qty r qty_idx with
    | None => (Ok tt, w)
    | Some cur =>
        match float_sub_int cur qty with
        | Ok v => update_row "Stock" (i + length pre)%nat hdr
                    (<[qty_idx := PFloat v]> (padded hdr r)) w
        | Raise e => (Raise e, w)
        end
    end.
Proof.
  intros Hpre Hr. revert i. induction Hpre as [|x pre Hx _ IH]; intros i; simpl.
  - rewrite Hr. rewrite Nat.add_0_r.
    destruct (current_qty r qty_idx) as [cur|]; [|reflexivity].
    unfold mbind, M_bind. rewrite lift_run.
    destruct (float_sub_int cur qty); reflexivity.
  - rewrite Hx, IH. now rewrite Nat.add_succ_r.
Qed.

Lemma insert_after_header {A : Type} (h x y : A) (pre post : list A) :
  <[(2 + length pre - 1)%nat := y]> (h :: pre ++ x :: post) = h :: pre ++ y :: post.
Proof.
  replace (2 + length pre - 1)%nat with (S (length pre + 0)) by lia.
  simpl. f_equal. now rewrite insert_app_r.
Qed.

(** Every outcome of the scan: it returns, writes to no tab but Stock,
    appends nothing, and keeps the clock. *)
Lemma stock_scan_frame (hdr : list string) (pid_idx rid_idx qty_idx : nat)
    (product_id reseller_id : pyval) (qty : Z) (qf : float) (rows : table)
    (i : nat) (w : world) :
  float_of_int qty = Some qf ->
  exists w' new,
    stock_scan hdr pid_idx rid_idx qty_idx product_id reseller_id qty i rows w = (Ok tt, w')
    /\ (forall t, t <> "Stock" -> sheet w' t = sheet w t)
    /\ calls w' = calls w ++ new /\ appended new = []
    /\ today w' = today w /\ now_iso w' = now_iso w.
Proof.
  intros Hq. revert i. induction rows as [|r rows IH]; intros i; simpl.
  - exists w, []. rewrite app_nil_r. repeat split; reflexivity.
  - destruct (stock_row_matches pid_idx rid_idx product_id reseller_id r); [|apply IH].
    destruct (current_qty r qty_idx) as [cur|].
    + unfold mbind, M_bind, float_sub_int. rewrite lift_run, Hq.
      eexists _, [_]. split; [reflexivity|].
      split; [|repeat split; reflexivity].
      intros t Ht. unfold update_row; simpl.
      rewrite sheet_logged. now apply sheet_with_tab_ne.
    + exists w, []. rewrite app_nil_r. repeat split; reflexivity.
Qed.

Lemma adjust_stock_frame (product_id reseller_id : pyval) (qty : Z) (qf : float)
    (w : world) :
  float_of_int qty = Some qf ->
  exists w' new,
    adjust_stock product_id reseller_id qty w = (Ok tt, w')
    /\ (forall t, t <> "Stock" -> sheet w' t = sheet w t)
    /\ calls w' = calls w ++ new /\ appended new = []
    /\ today w' = today w /\ now_iso w' = now_iso w.
Proof.
  intros Hq. unfold adjust_stock, mbind, M_bind, read_tab.
  set (w1 := logged (SheetGet "Stock") w).
  assert (Hstay : exists w' new, (Ok tt, w1) = (Ok tt, w')
            /\ (forall t, t <> "Stock" -> sheet w' t = sheet w t)
            /\ calls w' = calls w ++ new /\ appended new = []
            /\ today w' = today w /\ now_iso w' = now_iso w).
  { exists w1, [SheetGet "Stock"]. repeat split; reflexivity. }
  destruct (default [] (tabs w !! "Stock")) as [|hdr body]; [exact Hstay|].
  destruct (list_index "product_id" hdr) as [pid_idx|]; [|exact Hstay].
  destruct (list_index "reseller_id" hdr) as [rid_idx|]; [|exact Hstay].
  destruct (list_index "reseller_qty" hdr) as [qty_idx|]; [|exact Hstay].
  destruct (truthy reseller_id); [|exact Hstay].
  destruct (stock_scan_frame hdr pid_idx rid_idx qty_idx product_id reseller_id qty qf
              body 2 w1 Hq) as (w' & new & Hrun & Htabs & Hcalls & Happ & Htoday & Hnow).
  exists w', (SheetGet "Stock" :: new). split; [exact Hrun|].
  split; [exact Htabs|]. split; [|split; [exact Happ|split; assumption]].
  rewrite Hcalls. unfold w1; simpl. now rewrite <- app_assoc.
Qed.

(** ** Running a line *)

Lemma lookup_user_run (user_id : pyval) (w : world) :
  lookup_user user_id w
  = (Ok (if truthy user_id then lookup_user_scan (to_dicts (sheet w "Users")) user_id else ∅),
     if truthy user_id then logged (SheetGet "Users") w else w).
Proof. unfold lookup_user. now destruct (truthy user_id). Qed.

Lemma lookup_product_run (product_id short_id : pyval) (w : world) :
  lookup_product product_id short_id w
  = (Ok (lookup_product_scan (to_dicts (sheet w "Products")) product_id short_id),
     logged (SheetGet "Products") w).
Proof. reflexivity. Qed.

Lemma lookup_product_scan_unsupplied (ps : list record) (product_id short_id : pyval) :
  truthy product_id = false -> truthy short_id = false ->
  lookup_product_scan ps product_id short_id = ∅.
Proof.
  intros Hp Hs. induction ps as [|p ps IH]; simpl; [reflexivity|].
  now rewrite Hp, Hs.
Qed.

Lemma float_mul_int_inv (x total : float) (n : Z) :
  float_mul_int x n = Ok total ->
  exists y, float_of_int n = Some y /\ total = PrimFloat.mul x y.
Proof.
  unfold float_mul_int. destruct (float_of_int n) as [y|]; [|discriminate].
  intros [= <-]. now exists y.
Qed.

(** A line whose price resolves runs to the stock adjustment, and its outcome
    is the outcome of that adjustment. *)
Lemma record_line_run (user_id reseller_id customer_id payment_method : pyval)
    (person_entity_id : string) (prod rp : record) (q : Z) (price total : float)
    (w : world) :
  price_scan reseller_id (of_cell (prod !! "product_id")) (today w) ∅
    (to_dicts (sheet w "ResellerPricing")) = Ok rp ->
  sale_price rp prod = Ok price ->
  float_mul_int price q = Ok total ->
  record_line user_id reseller_id customer_id payment_method person_entity_id prod q w
  = match
      adjust_stock (of_cell (prod !! "product_id")) reseller_id q
        (snd (append_row "Sales"
                (sale_row (now_iso w) user_id person_entity_id customer_id
                   (of_cell (prod !! "product_id")) (of_cell (prod !! "short_id"))
                   q price (sale_commission rp) total payment_method)
                (logged (SheetGet "ResellerPricing") w)))
    with
    | (Ok _, w') => (Ok (price, sale_commission rp, total), w')
    | (Raise e, w') => (Raise e, w')
    end.
Proof.
  intros Hrp Hprice Htotal. unfold record_line. cbv zeta.
  run_bind. rewrite lookup_reseller_price_run.
  change (default (today w) None) with (today w). rewrite Hrp. cbv beta iota.
  run_bind. rewrite lift_run, Hprice. cbv beta iota.
  run_bind. rewrite lift_run, Htotal. cbv beta iota.
  run_bind. unfold datetime_now_isoformat at 1. cbv beta iota.
  run_bind. unfold append_row at 1. cbv beta iota.
  run_bind. unfold append_row, mret, M_ret. simpl snd.
  change (now_iso (logged (SheetGet "ResellerPricing") w)) with (now_iso w).
  destruct (adjust_stock _ _ _ _) as [[[]|e] w']; reflexivity.
Qed.

Lemma pos_sale_run (p : gmap string pyval) (w : world) (q : Z) (prod rp : record)
    (price total : float) :
  line_resolves p (reseller_of p) w q prod rp price total ->
  pos_sale p w
  = match
      adjust_stock (of_cell (prod !! "product_id")) (reseller_of p) q
        (world_sold (user_of p) (line_row p w q prod rp price total) w)
    with
    | (Ok _, w') =>
        (Ok (SaleResponse total (customer_of p) (payment_of p) price (sale_commission rp)),
         w')
    | (Raise e, w') => (Raise e, w')
    end.
Proof.
  intros (Hq & Hprod & Hfound & Hrp & Hprice & Htotal).
  unfold pos_sale.
  run_bind. rewrite lift_run, Hq.
  destruct (negb (truthy (field p "product_id" PNone))
            && negb (truthy (field p "short_id" PNone))) eqn:Hids.
  { apply andb_true_iff in Hids as [Hp Hs].
    apply negb_true_iff in Hp, Hs.
    rewrite (lookup_product_scan_unsupplied _ _ _ Hp Hs) in Hprod.
    subst prod. discriminate. }
  run_bind. rewrite lookup_user_run.
  run_bind. rewrite lookup_product_run.
  assert (Hsheet : forall t, sheet (if truthy (field p "user_id" (PStr ""))
                                    then logged (SheetGet "Users") w else w) t = sheet w t).
  { intros t. now destruct (truthy (field p "user_id" (PStr ""))). }
  rewrite Hsheet, Hprod, Hfound.
  run_bind.
  rewrite (record_line_run _ _ _ _ _ prod rp q price total).
  - unfold world_sold, line_row, user_of, reseller_of, customer_of, payment_of.
    rewrite lookup_user_run; cbn [snd].
    replace (now_iso (logged (SheetGet "Products")
               (if truthy (field p "user_id" (PStr "")) then logged (SheetGet "Users") w else w)))
      with (now_iso w) by now destruct (truthy (field p "user_id" (PStr ""))).
    destruct (adjust_stock _ _ _ _) as [[[]|e] w']; reflexivity.
  - rewrite sheet_logged, Hsheet.
    replace (today (logged (SheetGet "Products")
               (if truthy (field p "user_id" (PStr "")) then logged (SheetGet "Users") w else w)))
      with (today w) by now destruct (truthy (field p "user_id" (PStr ""))).
    exact Hrp.
  - exact Hprice.
  - exact Htotal.
Qed.

(** ** The world after the Sale row *)

Lemma world_sold_sales (user_id : pyval) (row : list pyval) (w : world) :
  sheet (world_sold user_id row w) "Sales" = sheet w "Sales" ++ [cell_text <$> row].
Proof.
  unfold world_sold. rewrite lookup_user_run; cbn [snd]. unfold append_row; cbn [snd].
  rewrite sheet_logged, sheet_with_tab_eq. now destruct (truthy user_id).
Qed.

Lemma world_sold_other (user_id : pyval) (row : list pyval) (w : world) (t : string) :
  t <> "Sales" -> sheet (world_sold user_id row w) t = sheet w t.
Proof.
  intros Ht. unfold world_sold. rewrite lookup_user_run; cbn [snd].
  unfold append_row; cbn [snd].
  rewrite sheet_logged, sheet_with_tab_ne by congruence.
  now destruct (truthy user_id).
Qed.

Lemma world_sold_calls (user_id : pyval) (row : list pyval) (w : world) :
  calls (world_sold user_id row w)
  = calls w ++ (if truthy user_id then [SheetGet "Users"] else [])
      ++ [SheetGet "Products"; SheetGet "ResellerPricing"; SheetAppend "Sales" row].
Proof.
  unfold world_sold. rewrite lookup_user_run; cbn [snd]. unfold append_row; cbn [snd].
  destruct (truthy user_id); simpl; now rewrite <- !app_assoc.
Qed.

Lemma appended_app (xs ys : list access) : appended (xs ++ ys) = appended xs ++ appended ys.
Proof. unfold appended. apply omap_app. Qed.

Lemma updated_app (xs ys : list access) : updated (xs ++ ys) = updated xs ++ updated ys.
Proof. unfold updated. apply omap_app. Qed.

(** A resolved line always gets through [pos_sale]: the adjustment that
    follows the Sale row cannot raise once [qty] has been a float operand. *)
Lemma pos_sale_ok (p : gmap string pyval) (w : world) (q : Z) (prod rp : record)
    (price total : float) :
  line_resolves p (reseller_of p) w q prod rp price total ->
  exists w' new,
    pos_sale p w
    = (Ok (SaleResponse total (customer_of p) (payment_of p) price (sale_commission rp)), w')
    /\ adjust_stock (of_cell (prod !! "product_id")) (reseller_of p) q
         (world_sold (user_of p) (line_row p w q prod rp price total) w) = (Ok tt, w')
    /\ sheet w' "Sales"
       = sheet w "Sales" ++ [cell_text <$> line_row p w q prod rp price total]
    /\ calls w' = calls w ++ new
    /\ appended new = [("Sales", line_row p w q prod rp price total)].
Proof.
  intros Hline. rewrite (pos_sale_run _ _ _ _ _ _ _ Hline).
  destruct Hline as (_ & _ & _ & _ & _ & Htotal).
  destruct (float_mul_int_inv _ _ _ Htotal) as (qf & Hqf & _).
  destruct (adjust_stock_frame (of_cell (prod !! "product_id")) (reseller_of p) q qf
              (world_sold (user_of p) (line_row p w q prod rp price total) w) Hqf)
    as (w' & new & Hrun & Htabs & Hcalls & Happ & _).
  rewrite Hrun.
  exists w', ((if truthy (user_of p) then [SheetGet "Users"] else [])
              ++ [SheetGet "Products"; SheetGet "ResellerPricing";
                  SheetAppend "Sales" (line_row p w q prod rp price total)] ++ new).
  split; [reflexivity|]. split; [reflexivity|]. split; [|split].
  - rewrite Htabs by discriminate. apply world_sold_sales.
  - rewrite Hcalls, world_sold_calls. now rewrite <- !app_assoc.
  - rewrite !appended_app, Happ. now destruct (truthy (user_of p)).
Qed.

(** C7.  A sale whose price resolved to [price], with commission
    [sale_commission rp] and quantity [q], returns the total [price * q],
    and appends exactly one Sale row, which holds that quantity, price,
    commission and total; for quantity 3 at price 10.0 the total is 30.0. *)
Theorem recorded_total (p : gmap string pyval) (w : world) (q : Z) (prod rp : record)
    (price total : float) :
  line_resolves p (reseller_of p) w q prod rp price total ->
  exists w' new qf,
    pos_sale p w
    = (Ok (SaleResponse total (customer_of p) (payment_of p) price (sale_commission rp)), w')
    /\ float_of_int q = Some qf
    /\ total = PrimFloat.mul price qf
    /\ sheet w' "Sales"
       = sheet w "Sales" ++ [cell_text <$> line_row p w q prod rp price total]
    /\ calls w' = calls w ++ new
    /\ appended new = [("Sales", line_row p w q prod rp price total)]
    /\ line_row p w q prod rp price total !! 6%nat = Some (PInt q)
    /\ line_row p w q prod rp price total !! 7%nat = Some (PFloat price)
    /\ line_row p w q prod rp price total !! 8%nat = Some (PFloat (sale_commission rp))
    /\ line_row p w q prod rp price total !! 9%nat = Some (PFloat total)
    /\ (q = 3 -> price = 10%float -> total = 30%float).
Proof.
  intros Hline.
  destruct (pos_sale_ok _ _ _ _ _ _ _ Hline) as (w' & new & Hrun & _ & Hsales & Hcalls & Happ).
  destruct Hline as (_ & _ & _ & _ & _ & Htotal).
  destruct (float_mul_int_inv _ _ _ Htotal) as (qf & Hqf & Hmul).
  exists w', new, qf. repeat split; try assumption; try reflexivity.
  intros -> ->. rewrite Hmul. vm_compute in Hqf. now injection Hqf as <-.
Qed.

(** ** The first matching stock row *)

Lemma list_index_lt (name : string) (hdr : list string) (i : nat) :
  list_index name hdr = Some i -> (i < length hdr)%nat.
Proof.
  revert i. induction hdr as [|h hdr IH]; simpl; intros i; [discriminate|].
  destruct (String.eqb h name).
  - intros [= <-]. lia.
  - destruct (list_index name hdr) as [j|]; simpl; [|discriminate].
    intros [= <-]. specialize (IH j eq_refl). lia.
Qed.

Lemma padded_length (hdr r : list string) :
  (length hdr <= length (padded hdr r))%nat.
Proof. unfold padded. rewrite length_app, length_fmap, length_replicate. lia. Qed.

Lemma current_qty_cases (r : list string) (qty_idx : nat) (cur : float) :
  (cell_at r qty_idx = "" /\ cur = 0%float)
  \/ (cell_at r qty_idx <> "" /\ float_of_str (cell_at r qty_idx) = Some cur) ->
  current_qty r qty_idx = Some cur.
Proof.
  unfold current_qty, cell_at. destruct (r !! qty_idx) as [s|]; simpl.
  - destruct (String.eqb_spec s "") as [->|Hs].
    + intros [[_ ->]|[H _]]; [reflexivity|congruence].
    + intros [[H _]|[_ H]]; [congruence|exact H].
  - intros [[_ ->]|[H _]]; [reflexivity|congruence].
Qed.

Lemma adjust_stock_first (product_id reseller_id : pyval) (q : Z) (qf cur : float)
    (w : world) (hdr : list string) (pre post : table) (r : list string)
    (pid_idx rid_idx qty_idx : nat) :
  sheet w "Stock" = hdr :: pre ++ r :: post ->
  list_index "product_id" hdr = Some pid_idx ->
  list_index "reseller_id" hdr = Some rid_idx ->
  list_index "reseller_qty" hdr = Some qty_idx ->
  truthy reseller_id = true ->
  Forall (fun x => stock_row_matches pid_idx rid_idx product_id reseller_id x = false) pre ->
  stock_row_matches pid_idx rid_idx product_id reseller_id r = true ->
  current_qty r qty_idx = Some cur ->
  float_of_int q = Some qf ->
  adjust_stock product_id reseller_id q w
  = (Ok tt,
     logged (SheetUpdate "Stock" (2 + length pre) (length hdr)
               (<[qty_idx := PFloat (PrimFloat.sub cur qf)]> (padded hdr r)))
       (with_tab "Stock"
          (hdr :: pre ++ (cell_text <$> <[qty_idx := PFloat (PrimFloat.sub cur qf)]> (padded hdr r))
               :: post)
          (logged (SheetGet "Stock") w))).
Proof.
  intros Hstock Hpi Hri Hqi Hrid Hpre Hr Hcur Hqf.
  unfold adjust_stock. run_bind. unfold read_tab at 1. cbv beta iota.
  change (default [] (tabs w !! "Stock")) with (sheet w "Stock").
  rewrite Hstock, Hpi, Hri, Hqi, Hrid.
  rewrite stock_scan_first by assumption.
  rewrite Hcur. unfold float_sub_int. rewrite Hqf.
  unfold update_row. do 2 f_equal.
  change (default [] (tabs (logged (SheetGet "Stock") w) !! "Stock")) with (sheet w "Stock").
  rewrite Hstock. now rewrite insert_after_header.
Qed.

Lemma adjust_stock_unparsable (product_id reseller_id : pyval) (q : Z)
    (w : world) (hdr : list string) (pre post : table) (r : list string)
    (pid_idx rid_idx qty_idx : nat) :
  sheet w "Stock" = hdr :: pre ++ r :: post ->
  list_index "product_id" hdr = Some pid_idx ->
  list_index "reseller_id" hdr = Some rid_idx ->
  list_index "reseller_qty" hdr = Some qty_idx ->
  truthy reseller_id = true ->
  Forall (fun x => stock_row_matches pid_idx rid_idx product_id reseller_id x = false) pre ->
  stock_row_matches pid_idx rid_idx product_id reseller_id r = true ->
  current_qty r qty_idx = None ->
  adjust_stock product_id reseller_id q w = (Ok tt, logged (SheetGet "Stock") w).
Proof.
  intros Hstock Hpi Hri Hqi Hrid Hpre Hr Hcur.
  unfold adjust_stock. run_bind. unfold read_tab at 1. cbv beta iota.
  change (default [] (tabs w !! "Stock")) with (sheet w "Stock").
  rewrite Hstock, Hpi, Hri, Hqi, Hrid.
  rewrite stock_scan_first by assumption.
  now rewrite Hcur.
Qed.

(** C5.  For a resolved sale with a reseller id supplied, the stock
    adjustment rewrites exactly one row: the first row in scan order whose
    [product_id] and [reseller_id] cells equal the texts of the sale's product
    and reseller.  Its quantity becomes the current quantity (0 for an empty
    or missing cell) minus [qty], whatever the sign of the result; the rows
    before it and after it, duplicates included, are left as they were. *)
Theorem stock_first_match_decremented (p : gmap string pyval) (w : world) (q : Z)
    (prod rp : record) (price total cur : float)
    (hdr : list string) (pre post : table) (r : list string)
    (pid_idx rid_idx qty_idx : nat) :
  line_resolves p (reseller_of p) w q prod rp price total ->
  truthy (reseller_of p) = true ->
  sheet w "Stock" = hdr :: pre ++ r :: post ->
  list_index "product_id" hdr = Some pid_idx ->
  list_index "reseller_id" hdr = Some rid_idx ->
  list_index "reseller_qty" hdr = Some qty_idx ->
  Forall (fun x => stock_row_matches pid_idx rid_idx (of_cell (prod !! "product_id"))
                     (reseller_of p) x = false) pre ->
  stock_row_matches pid_idx rid_idx (of_cell (prod !! "product_id")) (reseller_of p) r = true ->
  (cell_at r qty_idx = "" /\ cur = 0%float)
  \/ (cell_at r qty_idx <> "" /\ float_of_str (cell_at r qty_idx) = Some cur) ->
  exists w' new qf out,
    pos_sale p w
    = (Ok (SaleResponse total (customer_of p) (payment_of p) price (sale_commission rp)), w')
    /\ float_of_int q = Some qf
    /\ out = <[qty_idx := PFloat (PrimFloat.sub cur qf)]> (padded hdr r)
    /\ out !! qty_idx = Some (PFloat (PrimFloat.sub cur qf))
    /\ sheet w' "Stock" = hdr :: pre ++ (cell_text <$> out) :: post
    /\ calls w' = calls w ++ new
    /\ updated new = [("Stock", (2 + length pre)%nat, out)].
Proof.
  intros Hline Hrid Hstock Hpi Hri Hqi Hpre Hr Hcur.
  destruct (pos_sale_ok _ _ _ _ _ _ _ Hline) as (w' & new & Hrun & Hadj & _ & _ & _).
  destruct Hline as (_ & _ & _ & _ & _ & Htotal).
  destruct (float_mul_int_inv _ _ _ Htotal) as (qf & Hqf & _).
  rewrite (adjust_stock_first _ _ _ qf cur _ hdr pre post r pid_idx rid_idx qty_idx)
    in Hadj; try assumption.
  - injection Hadj as <-.
    eexists _, _, qf, _. split; [exact Hrun|]. split; [exact Hqf|].
    split; [reflexivity|]. split; [|split; [|split]].
    + apply list_lookup_insert_eq.
      pose proof (list_index_lt _ _ _ Hqi). pose proof (padded_length hdr r). lia.
    + rewrite sheet_logged. apply sheet_with_tab_eq.
    + cbn [calls logged with_tab]. rewrite world_sold_calls.
      rewrite <- !app_assoc. reflexivity.
    + rewrite !updated_app. now destruct (truthy (user_of p)).
  - rewrite world_sold_other by discriminate. exact Hstock.
  - now apply current_qty_cases.
Qed.

(** C10.  When the first matching stock row has a quantity cell that is not
    empty and that [float] rejects, the sale still succeeds and its Sale row
    is appended, but the stock adjustment ends there: no row is updated and
    the Stock tab is left as it was. *)
Theorem unparsable_stock_skipped (p : gmap string pyval) (w : world) (q : Z)
    (prod rp : record) (price total : float)
    (hdr : list string) (pre post : table) (r : list string)
    (pid_idx rid_idx qty_idx : nat) (s : string) :
  line_resolves p (reseller_of p) w q prod rp price total ->
  truthy (reseller_of p) = true ->
  sheet w "Stock" = hdr :: pre ++ r :: post ->
  list_index "product_id" hdr = Some pid_idx ->
  list_index "reseller_id" hdr = Some rid_idx ->
  list_index "reseller_qty" hdr = Some qty_idx ->
  Forall (fun x => stock_row_matches pid_idx rid_idx (of_cell (prod !! "product_id"))
                     (reseller_of p) x = false) pre ->
  stock_row_matches pid_idx rid_idx (of_cell (prod !! "product_id")) (reseller_of p) r = true ->
  r !! qty_idx = Some s -> s <> "" -> float_of_str s = None ->
  exists w' new,
    pos_sale p w
    = (Ok (SaleResponse total (customer_of p) (payment_of p) price (sale_commission rp)), w')
    /\ (forall t, t <> "Sales" -> sheet w' t = sheet w t)
    /\ sheet w' "Sales"
       = sheet w "Sales" ++ [cell_text <$> line_row p w q prod rp price total]
    /\ calls w' = calls w ++ new
    /\ updated new = []
    /\ appended new = [("Sales", line_row p w q prod rp price total)].
Proof.
  intros Hline Hrid Hstock Hpi Hri Hqi Hpre Hr Hcell Hne Hnone.
  destruct (pos_sale_ok _ _ _ _ _ _ _ Hline) as (w' & new & Hrun & Hadj & Hsales & _ & _).
  rewrite (adjust_stock_unparsable _ _ _ _ hdr pre post r pid_idx rid_idx qty_idx)
    in Hadj; try assumption.
  - injection Hadj as <-.
    eexists _, _. split; [exact Hrun|]. split; [|split; [exact Hsales|split; [|split]]].
    + intros t Ht. rewrite sheet_logged. now apply world_sold_other.
    + cbn [calls logged]. rewrite world_sold_calls. rewrite <- !app_assoc. reflexivity.
    + rewrite !updated_app. now destruct (truthy (user_of p)).
    + rewrite !appended_app. now destruct (truthy (user_of p)).
  - rewrite world_sold_other by discriminate. exact Hstock.
  - unfold current_qty. rewrite Hcell.
    destruct (String.eqb_spec s ""); [contradiction|exact Hnone].
Qed.

(** ** Validation and numeric fallbacks *)

(** C8, as amended.  A request that supplies neither [product_id] nor
    [short_id] fails, and the store is not touched: the world after the
    request is the world before it.  The failure is the 400 response whenever
    the request's [qty] converts to an integer; the conversion comes first,
    and when it raises, its error is the outcome. *)
Theorem missing_ids_rejected (p : gmap string pyval) (w : world) :
  truthy (field p "product_id" PNone) = false ->
  truthy (field p "short_id" PNone) = false ->
  snd (pos_sale p w) = w
  /\ (exists e, fst (pos_sale p w) = Raise e)
  /\ (forall q, py_int (field p "qty" (PInt 1)) = Ok q ->
        fst (pos_sale p w) = Raise (HTTPException 400 "product_id or short_id required"))
  /\ (forall e, py_int (field p "qty" (PInt 1)) = Raise e ->
        fst (pos_sale p w) = Raise e).
Proof.
  intros Hp Hs.
  assert (Hrun : pos_sale p w
                 = match py_int (field p "qty" (PInt 1)) with
                   | Ok _ => (Raise (HTTPException 400 "product_id or short_id required"), w)
                   | Raise e => (Raise e, w)
                   end).
  { unfold pos_sale. run_bind. rewrite lift_run.
    destruct (py_int (field p "qty" (PInt 1))); [rewrite Hp, Hs|]; reflexivity. }
  rewrite Hrun.
  destruct (py_int (field p "qty" (PInt 1))) as [q|e]; cbn [fst snd].
  - repeat split; eauto. intros e [=].
  - repeat split; eauto.
    + intros q [=].
    + now intros e' [= ->].
Qed.

Lemma chosen_some (c : option string) (s : string) :
  chosen c = Some s -> c = Some s /\ String.eqb s "" = false.
Proof.
  destruct c as [s'|]; simpl; [|discriminate].
  destruct (String.eqb s' "") eqn:He; [discriminate|]. now intros [= <-].
Qed.

Lemma sale_price_total (rp prod : record) (b : float) :
  float_or_zero (prod !! "base_price") = Ok b ->
  exists price,
    sale_price rp prod = Ok price /\ (unusable (rp !! "price") -> price = b).
Proof.
  intros Hb. unfold sale_price, price_source, unusable.
  destruct (chosen (rp !! "price")) as [s|] eqn:Hc.
  - destruct (chosen_some _ _ Hc) as [Hrp Hs].
    unfold float_or_zero at 1. simpl. rewrite Hs.
    destruct (float_of_str s) as [f|] eqn:Hf.
    + exists f. split; [reflexivity|]. intros [H|(s' & Hs' & Hnone)]; [discriminate|].
      congruence.
    + exists b. now split.
  - rewrite Hb. exists b. now split.
Qed.

Lemma sale_commission_fallback (rp : record) :
  unusable (rp !! "commission_pct") -> sale_commission rp = 0%float.
Proof.
  unfold sale_commission, float_or_zero.
  intros [->|(s & Hs & Hnone)]; [reflexivity|].
  rewrite Hs; simpl. destruct (String.eqb s ""); [reflexivity|]. now rewrite Hnone.
Qed.

Lemma float_or_zero_absent (c : option string) (b : float) :
  float_or_zero c = Ok b -> chosen c = None -> b = 0%float.
Proof. unfold float_or_zero. intros H Hc. rewrite Hc in H. congruence. Qed.

(** C2, as amended.  A [qty] that [int] rejects is not defaulted: the request
    fails with the conversion error, before any store call.  When [qty]
    converts and the product's [base_price] is missing, empty or numeric, the
    request does not fail on a number: a reseller price that is empty or not
    numeric gives way to [base_price] (0 when that is missing or empty), and
    a commission that is empty or not numeric to 0. *)
Theorem numeric_fallbacks :
  (forall (p : gmap string pyval) (w : world) (s : string),
     field p "qty" (PInt 1) = PStr s -> int_of_str s = None ->
     pos_sale p w = (Raise ValueError, w))
  /\ (forall (p : gmap string pyval) (w : world) (q : Z) (qf : float)
             (prod rp : record) (b : float),
        py_int (field p "qty" (PInt 1)) = Ok q ->
        float_of_int q = Some qf ->
        lookup_product_scan (to_dicts (sheet w "Products"))
          (field p "product_id" PNone) (field p "short_id" PNone) = prod ->
        dict_empty prod = false ->
        price_scan (reseller_of p) (of_cell (prod !! "product_id")) (today w) ∅
          (to_dicts (sheet w "ResellerPricing")) = Ok rp ->
        float_or_zero (prod !! "base_price") = Ok b ->
        exists w' resp,
          pos_sale p w = (Ok resp, w')
          /\ (unusable (rp !! "price") -> sale_price_used resp = b)
          /\ (chosen (prod !! "base_price") = None -> b = 0%float)
          /\ (unusable (rp !! "commission_pct") -> sale_commission_pct resp = 0%float)).
Proof.
  split.
  - intros p w s Hs Hnone. unfold pos_sale. run_bind. rewrite lift_run, Hs.
    unfold py_int. now rewrite Hnone.
  - intros p w q qf prod rp b Hq Hqf Hprod Hfound Hrp Hb.
    destruct (sale_price_total rp prod b Hb) as (price & Hprice & Hfall).
    assert (Hline : line_resolves p (reseller_of p) w q prod rp price (PrimFloat.mul price qf)).
    { repeat split; try assumption. unfold float_mul_int. now rewrite Hqf. }
    destruct (pos_sale_ok _ _ _ _ _ _ _ Hline) as (w' & new & Hrun & _).
    eexists w', _. split; [exact Hrun|]. cbn [sale_price_used sale_commission_pct].
    split; [exact Hfall|]. split; [now apply float_or_zero_absent|].
    apply sale_commission_fallback.
Qed.

(** ** Checkout *)

(** C3.  In a checkout whose first item resolves and whose second item names
    no product, the first item is priced, its Sale row appended and its stock
    adjusted; the second lookup then fails the checkout with the 404
    response.  The world left behind is the world after the first item plus
    the failed lookup: the first row is still in Sales and is the only row
    appended, and the Stock tab holds the first item's decrement, written by
    the one update call of the request: the first stock row that matches the
    item's product and the reseller has its quantity lowered by the item's
    [qty], and nothing undoes it. *)
Theorem checkout_partial_failure (p : gmap string pyval) (w : world)
    (it1 it2 : gmap string pyval) (rest : list (gmap string pyval))
    (q : Z) (prod rp : record) (price total : float) :
  line_resolves it1 (reseller_of p) w q prod rp price total ->
  dict_empty (lookup_product_scan (to_dicts (sheet w "Products"))
                (field it2 "product_id" PNone) (field it2 "short_id" PNone)) = true ->
  exists w1 w' new,
    adjust_stock (of_cell (prod !! "product_id")) (reseller_of p) q
      (world_sold (user_of p) (line_row p w q prod rp price total) w) = (Ok tt, w1)
    /\ w' = logged (SheetGet "Products") w1
    /\ checkout p (it1 :: it2 :: rest) w
       = (Raise (HTTPException 404 ("Product not found: " +:+ repr_item it2)), w')
    /\ sheet w' "Sales"
       = sheet w "Sales" ++ [cell_text <$> line_row p w q prod rp price total]
    /\ calls w' = calls w ++ new
    /\ appended new = [("Sales", line_row p w q prod rp price total)]
    /\ (forall (hdr : list string) (pre post : table) (r : list string)
               (pid_idx rid_idx qty_idx : nat) (cur : float),
          truthy (reseller_of p) = true ->
          sheet w "Stock" = hdr :: pre ++ r :: post ->
          list_index "product_id" hdr = Some pid_idx ->
          list_index "reseller_id" hdr = Some rid_idx ->
          list_index "reseller_qty" hdr = Some qty_idx ->
          Forall (fun x => stock_row_matches pid_idx rid_idx
                             (of_cell (prod !! "product_id")) (reseller_of p) x = false)
            pre ->
          stock_row_matches pid_idx rid_idx (of_cell (prod !! "product_id"))
            (reseller_of p) r = true ->
          (cell_at r qty_idx = "" /\ cur = 0%float)
          \/ (cell_at r qty_idx <> "" /\ float_of_str (cell_at r qty_idx) = Some cur) ->
          exists qf out,
            float_of_int q = Some qf
            /\ out = <[qty_idx := PFloat (PrimFloat.sub cur qf)]> (padded hdr r)
            /\ out !! qty_idx = Some (PFloat (PrimFloat.sub cur qf))
            /\ sheet w' "Stock" = hdr :: pre ++ (cell_text <$> out) :: post
            /\ updated new = [("Stock", (2 + length pre)%nat, out)]).
Proof.
  intros (Hq & Hprod & Hfound & Hrp & Hprice & Htotal) Hmiss.
  destruct (float_mul_int_inv _ _ _ Htotal) as (qf & Hqf & _).
  destruct (adjust_stock_frame (of_cell (prod !! "product_id")) (reseller_of p) q qf
              (world_sold (user_of p) (line_row p w q prod rp price total) w) Hqf)
    as (w1 & new & Hadj & Htabs & Hcalls & Happ & _).
  pose proof Hadj as Hadj0.
  exists w1, (logged (SheetGet "Products") w1),
    ((if truthy (user_of p) then [SheetGet "Users"] else [])
     ++ [SheetGet "Products"; SheetGet "ResellerPricing";
         SheetAppend "Sales" (line_row p w q prod rp price total)]
     ++ new ++ [SheetGet "Products"]).
  split; [exact Hadj|]. split; [reflexivity|].
  assert (Hsheet : forall t, sheet (if truthy (field p "user_id" (PStr ""))
                                    then logged (SheetGet "Users") w else w) t = sheet w t).
  { intros t. now destruct (truthy (field p "user_id" (PStr ""))). }
  split; [|split; [|split; [|split]]].
  - unfold checkout. run_bind. rewrite lookup_user_run. cbv beta iota.
    run_bind. cbn [checkout_loop].
    run_bind. rewrite lookup_product_run. cbv beta iota.
    rewrite Hsheet, Hprod, Hfound.
    run_bind. rewrite lift_run, Hq. cbv beta iota.
    run_bind.
    rewrite (record_line_run _ _ _ _ _ prod rp q price total).
    + unfold world_sold, line_row, user_of, reseller_of, customer_of, payment_of in Hadj.
      rewrite lookup_user_run in Hadj; cbn [snd] in Hadj.
      replace (now_iso (logged (SheetGet "Products")
                 (if truthy (field p "user_id" (PStr "")) then logged (SheetGet "Users") w else w)))
        with (now_iso w) by now destruct (truthy (field p "user_id" (PStr ""))).
      unfold reseller_of. rewrite Hadj. cbv beta iota.
      run_bind. rewrite lookup_product_run. cbv beta iota.
      rewrite Htabs by discriminate. rewrite world_sold_other by discriminate.
      rewrite Hmiss. reflexivity.
    + rewrite sheet_logged, Hsheet.
      replace (today (logged (SheetGet "Products")
                 (if truthy (field p "user_id" (PStr "")) then logged (SheetGet "Users") w else w)))
        with (today w) by now destruct (truthy (field p "user_id" (PStr ""))).
      exact Hrp.
    + exact Hprice.
    + exact Htotal.
  - rewrite sheet_logged, Htabs by discriminate. apply world_sold_sales.
  - cbn [calls logged]. rewrite Hcalls, world_sold_calls. now rewrite <- !app_assoc.
  - rewrite !appended_app, Happ. now destruct (truthy (user_of p)).
  - intros hdr pre post r pid_idx rid_idx qty_idx cur Hrid Hstock Hpi Hri Hqi Hpre Hr Hcur.
    rewrite (adjust_stock_first _ _ _ qf cur _ hdr pre post r pid_idx rid_idx qty_idx)
      in Hadj0; try assumption.
    + injection Hadj0 as Hw1.
      exists qf, (<[qty_idx := PFloat (PrimFloat.sub cur qf)]> (padded hdr r)).
      split; [exact Hqf|]. split; [reflexivity|]. split; [|split].
      * apply list_lookup_insert_eq.
        pose proof (list_index_lt _ _ _ Hqi). pose proof (padded_length hdr r). lia.
      * rewrite sheet_logged, <- Hw1, sheet_logged. apply sheet_with_tab_eq.
      * assert (Hnew : new = [SheetGet "Stock";
                              SheetUpdate "Stock" (2 + length pre) (length hdr)
                                (<[qty_idx := PFloat (PrimFloat.sub cur qf)]> (padded hdr r))]).
        { rewrite <- Hw1 in Hcalls. cbn [calls logged with_tab] in Hcalls.
          rewrite <- app_assoc in Hcalls. now apply app_inv_head in Hcalls. }
        rewrite !updated_app, Hnew. now destruct (truthy (user_of p)).
    + rewrite world_sold_other by discriminate. exact Hstock.
    + now apply current_qty_cases.
Qed.

(** ** Listing stock *)

Lemma lookup_user_scan_found (us : list record) (user_id : pyval) :
  truthy user_id = true ->
  let u := lookup_user_scan us user_id in
  u = ∅ \/ (u <> ∅ /\ of_cell (u !! "user_id") = user_id).
Proof.
  intros Ht. induction us as [|x us IH]; simpl; [now left|].
  destruct (get_eq (x !! "user_id") user_id) eqn:He; [|exact IH].
  right. unfold get_eq in He.
  destruct (x !! "user_id") as [s|] eqn:Hx; destruct user_id; try discriminate.
  apply String.eqb_eq in He as ->. split; [|reflexivity].
  intros ->. now rewrite lookup_empty in Hx.
Qed.

(** What [get_stock] filters by when a user id is given: the user id itself,
    provided the Users tab has that user; every row otherwise. *)
Lemma get_stock_by_user (reseller_id user_id : pyval) (w : world) :
  truthy user_id = true ->
  fst (get_stock reseller_id user_id w)
  = Ok (if dict_empty (lookup_user_scan (to_dicts (sheet w "Users")) user_id)
        then to_dicts (sheet w "Stock")
        else List.filter (reseller_is user_id) (to_dicts (sheet w "Stock"))).
Proof.
  intros Ht. unfold get_stock. run_bind. unfold read_tab at 1. cbv beta iota.
  rewrite Ht. run_bind. rewrite lookup_user_run, Ht. cbv beta iota.
  change (sheet (logged (SheetGet "Stock") w) "Users") with (sheet w "Users").
  change (default [] (tabs w !! "Stock")) with (sheet w "Stock").
  destruct (lookup_user_scan_found (to_dicts (sheet w "Users")) user_id Ht) as [He|[Hne Hid]].
  - rewrite He. reflexivity.
  - unfold dict_empty. rewrite bool_decide_eq_false_2 by exact Hne.
    rewrite Hid, Ht. reflexivity.
Qed.

End Proofs.

(** * Further properties of the code *)

Section More.
Context {RT : PyRuntime}.

Ltac run_bind := unfold mbind at 1, M_bind at 1.

(** ** The record mapper *)

Lemma to_dict_snoc (hs r : list string) (h : string) :
  to_dict (hs ++ [h]) r = <[h := default "" (r !! length hs)]> (to_dict hs r).
Proof.
  unfold to_dict. rewrite imap_app, reverse_app. simpl.
  now rewrite Nat.add_0_r.
Qed.

Lemma to_dict_absent (hs r : list string) (h : string) :
  h ∉ hs -> to_dict hs r !! h = None.
Proof.
  induction hs as [|x hs IH] using rev_ind; intros Hh.
  - reflexivity.
  - rewrite to_dict_snoc. rewrite not_elem_of_app, list_elem_of_singleton in Hh.
    destruct Hh as [Hhs Hx]. rewrite lookup_insert_ne by congruence. now apply IH.
Qed.

Lemma to_dict_present (hs r : list string) (h : string) (i : nat) :
  hs !! i = Some h -> h ∉ drop (S i) hs ->
  to_dict hs r !! h = Some (default "" (r !! i)).
Proof.
  revert i. induction hs as [|x hs IH] using rev_ind; intros i Hi Hlater.
  - discriminate.
  - rewrite to_dict_snoc.
    destruct (decide (i < length hs)%nat) as [Hlt|Hge].
    + rewrite lookup_app_l in Hi by exact Hlt.
      rewrite drop_app_le in Hlater by lia.
      rewrite not_elem_of_app, list_elem_of_singleton in Hlater.
      destruct Hlater as [Hd Hx].
      rewrite lookup_insert_ne by congruence. now apply IH.
    + rewrite lookup_app_r in Hi by lia.
      assert (i = length hs) as ->.
      { destruct (i - length hs)%nat as [|n] eqn:Hn; [lia|discriminate]. }
      rewrite Nat.sub_diag in Hi. injection Hi as ->.
      now rewrite lookup_insert_eq.
Qed.

(** X1.  [to_dicts] maps every data row to a record with exactly the header's
    names.  The cell of a name is the row's cell at the last position the name
    has in the header, the empty string when the row is too short; and there
    are as many records as rows below the header, none for a tab with only a
    header or no row at all. *)
Theorem to_dicts_records (hs : list string) (body : table) (j : nat) (r : list string) :
  body !! j = Some r ->
  exists d,
    to_dicts (hs :: body) !! j = Some d
    /\ length (to_dicts (hs :: body)) = length body
    /\ (forall (i : nat) (h : string),
          hs !! i = Some h -> h ∉ drop (S i) hs ->
          d !! h = Some (default "" (r !! i)))
    /\ (forall h : string, h ∉ hs -> d !! h = None)
    /\ to_dicts [hs] = [] /\ to_dicts [] = [].
Proof.
  intros Hr. exists (to_dict hs r). simpl.
  rewrite list_lookup_fmap, Hr, length_fmap. repeat split.
  - intros i h. apply to_dict_present.
  - intros h. apply to_dict_absent.
Qed.

(** ** Price resolution *)

Lemma price_scan_no_candidate (reseller_id product_id : pyval) (on_date : date)
    (best : record) (rows : list record) :
  Forall (fun r => candidate reseller_id product_id on_date r = false) rows ->
  price_scan reseller_id product_id on_date best rows = Ok best.
Proof.
  induction 1 as [|r rows Hr _ IH]; simpl; [reflexivity|].
  now rewrite price_step_skip.
Qed.


(** X2.  When the [valid_from] cell of every candidate row (ids match, window
    contains the date) is absent from the header or an ISO date,
    [lookup_reseller_price] returns: the empty record when there is no
    candidate, else a candidate row than which no candidate starts later.
    It reads the ResellerPricing tab once and writes nothing. *)
Theorem resolve_latest (w : world) (reseller_id product_id : pyval) (on_date : date) :
  Forall (fun r => candidate reseller_id product_id on_date r = true ->
                   r <> ∅ /\ reparses r) (to_dicts (sheet w "ResellerPricing")) ->
  exists best,
    lookup_reseller_price reseller_id product_id (Some on_date) w
    = (Ok best, logged (SheetGet "ResellerPricing") w)
    /\ latest_of reseller_id product_id on_date (to_dicts (sheet w "ResellerPricing")) best.
Proof.
  intros Hall. rewrite lookup_reseller_price_run.
  destruct (price_scan_latest reseller_id product_id on_date _ Hall) as (best & Hrun & Hl).
  exists best. simpl default. now rewrite Hrun.
Qed.


(** X4.  The resolver raises [ValueError] whenever the first candidate has a
    [valid_from] cell that is not an ISO date (the empty cell included) and a
    second candidate follows: line 71 parses the incumbent's cell again. *)
Theorem resolve_raises (w : world) (reseller_id product_id : pyval) (on_date : date)
    (pre mid post : list record) (r1 r2 : record) (s : string) :
  to_dicts (sheet w "ResellerPricing") = pre ++ r1 :: mid ++ r2 :: post ->
  Forall (fun x => candidate reseller_id product_id on_date x = false) pre ->
  Forall (fun x => candidate reseller_id product_id on_date x = false) mid ->
  candidate reseller_id product_id on_date r1 = true ->
  candidate reseller_id product_id on_date r2 = true ->
  r1 !! "valid_from" = Some s -> fromisoformat s = None ->
  lookup_reseller_price reseller_id product_id (Some on_date) w
  = (Raise ValueError, logged (SheetGet "ResellerPricing") w).
Proof.
  intros Hrows Hpre Hmid Hc1 Hc2 Hs Hnone.
  rewrite lookup_reseller_price_run, Hrows. simpl default. f_equal.
  rewrite (price_scan_app _ _ _ ∅ ∅) by now apply price_scan_no_candidate.
  simpl. rewrite price_step_first by exact Hc1.
  rewrite (price_scan_app _ _ _ r1 r1) by now apply price_scan_no_candidate.
  simpl. unfold price_step at 1.
  apply andb_true_iff in Hc2 as [-> ->]. simpl.
  unfold dict_empty. rewrite bool_decide_eq_false_2.
  - rewrite Hs. simpl. now rewrite Hnone.
  - intros ->. now rewrite lookup_empty in Hs.
Qed.

(** ** Stock adjustment *)

Lemma adjust_stock_falsy (product_id reseller_id : pyval) (q : Z) (w : world) :
  truthy reseller_id = false ->
  adjust_stock product_id reseller_id q w = (Ok tt, logged (SheetGet "Stock") w).
Proof.
  intros Hrid. unfold adjust_stock. run_bind. unfold read_tab at 1. cbv beta iota.
  destruct (default [] (tabs w !! "Stock")) as [|hdr body]; [reflexivity|].
  destruct (list_index "product_id" hdr); [|reflexivity].
  destruct (list_index "reseller_id" hdr); [|reflexivity].
  destruct (list_index "reseller_qty" hdr); [|reflexivity].
  now rewrite Hrid.
Qed.

(** X5.  The stock adjustment reads the Stock tab and writes nothing when the
    tab has no row, when its header lacks one of [product_id], [reseller_id],
    [reseller_qty], when the reseller id is empty or absent, or when no row
    matches the product and the reseller. *)
Theorem adjust_stock_skips (product_id reseller_id : pyval) (q : Z) (w : world) :
  sheet w "Stock" = []
  \/ truthy reseller_id = false
  \/ (exists hdr body,
        sheet w "Stock" = hdr :: body
        /\ (list_index "product_id" hdr = None
            \/ list_index "reseller_id" hdr = None
            \/ list_index "reseller_qty" hdr = None
            \/ (forall pid_idx rid_idx,
                  list_index "product_id" hdr = Some pid_idx ->
                  list_index "reseller_id" hdr = Some rid_idx ->
                  Forall (fun r => stock_row_matches pid_idx rid_idx product_id
                                     reseller_id r = false) body))) ->
  adjust_stock product_id reseller_id q w = (Ok tt, logged (SheetGet "Stock") w).
Proof.
  intros [Hempty | [Hrid | (hdr & body & Hstock & Hcase)]].
  - unfold adjust_stock. run_bind. unfold read_tab at 1. cbv beta iota.
    change (default [] (tabs w !! "Stock")) with (sheet w "Stock"). now rewrite Hempty.
  - now apply adjust_stock_falsy.
  - unfold adjust_stock. run_bind. unfold read_tab at 1. cbv beta iota.
    change (default [] (tabs w !! "Stock")) with (sheet w "Stock"). rewrite Hstock.
    destruct (list_index "product_id" hdr) as [pid_idx|] eqn:Hpi; [|reflexivity].
    destruct (list_index "reseller_id" hdr) as [rid_idx|] eqn:Hri; [|reflexivity].
    destruct (list_index "reseller_qty" hdr) as [qty_idx|] eqn:Hqi; [|reflexivity].
    destruct (truthy reseller_id); [|reflexivity].
    destruct Hcase as [H | [H | [H | H]]]; try discriminate.
    now apply stock_scan_none, H.
Qed.

Ltac stays :=
  split; [reflexivity|]; split; [now left|]; exists []; rewrite app_nil_r;
  repeat split; simpl; lia.

(** Where the scan can leave the Stock tab: as it was, or with one row at or
    below sheet position [i] replaced. *)
Lemma stock_scan_shape (hdr : list string) (pid_idx rid_idx qty_idx : nat)
    (product_id reseller_id : pyval) (qty : Z) (rows : table) (i : nat) (w : world) :
  let w' := snd (stock_scan hdr pid_idx rid_idx qty_idx product_id reseller_id qty i rows w) in
  (forall t, t <> "Stock" -> sheet w' t = sheet w t)
  /\ (sheet w' "Stock" = sheet w "Stock"
      \/ exists j x, (i <= j)%nat /\ sheet w' "Stock" = <[(j - 1)%nat := x]> (sheet w "Stock"))
  /\ exists new, calls w' = calls w ++ new /\ appended new = []
                 /\ (length (updated new) <= 1)%nat.
Proof.
  revert i. induction rows as [|r rows IH]; intros i; simpl.
  - stays.
  - destruct (stock_row_matches pid_idx rid_idx product_id reseller_id r).
    + destruct (current_qty r qty_idx) as [cur|].
      * unfold mbind, M_bind, float_sub_int. rewrite lift_run.
        destruct (float_of_int qty) as [y|]; simpl.
        -- split; [|split].
           ++ intros t Ht. rewrite sheet_logged. now apply sheet_with_tab_ne.
           ++ right. exists i. eexists. split; [lia|].
              rewrite sheet_logged. apply sheet_with_tab_eq.
           ++ eexists [_]. repeat split. simpl. lia.
        -- stays.
      * stays.
    + destruct (IH (S i)) as (Ht & Hs & Hc). split; [exact Ht|]. split; [|exact Hc].
      destruct Hs as [Hs | (j & x & Hj & Hs)]; [now left|].
      right. exists j, x. split; [lia|exact Hs].
Qed.

Lemma adjust_stock_cases (product_id reseller_id : pyval) (q : Z) (w : world) :
  adjust_stock product_id reseller_id q w = (Ok tt, logged (SheetGet "Stock") w)
  \/ exists hdr pid_idx rid_idx qty_idx body,
       adjust_stock product_id reseller_id q w
       = stock_scan hdr pid_idx rid_idx qty_idx product_id reseller_id q 2 body
           (logged (SheetGet "Stock") w).
Proof.
  remember (adjust_stock product_id reseller_id q w) as out eqn:Hout.
  unfold adjust_stock in Hout. unfold mbind at 1, M_bind at 1, read_tab at 1 in Hout.
  cbv beta iota in Hout.
  destruct (default [] (tabs w !! "Stock")) as [|hdr body]; [now left|].
  destruct (list_index "product_id" hdr) as [pid_idx|]; [|now left].
  destruct (list_index "reseller_id" hdr) as [rid_idx|]; [|now left].
  destruct (list_index "reseller_qty" hdr) as [qty_idx|]; [|now left].
  destruct (truthy reseller_id); [|now left].
  right. now exists hdr, pid_idx, rid_idx, qty_idx, body.
Qed.

(** X6.  Whatever the sale and the sheet, the stock adjustment keeps the
    number of rows of the Stock tab and its header row, leaves every other
    tab alone, appends nothing and updates at most one row. *)
Theorem adjust_stock_shape (product_id reseller_id : pyval) (q : Z) (w : world) :
  let w' := snd (adjust_stock product_id reseller_id q w) in
  length (sheet w' "Stock") = length (sheet w "Stock")
  /\ head (sheet w' "Stock") = head (sheet w "Stock")
  /\ (forall t, t <> "Stock" -> sheet w' t = sheet w t)
  /\ exists new, calls w' = calls w ++ new /\ appended new = []
                 /\ (length (updated new) <= 1)%nat.
Proof.
  intros w'. subst w'.
  destruct (adjust_stock_cases product_id reseller_id q w)
    as [-> | (hdr & pid_idx & rid_idx & qty_idx & body & ->)].
  - cbn [snd]. repeat split. exists [SheetGet "Stock"]. repeat split. simpl. lia.
  - destruct (stock_scan_shape hdr pid_idx rid_idx qty_idx product_id reseller_id q body 2
                (logged (SheetGet "Stock") w)) as (Ht & Hs & new & Hc & Ha & Hu).
    rewrite !sheet_logged in Hs.
    split; [|split; [|split]].
    + destruct Hs as [-> | (j & x & Hj & ->)]; [reflexivity|]. apply length_insert.
    + destruct Hs as [-> | (j & x & Hj & ->)]; [reflexivity|].
      destruct j as [|[|j]]; [lia|lia|]. simpl. now destruct (sheet w "Stock").
    + exact Ht.
    + exists (SheetGet "Stock" :: new). rewrite Hc. repeat split.
      * simpl. now rewrite <- app_assoc.
      * exact Ha.
      * exact Hu.
Qed.

(** ** Recording one sale *)

Lemma after_user_tabs (user_id : pyval) (w : world) :
  tabs (snd (lookup_user user_id w)) = tabs w
  /\ today (snd (lookup_user user_id w)) = today w
  /\ now_iso (snd (lookup_user user_id w)) = now_iso w
  /\ calls (snd (lookup_user user_id w))
     = calls w ++ (if truthy user_id then [SheetGet "Users"] else []).
Proof.
  rewrite lookup_user_run. cbn [snd].
  destruct (truthy user_id); simpl; rewrite ?app_nil_r; now repeat split.
Qed.

(** [pos_sale] up to the product: the quantity converts and the product is
    found, what remains is the line. *)
Lemma pos_sale_prefix (p : gmap string pyval) (w : world) (q : Z) (prod : record) :
  py_int (field p "qty" (PInt 1)) = Ok q ->
  lookup_product_scan (to_dicts (sheet w "Products"))
    (field p "product_id" PNone) (field p "short_id" PNone) = prod ->
  dict_empty prod = false ->
  pos_sale p w
  = match
      record_line (user_of p) (reseller_of p) (customer_of p) (payment_of p)
        (person_entity (fst_user p w)) prod q
        (logged (SheetGet "Products") (snd (lookup_user (user_of p) w)))
    with
    | (Ok (price, commission_pct, total), w') =>
        (Ok (SaleResponse total (customer_of p) (payment_of p) price commission_pct), w')
    | (Raise e, w') => (Raise e, w')
    end.
Proof.
  intros Hq Hprod Hfound. unfold pos_sale.
  run_bind. rewrite lift_run, Hq.
  destruct (negb (truthy (field p "product_id" PNone))
            && negb (truthy (field p "short_id" PNone))) eqn:Hids.
  { apply andb_true_iff in Hids as [Hp Hs]. apply negb_true_iff in Hp, Hs.
    rewrite (lookup_product_scan_unsupplied _ _ _ Hp Hs) in Hprod.
    subst prod. discriminate. }
  run_bind. unfold fst_user, user_of, reseller_of, customer_of, payment_of.
  rewrite lookup_user_run. cbn [snd].
  run_bind. rewrite lookup_product_run.
  assert (Hsheet : forall t, sheet (if truthy (field p "user_id" (PStr ""))
                                    then logged (SheetGet "Users") w else w) t = sheet w t).
  { intros t. now destruct (truthy (field p "user_id" (PStr ""))). }
  rewrite Hsheet, Hprod, Hfound.
  run_bind.
  destruct (record_line _ _ _ _ _ _ _ _) as [[[[price c] total]|e] w']; reflexivity.
Qed.

(** X7.  A request that names a product the Products tab does not have fails
    with the 404 response after reading Users (when a user id is given) and
    Products, and before anything is written. *)
Theorem pos_sale_not_found (p : gmap string pyval) (w : world) (q : Z) :
  py_int (field p "qty" (PInt 1)) = Ok q ->
  truthy (field p "product_id" PNone) || truthy (field p "short_id" PNone) = true ->
  dict_empty (lookup_product_scan (to_dicts (sheet w "Products"))
                (field p "product_id" PNone) (field p "short_id" PNone)) = true ->
  exists w',
    pos_sale p w = (Raise (HTTPException 404 "Product not found"), w')
    /\ tabs w' = tabs w
    /\ calls w' = calls w ++ reads_to_products p.
Proof.
  intros Hq Hids Hmiss. unfold pos_sale.
  run_bind. rewrite lift_run, Hq.
  apply orb_true_iff in Hids.
  assert (Hguard : negb (truthy (field p "product_id" PNone))
                   && negb (truthy (field p "short_id" PNone)) = false).
  { destruct Hids as [-> | ->]; simpl; [reflexivity|apply andb_false_r]. }
  rewrite Hguard.
  run_bind. rewrite lookup_user_run.
  run_bind. rewrite lookup_product_run.
  assert (Hsheet : forall t, sheet (if truthy (field p "user_id" (PStr ""))
                                    then logged (SheetGet "Users") w else w) t = sheet w t).
  { intros t. now destruct (truthy (field p "user_id" (PStr ""))). }
  rewrite Hsheet, Hmiss.
  eexists. split; [reflexivity|]. unfold reads_to_products, user_of.
  destruct (truthy (field p "user_id" (PStr ""))); simpl; split; try reflexivity.
  now rewrite <- app_assoc.
Qed.

(** X8.  A sale without reseller id (absent, null or empty) is recorded, and
    never adjusts stock: the Stock tab is read and left as it was. *)
Theorem sale_without_reseller_keeps_stock (p : gmap string pyval) (w : world) (q : Z)
    (prod rp : record) (price total : float) :
  line_resolves p (reseller_of p) w q prod rp price total ->
  truthy (reseller_of p) = false ->
  exists w' new,
    pos_sale p w
    = (Ok (SaleResponse total (customer_of p) (payment_of p) price (sale_commission rp)), w')
    /\ (forall t, t <> "Sales" -> sheet w' t = sheet w t)
    /\ calls w' = calls w ++ new
    /\ updated new = []
    /\ appended new = [("Sales", line_row p w q prod rp price total)].
Proof.
  intros Hline Hrid.
  destruct (pos_sale_ok _ _ _ _ _ _ _ Hline) as (w' & new & Hrun & Hadj & _ & _ & _).
  rewrite adjust_stock_falsy in Hadj by exact Hrid. injection Hadj as <-.
  eexists _, _. split; [exact Hrun|]. split; [|split; [|split]].
  - intros t Ht. rewrite sheet_logged. now apply world_sold_other.
  - cbn [calls logged]. rewrite world_sold_calls. rewrite <- !app_assoc. reflexivity.
  - rewrite !updated_app. now destruct (truthy (user_of p)).
  - rewrite !appended_app. now destruct (truthy (user_of p)).
Qed.

Lemma record_line_price_fails (user_id reseller_id customer_id payment_method : pyval)
    (person_entity_id : string) (prod rp : record) (q : Z) (e : pyerr) (w : world) :
  price_scan reseller_id (of_cell (prod !! "product_id")) (today w) ∅
    (to_dicts (sheet w "ResellerPricing")) = Ok rp ->
  sale_price rp prod = Raise e ->
  record_line user_id reseller_id customer_id payment_method person_entity_id prod q w
  = (Raise e, logged (SheetGet "ResellerPricing") w).
Proof.
  intros Hrp Hprice. unfold record_line. cbv zeta.
  run_bind. rewrite lookup_reseller_price_run.
  change (default (today w) None) with (today w). rewrite Hrp. cbv beta iota.
  run_bind. now rewrite lift_run, Hprice.
Qed.

(** X9.  The handler of line 143 is not guarded: when the reseller price is
    missing, empty or not numeric and the product's [base_price] is a
    non-empty text that [float] rejects, the sale fails with [ValueError]
    after its reads and before anything is written. *)
Theorem sale_bad_base_price_raises (p : gmap string pyval) (w : world) (q : Z)
    (prod rp : record) (s : string) :
  py_int (field p "qty" (PInt 1)) = Ok q ->
  lookup_product_scan (to_dicts (sheet w "Products"))
    (field p "product_id" PNone) (field p "short_id" PNone) = prod ->
  dict_empty prod = false ->
  price_scan (reseller_of p) (of_cell (prod !! "product_id")) (today w) ∅
    (to_dicts (sheet w "ResellerPricing")) = Ok rp ->
  unusable (rp !! "price") ->
  prod !! "base_price" = Some s -> s <> "" -> float_of_str s = None ->
  exists w',
    pos_sale p w = (Raise ValueError, w')
    /\ tabs w' = tabs w
    /\ calls w' = calls w ++ reads_to_products p ++ [SheetGet "ResellerPricing"].
Proof.
  intros Hq Hprod Hfound Hrp Hbad Hbase Hs Hnone.
  assert (Hfz : float_or_zero (prod !! "base_price") = Raise ValueError).
  { unfold float_or_zero. rewrite Hbase. simpl.
    destruct (String.eqb_spec s ""); [contradiction|]. now rewrite Hnone. }
  assert (Hprice : sale_price rp prod = Raise ValueError).
  { unfold sale_price, price_source.
    destruct (chosen (rp !! "price")) as [s'|] eqn:Hc.
    - destruct (chosen_some _ _ Hc) as [Hcell Hne].
      unfold float_or_zero at 1. simpl. rewrite Hne.
      destruct Hbad as [H | (s'' & Hs'' & Hn'')]; [congruence|].
      assert (s'' = s') as -> by congruence. now rewrite Hn''.
    - now rewrite Hfz. }
  rewrite (pos_sale_prefix p w q prod Hq Hprod Hfound).
  destruct (after_user_tabs (user_of p) w) as (Htabs & Htoday & Hnow & Hcalls).
  rewrite (record_line_price_fails _ _ _ _ _ prod rp q ValueError).
  - eexists. split; [reflexivity|]. cbn [tabs calls logged].
    split; [exact Htabs|]. rewrite Hcalls. unfold reads_to_products.
    now rewrite <- !app_assoc.
  - cbn [today logged]. rewrite Htoday.
    unfold sheet. cbn [tabs logged]. rewrite Htabs. exact Hrp.
  - exact Hprice.
Qed.

(** X10.  When no row of ResellerPricing is a candidate for the sale, the
    price is the product's [base_price] (0 when that cell is missing or
    empty), the commission is 0 and the total is their product with the
    quantity. *)
Theorem sale_without_reseller_price (p : gmap string pyval) (w : world) (q : Z)
    (qf : float) (prod : record) (b : float) :
  py_int (field p "qty" (PInt 1)) = Ok q ->
  float_of_int q = Some qf ->
  lookup_product_scan (to_dicts (sheet w "Products"))
    (field p "product_id" PNone) (field p "short_id" PNone) = prod ->
  dict_empty prod = false ->
  Forall (fun r => candidate (reseller_of p) (of_cell (prod !! "product_id"))
                     (today w) r = false) (to_dicts (sheet w "ResellerPricing")) ->
  float_or_zero (prod !! "base_price") = Ok b ->
  exists w',
    pos_sale p w
    = (Ok (SaleResponse (PrimFloat.mul b qf) (customer_of p) (payment_of p) b 0%float), w').
Proof.
  intros Hq Hqf Hprod Hfound Hnone Hb.
  assert (Hline : line_resolves p (reseller_of p) w q prod ∅ b (PrimFloat.mul b qf)).
  { repeat split; try assumption.
    - now apply price_scan_no_candidate.
    - unfold sale_price, price_source. rewrite lookup_empty. simpl. now rewrite Hb.
    - unfold float_mul_int. now rewrite Hqf. }
  destruct (pos_sale_ok _ _ _ _ _ _ _ Hline) as (w' & new & Hrun & _).
  exists w'. exact Hrun.
Qed.

(** ** Checkout *)

Lemma line_resolves_same (it : gmap string pyval) (reseller_id : pyval) (w1 w0 : world)
    (q : Z) (prod rp : record) (price total : float) :
  same_catalog w1 w0 ->
  line_resolves it reseller_id w0 q prod rp price total ->
  line_resolves it reseller_id w1 q prod rp price total.
Proof.
  intros (Hs & Ht & _) (Hq & Hprod & Hfound & Hrp & Hprice & Htotal).
  unfold line_resolves. rewrite !Hs, Ht by discriminate. now repeat split.
Qed.

Lemma after_line_facts (row : list pyval) (product_id reseller_id : pyval) (q : Z)
    (qf : float) (w : world) :
  float_of_int q = Some qf ->
  adjust_stock product_id reseller_id q
    (snd (append_row "Sales" row
            (logged (SheetGet "ResellerPricing") (logged (SheetGet "Products") w))))
  = (Ok tt, after_line row product_id reseller_id q w)
  /\ same_catalog (after_line row product_id reseller_id q w) w
  /\ sheet (after_line row product_id reseller_id q w) "Sales"
     = sheet w "Sales" ++ [cell_text <$> row]
  /\ exists new,
       calls (after_line row product_id reseller_id q w) = calls w ++ new
       /\ appended new = [("Sales", row)].
Proof.
  intros Hqf. unfold after_line.
  destruct (adjust_stock_frame product_id reseller_id q qf
              (snd (append_row "Sales" row
                      (logged (SheetGet "ResellerPricing") (logged (SheetGet "Products") w))))
              Hqf) as (w' & new & Hrun & Htabs & Hcalls & Happ & Htoday & Hnow).
  rewrite Hrun. cbn [snd]. split; [reflexivity|].
  unfold append_row in Htabs, Hcalls, Htoday, Hnow. cbn [snd] in Htabs, Hcalls, Htoday, Hnow.
  split; [|split].
  - split; [|split; assumption].
    intros t Hsales Hstock. rewrite Htabs by exact Hstock.
    rewrite sheet_logged. now rewrite sheet_with_tab_ne by congruence.
  - rewrite Htabs by discriminate. rewrite sheet_logged. apply sheet_with_tab_eq.
  - exists ([SheetGet "Products"; SheetGet "ResellerPricing"; SheetAppend "Sales" row] ++ new).
    split.
    + rewrite Hcalls. cbn [calls logged with_tab]. now rewrite <- !app_assoc.
    + rewrite appended_app, Happ. reflexivity.
Qed.

(** One turn of the loop on an item that resolves. *)
Lemma checkout_loop_step (p : gmap string pyval) (w0 w1 : world) (pe : string)
    (pl : line_plan) (tl : list (gmap string pyval)) (g : float) (n : Z) :
  same_catalog w1 w0 ->
  plan_resolves (reseller_of p) w0 pl ->
  checkout_loop (user_of p) (reseller_of p) (customer_of p) (payment_of p) pe
    (plan_item pl :: tl) g n w1
  = checkout_loop (user_of p) (reseller_of p) (customer_of p) (payment_of p) pe
      tl (PrimFloat.add g (plan_total pl)) (n + 1)
      (after_line
         (sale_row (now_iso w0) (user_of p) pe (customer_of p)
            (of_cell (plan_product pl !! "product_id"))
            (of_cell (plan_product pl !! "short_id")) (plan_qty pl) (plan_price pl)
            (sale_commission (plan_price_row pl)) (plan_total pl) (payment_of p))
         (of_cell (plan_product pl !! "product_id")) (reseller_of p) (plan_qty pl) w1).
Proof.
  intros Hsame Hres.
  pose proof (line_resolves_same _ _ _ _ _ _ _ _ _ Hsame Hres)
    as (Hq & Hprod & Hfound & Hrp & Hprice & Htotal).
  destruct Hsame as (_ & _ & Hnow).
  destruct (float_mul_int_inv _ _ _ Htotal) as (qf & Hqf & _).
  cbn [checkout_loop].
  run_bind. rewrite lookup_product_run. cbv beta iota.
  rewrite Hprod, Hfound.
  run_bind. rewrite lift_run, Hq. cbv beta iota.
  run_bind.
  rewrite (record_line_run _ _ _ _ _ (plan_product pl) (plan_price_row pl) (plan_qty pl)
             (plan_price pl) (plan_total pl)); [|exact Hrp|exact Hprice|exact Htotal].
  change (now_iso (logged (SheetGet "Products") w1)) with (now_iso w1). rewrite Hnow.
  match goal with
  | |- context [adjust_stock ?a ?b ?c ?d] =>
      destruct (after_line_facts
                  (sale_row (now_iso w0) (user_of p) pe (customer_of p)
                     (of_cell (plan_product pl !! "product_id"))
                     (of_cell (plan_product pl !! "short_id")) (plan_qty pl) (plan_price pl)
                     (sale_commission (plan_price_row pl)) (plan_total pl) (payment_of p))
                  a b c qf w1 Hqf) as (Hrun & _)
  end.
  rewrite Hrun. reflexivity.
Qed.

Lemma same_catalog_trans (w2 w1 w0 : world) :
  same_catalog w2 w1 -> same_catalog w1 w0 -> same_catalog w2 w0.
Proof.
  intros (Hs & Ht & Hn) (Hs' & Ht' & Hn'). split; [|split; congruence].
  intros t H1 H2. now rewrite Hs, Hs'.
Qed.

(** The loop over items that all resolve, followed by any rest. *)
Lemma checkout_loop_resolved (p : gmap string pyval) (w0 : world) (pe : string)
    (pls : list line_plan) (tl : list (gmap string pyval)) (g : float) (n : Z)
    (w1 : world) :
  same_catalog w1 w0 ->
  Forall (plan_resolves (reseller_of p) w0) pls ->
  exists w2 new,
    checkout_loop (user_of p) (reseller_of p) (customer_of p) (payment_of p) pe
      ((plan_item <$> pls) ++ tl) g n w1
    = checkout_loop (user_of p) (reseller_of p) (customer_of p) (payment_of p) pe
        tl (plans_total g pls) (n + Z.of_nat (length pls)) w2
    /\ same_catalog w2 w0
    /\ sheet w2 "Sales"
       = sheet w1 "Sales"
           ++ ((fun pl =>
                  cell_text <$>
                  sale_row (now_iso w0) (user_of p) pe (customer_of p)
                    (of_cell (plan_product pl !! "product_id"))
                    (of_cell (plan_product pl !! "short_id")) (plan_qty pl) (plan_price pl)
                    (sale_commission (plan_price_row pl)) (plan_total pl) (payment_of p))
               <$> pls)
    /\ calls w2 = calls w1 ++ new
    /\ appended new
       = (fun pl =>
            ("Sales",
             sale_row (now_iso w0) (user_of p) pe (customer_of p)
               (of_cell (plan_product pl !! "product_id"))
               (of_cell (plan_product pl !! "short_id")) (plan_qty pl) (plan_price pl)
               (sale_commission (plan_price_row pl)) (plan_total pl) (payment_of p)))
         <$> pls.
Proof.
  intros Hsame Hall. revert g n w1 Hsame.
  induction Hall as [|pl pls Hpl _ IH]; intros g n w1 Hsame.
  - exists w1, []. split; [simpl; now rewrite Z.add_0_r|]. split; [exact Hsame|].
    split; [simpl; now rewrite app_nil_r|]. split; [now rewrite app_nil_r|reflexivity].
  - rewrite fmap_cons, <- app_comm_cons. rewrite (checkout_loop_step p w0 w1 pe pl) by assumption.
    destruct Hpl as (_ & _ & _ & _ & _ & Htotal).
    destruct (float_mul_int_inv _ _ _ Htotal) as (qf & Hqf & _).
    match goal with
    | |- context [after_line ?row ?a ?b ?c w1] =>
        destruct (after_line_facts row a b c qf w1 Hqf)
          as (_ & Hcat & Hsales & new1 & Hcalls1 & Happ1);
        set (w1' := after_line row a b c w1) in *
    end.
    destruct (IH (PrimFloat.add g (plan_total pl)) (n + 1) w1'
                (same_catalog_trans _ _ _ Hcat Hsame))
      as (w2 & new2 & Hrun & Hcat2 & Hsales2 & Hcalls2 & Happ2).
    exists w2, (new1 ++ new2). split; [|split; [exact Hcat2|split; [|split]]].
    + rewrite Hrun. simpl. f_equal. lia.
    + rewrite Hsales2, Hsales. simpl. now rewrite <- app_assoc.
    + rewrite Hcalls2, Hcalls1. now rewrite <- app_assoc.
    + rewrite appended_app, Happ1, Happ2. reflexivity.
Qed.

Lemma checkout_run (p : gmap string pyval) (it : gmap string pyval)
    (items : list (gmap string pyval)) (w : world) :
  checkout p (it :: items) w
  = match
      checkout_loop (user_of p) (reseller_of p) (customer_of p) (payment_of p)
        (person_entity (fst_user p w)) (it :: items) 0%float 0
        (snd (lookup_user (user_of p) w))
    with
    | (Ok (grand_total, written), w') =>
        (Ok (CheckoutResponse grand_total written (customer_of p) (payment_of p)), w')
    | (Raise e, w') => (Raise e, w')
    end.
Proof.
  unfold checkout. run_bind. unfold fst_user, user_of, reseller_of, customer_of, payment_of.
  rewrite lookup_user_run. cbn [snd]. run_bind.
  destruct (checkout_loop _ _ _ _ _ _ _ _ _) as [[[g n]|e] w']; reflexivity.
Qed.

Lemma after_user_same (user_id : pyval) (w : world) :
  same_catalog (snd (lookup_user user_id w)) w
  /\ sheet (snd (lookup_user user_id w)) "Sales" = sheet w "Sales".
Proof.
  rewrite lookup_user_run. cbn [snd].
  destruct (truthy user_id); now repeat split.
Qed.

(** X11.  A checkout whose items all resolve succeeds: it appends one Sale
    row per item, in the order of the items, and answers with the number of
    items and with the totals added up from 0.0 in that order.  Users,
    Products and ResellerPricing are as before. *)
Theorem checkout_all_resolve (p : gmap string pyval) (w : world)
    (pl : line_plan) (pls : list line_plan) :
  Forall (plan_resolves (reseller_of p) w) (pl :: pls) ->
  exists w' new,
    checkout p (plan_item <$> pl :: pls) w
    = (Ok (CheckoutResponse (plans_total 0%float (pl :: pls))
             (Z.of_nat (length (pl :: pls))) (customer_of p) (payment_of p)), w')
    /\ same_catalog w' w
    /\ sheet w' "Sales"
       = sheet w "Sales" ++ ((fun x => cell_text <$> plan_row p w x) <$> pl :: pls)
    /\ calls w' = calls w ++ new
    /\ appended new = (fun x => ("Sales", plan_row p w x)) <$> pl :: pls.
Proof.
  intros Hall.
  destruct (after_user_same (user_of p) w) as [Hcat Hsales0].
  destruct (after_user_tabs (user_of p) w) as (_ & _ & _ & Hcalls0).
  destruct (checkout_loop_resolved p w (person_entity (fst_user p w)) (pl :: pls) []
              0%float 0 (snd (lookup_user (user_of p) w)) Hcat Hall)
    as (w2 & new & Hrun & Hcat2 & Hsales & Hcalls & Happ).
  rewrite app_nil_r in Hrun.
  exists w2, ((if truthy (user_of p) then [SheetGet "Users"] else []) ++ new).
  split; [|split; [exact Hcat2|split; [|split]]].
  - rewrite fmap_cons, checkout_run, <- fmap_cons, Hrun. reflexivity.
  - rewrite Hsales, Hsales0. reflexivity.
  - rewrite Hcalls, Hcalls0. now rewrite <- app_assoc.
  - rewrite appended_app, Happ. now destruct (truthy (user_of p)).
Qed.

(** X12.  A checkout stops at the first item whose product is unknown,
    wherever it stands: the items before it, all resolved, have their Sale
    rows appended and stay appended, the response is the 404, and the items
    after it are never looked at. *)
Theorem checkout_stops_at_unknown (p : gmap string pyval) (w : world)
    (pls : list line_plan) (bad : gmap string pyval)
    (rest : list (gmap string pyval)) :
  Forall (plan_resolves (reseller_of p) w) pls ->
  dict_empty (lookup_product_scan (to_dicts (sheet w "Products"))
                (field bad "product_id" PNone) (field bad "short_id" PNone)) = true ->
  exists w' new,
    checkout p ((plan_item <$> pls) ++ bad :: rest) w
    = (Raise (HTTPException 404 ("Product not found: " +:+ repr_item bad)), w')
    /\ same_catalog w' w
    /\ sheet w' "Sales"
       = sheet w "Sales" ++ ((fun x => cell_text <$> plan_row p w x) <$> pls)
    /\ calls w' = calls w ++ new
    /\ appended new = (fun x => ("Sales", plan_row p w x)) <$> pls.
Proof.
  intros Hall Hmiss.
  destruct (after_user_same (user_of p) w) as [Hcat Hsales0].
  destruct (after_user_tabs (user_of p) w) as (_ & _ & _ & Hcalls0).
  destruct (checkout_loop_resolved p w (person_entity (fst_user p w)) pls (bad :: rest)
              0%float 0 (snd (lookup_user (user_of p) w)) Hcat Hall)
    as (w2 & new & Hrun & Hcat2 & Hsales & Hcalls & Happ).
  exists (logged (SheetGet "Products") w2),
    ((if truthy (user_of p) then [SheetGet "Users"] else []) ++ new ++ [SheetGet "Products"]).
  assert (Hitems : exists it items, (plan_item <$> pls) ++ bad :: rest = it :: items).
  { destruct pls; simpl; eauto. }
  destruct Hitems as (it & items & Hitems).
  split; [|split; [|split; [|split]]].
  - rewrite Hitems, checkout_run, <- Hitems, Hrun.
    cbn [checkout_loop]. run_bind. rewrite lookup_product_run. cbv beta iota.
    destruct Hcat2 as (Hs & _ & _). rewrite Hs by discriminate. rewrite Hmiss.
    reflexivity.
  - destruct Hcat2 as (Hs & Ht & Hn). now repeat split.
  - rewrite sheet_logged, Hsales, Hsales0. reflexivity.
  - cbn [calls logged]. rewrite Hcalls, Hcalls0. now rewrite <- !app_assoc.
  - rewrite !appended_app, Happ. simpl. rewrite app_nil_r.
    now destruct (truthy (user_of p)).
Qed.

(** X13.  A checkout of one item is a sale: it leaves the world that
    [pos_sale] leaves for the request that carries the item's product and
    quantity with the body's user, reseller, customer and payment, and its
    total is that sale's total added to 0.0. *)
Theorem checkout_single_is_sale (p it sale : gmap string pyval) (w : world) (q : Z)
    (prod rp : record) (price total : float) :
  line_resolves it (reseller_of p) w q prod rp price total ->
  field sale "qty" (PInt 1) = field it "qty" (PInt 1) ->
  field sale "product_id" PNone = field it "product_id" PNone ->
  field sale "short_id" PNone = field it "short_id" PNone ->
  user_of sale = user_of p -> reseller_of sale = reseller_of p ->
  customer_of sale = customer_of p -> payment_of sale = payment_of p ->
  exists w',
    pos_sale sale w
    = (Ok (SaleResponse total (customer_of p) (payment_of p) price (sale_commission rp)), w')
    /\ checkout p [it] w
       = (Ok (CheckoutResponse (PrimFloat.add 0%float total) 1 (customer_of p)
                (payment_of p)), w').
Proof.
  intros Hline Hqty Hpid Hsid Hu Hr Hc Hpm.
  assert (Hsale : line_resolves sale (reseller_of sale) w q prod rp price total).
  { destruct Hline as (Hq & Hprod & Hfound & Hrp & Hprice & Htotal).
    unfold line_resolves. rewrite Hqty, Hpid, Hsid, Hr. now repeat split. }
  destruct (pos_sale_ok _ _ _ _ _ _ _ Hsale) as (w' & new & Hrun & Hadj & _).
  exists w'. split; [rewrite Hrun; now rewrite Hc, Hpm|].
  rewrite checkout_run.
  destruct (after_user_same (user_of p) w) as [Hcat _].
  rewrite (checkout_loop_step p w _ _ (LinePlan it q prod rp price total) [] 0%float 0
             Hcat Hline).
  cbn [checkout_loop plan_product plan_qty plan_price plan_price_row plan_total].
  unfold after_line.
  assert (Hworld : snd (append_row "Sales"
                     (sale_row (now_iso w) (user_of p) (person_entity (fst_user p w))
                        (customer_of p) (of_cell (prod !! "product_id"))
                        (of_cell (prod !! "short_id")) q price (sale_commission rp) total
                        (payment_of p))
                     (logged (SheetGet "ResellerPricing")
                        (logged (SheetGet "Products") (snd (lookup_user (user_of p) w)))))
                   = world_sold (user_of sale) (line_row sale w q prod rp price total) w).
  { unfold world_sold, line_row, fst_user. now rewrite Hu, Hc, Hpm. }
  rewrite Hworld, <- Hr, Hadj. reflexivity.
Qed.

(** ** What the handlers never do *)

Lemma extends_refl (w : world) : extends w w.
Proof.
  split; [now repeat split|]. split; [exists []; now rewrite app_nil_r|].
  split; [reflexivity|]. split; [reflexivity|]. exists []. now rewrite app_nil_r.
Qed.

Lemma extends_trans (w0 w1 w2 : world) : extends w0 w1 -> extends w1 w2 -> extends w0 w2.
Proof.
  intros (Hc1 & (m1 & Hs1) & Hl1 & Hh1 & (n1 & Hn1)) (Hc2 & (m2 & Hs2) & Hl2 & Hh2 & (n2 & Hn2)).
  split; [eapply same_catalog_trans; eassumption|].
  split; [exists (m1 ++ m2); now rewrite Hs2, Hs1, app_assoc|].
  split; [congruence|]. split; [congruence|].
  exists (n1 ++ n2). now rewrite Hn2, Hn1, app_assoc.
Qed.

Lemma extends_logged (c : access) (w : world) : extends w (logged c w).
Proof.
  split; [now repeat split|]. split; [exists []; now rewrite app_nil_r|].
  split; [reflexivity|]. split; [reflexivity|]. now exists [c].
Qed.

Lemma keeps_ret {A : Type} (a : A) : keeps (mret a).
Proof. intros w. apply extends_refl. Qed.

Lemma keeps_raise {A : Type} (e : pyerr) : keeps (raise (A := A) e).
Proof. intros w. apply extends_refl. Qed.

Lemma keeps_lift {A : Type} (r : res A) : keeps (lift r).
Proof. intros w. apply extends_refl. Qed.

Lemma keeps_bind {A B : Type} (c : M A) (k : A -> M B) :
  keeps c -> (forall a, keeps (k a)) -> keeps (c ≫= k).
Proof.
  intros Hc Hk w. unfold mbind, M_bind. specialize (Hc w).
  destruct (c w) as [[a|e] w']; cbn [snd] in *; [|exact Hc].
  eapply extends_trans; [exact Hc|apply Hk].
Qed.

Lemma keeps_read_tab (tab : string) : keeps (read_tab tab).
Proof. intros w. apply extends_logged. Qed.

Lemma keeps_append_sales (row : list pyval) : keeps (append_row "Sales" row).
Proof.
  intros w. unfold append_row. cbn [snd].
  split; [|split; [|split; [|split]]].
  - split; [|now split]. intros t H1 H2. rewrite sheet_logged.
    now apply sheet_with_tab_ne.
  - eexists. rewrite sheet_logged. apply sheet_with_tab_eq.
  - rewrite sheet_logged. now rewrite sheet_with_tab_ne by discriminate.
  - rewrite sheet_logged. now rewrite sheet_with_tab_ne by discriminate.
  - now eexists [_].
Qed.

Lemma keeps_update_stock (i : nat) (hdr : list string) (row : list pyval) :
  (2 <= i)%nat -> keeps (update_row "Stock" i hdr row).
Proof.
  intros Hi w. unfold update_row. cbn [snd].
  split; [|split; [|split; [|split]]].
  - split; [|now split]. intros t H1 H2. rewrite sheet_logged.
    now apply sheet_with_tab_ne.
  - exists []. rewrite app_nil_r, sheet_logged.
    now rewrite sheet_with_tab_ne by discriminate.
  - rewrite sheet_logged, sheet_with_tab_eq. apply length_insert.
  - rewrite sheet_logged, sheet_with_tab_eq.
    destruct i as [|[|i]]; [lia|lia|]. simpl.
    change (default [] (tabs w !! "Stock")) with (sheet w "Stock").
    now destruct (sheet w "Stock").
  - now eexists [_].
Qed.

Lemma keeps_lookup_user (user_id : pyval) : keeps (lookup_user user_id).
Proof.
  unfold lookup_user. destruct (negb (truthy user_id)); [apply keeps_ret|].
  apply keeps_bind; [apply keeps_read_tab|]. intros rows. apply keeps_ret.
Qed.

Lemma keeps_lookup_product (product_id short_id : pyval) :
  keeps (lookup_product product_id short_id).
Proof.
  apply keeps_bind; [apply keeps_read_tab|]. intros rows. apply keeps_ret.
Qed.

Lemma keeps_lookup_reseller_price (reseller_id product_id : pyval) (on_date : option date) :
  keeps (lookup_reseller_price reseller_id product_id on_date).
Proof.
  apply keeps_bind; [apply keeps_read_tab|]. intros rows.
  apply keeps_bind.
  - destruct on_date; [apply keeps_ret|]. intros w. apply extends_refl.
  - intros d. apply keeps_lift.
Qed.

Lemma keeps_stock_scan (hdr : list string) (pid_idx rid_idx qty_idx : nat)
    (product_id reseller_id : pyval) (qty : Z) (rows : table) (i : nat) :
  (2 <= i)%nat ->
  keeps (stock_scan hdr pid_idx rid_idx qty_idx product_id reseller_id qty i rows).
Proof.
  revert i. induction rows as [|r rows IH]; intros i Hi; simpl.
  - apply keeps_ret.
  - destruct (stock_row_matches pid_idx rid_idx product_id reseller_id r).
    + destruct (current_qty r qty_idx); [|apply keeps_ret].
      apply keeps_bind; [apply keeps_lift|]. intros v. now apply keeps_update_stock.
    + apply IH. lia.
Qed.

Lemma keeps_adjust_stock (product_id reseller_id : pyval) (q : Z) :
  keeps (adjust_stock product_id reseller_id q).
Proof.
  apply keeps_bind; [apply keeps_read_tab|]. intros [|hdr body]; [apply keeps_ret|].
  destruct (list_index "product_id" hdr); [|apply keeps_ret].
  destruct (list_index "reseller_id" hdr); [|apply keeps_ret].
  destruct (list_index "reseller_qty" hdr); [|apply keeps_ret].
  destruct (truthy reseller_id); [|apply keeps_ret].
  now apply keeps_stock_scan.
Qed.

Lemma keeps_record_line (user_id reseller_id customer_id payment_method : pyval)
    (person_entity_id : string) (prod : record) (q : Z) :
  keeps (record_line user_id reseller_id customer_id payment_method person_entity_id
           prod q).
Proof.
  unfold record_line. cbv zeta.
  apply keeps_bind; [apply keeps_lookup_reseller_price|]. intros rp.
  apply keeps_bind; [apply keeps_lift|]. intros price.
  apply keeps_bind; [apply keeps_lift|]. intros total.
  apply keeps_bind; [intros w; apply extends_refl|]. intros now.
  apply keeps_bind; [apply keeps_append_sales|]. intros _.
  apply keeps_bind; [apply keeps_adjust_stock|]. intros _.
  apply keeps_ret.
Qed.

Lemma keeps_checkout_loop (user_id reseller_id customer_id payment_method : pyval)
    (person_entity_id : string) (items : list (gmap string pyval))
    (grand_total : float) (written : Z) :
  keeps (checkout_loop user_id reseller_id customer_id payment_method person_entity_id
           items grand_total written).
Proof.
  revert grand_total written.
  induction items as [|it items IH]; intros g n; cbn [checkout_loop].
  - apply keeps_ret.
  - apply keeps_bind; [apply keeps_lookup_product|]. intros prod.
    destruct (dict_empty prod); [apply keeps_raise|].
    apply keeps_bind; [apply keeps_lift|]. intros qty.
    apply keeps_bind; [apply keeps_record_line|]. intros [[price c] total].
    apply IH.
Qed.

(** X14.  Whatever the request and whatever the outcome, [pos_sale] and
    [checkout] leave Users, Products, ResellerPricing and every other tab but
    Sales and Stock as they found them; the rows Sales had are still there,
    in place, with any new rows after them; Stock has the same number of
    rows and the same header; and the clock is not touched. *)
Theorem handlers_extend_world (p : gmap string pyval)
    (items : list (gmap string pyval)) (w : world) :
  extends w (snd (pos_sale p w)) /\ extends w (snd (checkout p items w)).
Proof.
  split.
  - revert w. change (keeps (pos_sale p)). unfold pos_sale.
    apply keeps_bind; [apply keeps_lift|]. intros qty.
    destruct (negb (truthy (field p "product_id" PNone))
              && negb (truthy (field p "short_id" PNone))); [apply keeps_raise|].
    apply keeps_bind; [apply keeps_lookup_user|]. intros u.
    apply keeps_bind; [apply keeps_lookup_product|]. intros prod.
    destruct (dict_empty prod); [apply keeps_raise|].
    apply keeps_bind; [apply keeps_record_line|]. intros [[price c] total].
    apply keeps_ret.
  - revert w. change (keeps (checkout p items)). unfold checkout.
    destruct items as [|it items]; [apply keeps_raise|].
    apply keeps_bind; [apply keeps_lookup_user|]. intros u.
    apply keeps_bind; [apply keeps_checkout_loop|]. intros [g n].
    apply keeps_ret.
Qed.

(** ** Successive adjustments *)

Lemma list_index_lookup (name : string) (hdr : list string) (i : nat) :
  list_index name hdr = Some i -> hdr !! i = Some name.
Proof.
  revert i. induction hdr as [|h hdr IH]; simpl; intros i; [discriminate|].
  destruct (String.eqb_spec h name) as [->|_].
  - now intros [= <-].
  - destruct (list_index name hdr) as [j|]; simpl; [|discriminate].
    intros [= <-]. now apply IH.
Qed.

Lemma padded_cell (hdr r : list string) (i : nat) :
  (i < length hdr)%nat -> padded hdr r !! i = Some (PStr (cell_at r i)).
Proof.
  intros Hi. unfold padded, cell_at.
  destruct (decide (i < length r)%nat) as [Hlt|Hge].
  - rewrite lookup_app_l by now rewrite length_fmap.
    rewrite list_lookup_fmap. destruct (lookup_lt_is_Some_2 r i Hlt) as [x ->].
    reflexivity.
  - rewrite lookup_app_r by (rewrite length_fmap; lia).
    rewrite length_fmap, lookup_replicate_2 by lia.
    now rewrite lookup_ge_None_2 by lia.
Qed.

(** The row the sheet holds after an update keeps every cell but the
    quantity. *)
Lemma written_row_cell (hdr r : list string) (qty_idx i : nat) (v : float) :
  (i < length hdr)%nat -> i <> qty_idx ->
  cell_at (cell_text <$> <[qty_idx := PFloat v]> (padded hdr r)) i = cell_at r i.
Proof.
  intros Hi Hne. unfold cell_at at 1.
  rewrite list_lookup_fmap, list_lookup_insert_ne by congruence.
  now rewrite padded_cell.
Qed.

Lemma written_row_qty (hdr r : list string) (qty_idx : nat) (v : float) :
  (qty_idx < length hdr)%nat ->
  (cell_text <$> <[qty_idx := PFloat v]> (padded hdr r)) !! qty_idx
  = Some (sheet_text (PFloat v)).
Proof.
  intros Hi. rewrite list_lookup_fmap, list_lookup_insert_eq; [reflexivity|].
  pose proof (padded_length hdr r). lia.
Qed.

Lemma padded_written (hdr r : list string) (qty_idx : nat) (v v' : float) :
  cell_text <$> <[qty_idx := PFloat v']>
                  (padded hdr (cell_text <$> <[qty_idx := PFloat v]> (padded hdr r)))
  = cell_text <$> <[qty_idx := PFloat v']> (padded hdr r).
Proof.
  assert (Hlen : (length hdr <= length (padded hdr r))%nat) by apply padded_length.
  unfold padded at 1. rewrite length_fmap, length_insert.
  replace (length hdr - length (padded hdr r))%nat with 0%nat by lia.
  simpl. rewrite app_nil_r.
  rewrite !list_fmap_insert. simpl. rewrite <- !list_fmap_compose.
  rewrite list_insert_insert_eq.
  reflexivity.
Qed.

(** X15.  Two stock adjustments for the same product and reseller add up:
    when the runtime reads the text the sheet shows for the first result back
    as that number, the matching row ends at the current quantity minus the
    first and then the second [qty]; the other rows are as before. *)
Theorem stock_adjustments_add_up (product_id reseller_id : pyval) (q1 q2 : Z)
    (f1 f2 cur : float) (w : world) (hdr : list string) (pre post : table)
    (r : list string) (pid_idx rid_idx qty_idx : nat) :
  sheet w "Stock" = hdr :: pre ++ r :: post ->
  list_index "product_id" hdr = Some pid_idx ->
  list_index "reseller_id" hdr = Some rid_idx ->
  list_index "reseller_qty" hdr = Some qty_idx ->
  truthy reseller_id = true ->
  Forall (fun x => stock_row_matches pid_idx rid_idx product_id reseller_id x = false) pre ->
  stock_row_matches pid_idx rid_idx product_id reseller_id r = true ->
  current_qty r qty_idx = Some cur ->
  float_of_int q1 = Some f1 -> float_of_int q2 = Some f2 ->
  sheet_text (PFloat (PrimFloat.sub cur f1)) <> "" ->
  float_of_str (sheet_text (PFloat (PrimFloat.sub cur f1))) = Some (PrimFloat.sub cur f1) ->
  sheet (snd (adjust_stock product_id reseller_id q2
                (snd (adjust_stock product_id reseller_id q1 w)))) "Stock"
  = hdr :: pre
      ++ (cell_text <$> <[qty_idx := PFloat (PrimFloat.sub (PrimFloat.sub cur f1) f2)]>
                          (padded hdr r))
      :: post.
Proof.
  intros Hstock Hpi Hri Hqi Hrid Hpre Hr Hcur Hf1 Hf2 Hshown Hback.
  pose proof (list_index_lt _ _ _ Hpi) as Hpil.
  pose proof (list_index_lt _ _ _ Hri) as Hril.
  pose proof (list_index_lt _ _ _ Hqi) as Hqil.
  assert (Hpq : pid_idx <> qty_idx).
  { intros ->. apply list_index_lookup in Hpi, Hqi. congruence. }
  assert (Hrq : rid_idx <> qty_idx).
  { intros ->. apply list_index_lookup in Hri, Hqi. congruence. }
  rewrite (adjust_stock_first _ _ q1 f1 cur w hdr pre post r pid_idx rid_idx qty_idx)
    by assumption.
  cbn [snd].
  set (r1 := cell_text <$> <[qty_idx := PFloat (PrimFloat.sub cur f1)]> (padded hdr r)).
  set (w1 := logged _ (with_tab "Stock" (hdr :: pre ++ r1 :: post) _)).
  assert (Hstock1 : sheet w1 "Stock" = hdr :: pre ++ r1 :: post).
  { unfold w1. rewrite sheet_logged. apply sheet_with_tab_eq. }
  rewrite (adjust_stock_first _ _ q2 f2 (PrimFloat.sub cur f1) w1 hdr pre post r1
             pid_idx rid_idx qty_idx); try assumption.
  - cbn [snd]. rewrite sheet_logged, sheet_with_tab_eq.
    unfold r1. now rewrite padded_written.
  - unfold stock_row_matches, r1. rewrite !written_row_cell by assumption. exact Hr.
  - unfold current_qty, r1. rewrite written_row_qty by assumption.
    destruct (String.eqb_spec (sheet_text (PFloat (PrimFloat.sub cur f1))) "");
      [contradiction|exact Hback].
Qed.

(** ** Listings and the user lookup *)

Lemma filter_sublist {A : Type} (f : A -> bool) (l : list A) : sublist (List.filter f l) l.
Proof.
  induction l as [|x l IH]; simpl; [constructor|].
  destruct (f x); now constructor.
Qed.

(** X16.  The listing endpoints only read: the tabs after [get_users],
    [get_customers] and [get_stock] are the tabs before.  The first two
    return every record of their tab; [get_stock] returns records of the
    Stock tab, in the order of the tab, whatever the filter. *)
Theorem listings_read_only (reseller_id user_id : pyval) (w : world) :
  (get_users w = (Ok (to_dicts (sheet w "Users")), logged (SheetGet "Users") w)
   /\ get_customers w
      = (Ok (to_dicts (sheet w "Customers")), logged (SheetGet "Customers") w))
  /\ tabs (snd (get_stock reseller_id user_id w)) = tabs w
  /\ exists items,
       fst (get_stock reseller_id user_id w) = Ok items
       /\ sublist items (to_dicts (sheet w "Stock")).
Proof.
  split; [now split|].
  assert (H : exists items w',
             get_stock reseller_id user_id w = (Ok items, w')
             /\ tabs w' = tabs w
             /\ sublist items (to_dicts (sheet w "Stock"))).
  { unfold get_stock. run_bind. unfold read_tab at 1. cbv beta iota.
    change (default [] (tabs w !! "Stock")) with (sheet w "Stock").
    destruct (truthy user_id) eqn:Hu.
    - run_bind. rewrite lookup_user_run, Hu. cbv beta iota.
      match goal with
      | |- context [if truthy ?x then mret _ else mret _] => destruct (truthy x)
      end.
      + eexists _, _. split; [reflexivity|]. split; [reflexivity|apply filter_sublist].
      + eexists _, _. split; [reflexivity|]. split; reflexivity.
    - destruct (truthy reseller_id).
      + eexists _, _. split; [reflexivity|]. split; [reflexivity|apply filter_sublist].
      + eexists _, _. split; [reflexivity|]. split; reflexivity. }
  destruct H as (items & w' & -> & Htabs & Hsub). cbn [fst snd].
  split; [exact Htabs|]. now exists items.
Qed.

(** X17.  [lookup_user] with an id that is given returns the first row of
    Users whose [user_id] cell equals it, and the empty record when no row
    does; it reads the Users tab once. *)
Theorem lookup_user_first_match (user_id : pyval) (w : world) :
  truthy user_id = true ->
  (forall (pre post : list record) (u : record),
      to_dicts (sheet w "Users") = pre ++ u :: post ->
      Forall (fun x => get_eq (x !! "user_id") user_id = false) pre ->
      get_eq (u !! "user_id") user_id = true ->
      lookup_user user_id w = (Ok u, logged (SheetGet "Users") w))
  /\ (Forall (fun x => get_eq (x !! "user_id") user_id = false)
        (to_dicts (sheet w "Users")) ->
      lookup_user user_id w = (Ok ∅, logged (SheetGet "Users") w)).
Proof.
  intros Ht. rewrite lookup_user_run, Ht.
  assert (Hskip : forall pre rest,
             Forall (fun x => get_eq (x !! "user_id") user_id = false) pre ->
             lookup_user_scan (pre ++ rest) user_id = lookup_user_scan rest user_id).
  { intros pre rest. induction 1 as [|x pre Hx _ IH]; simpl; [reflexivity|].
    now rewrite Hx. }
  split.
  - intros pre post u -> Hpre Hu. rewrite Hskip by exact Hpre. simpl. now rewrite Hu.
  - intros Hnone. rewrite <- (app_nil_r (to_dicts _)), Hskip by exact Hnone. reflexivity.
Qed.

(** X18.  Asked for the stock of a user id that the Users tab does not hold,
    [get_stock] returns every row of the Stock tab, of every reseller, and
    does so even when a reseller id is given besides. *)
Theorem get_stock_unknown_user (reseller_id user_id : pyval) (w : world) :
  truthy user_id = true ->
  Forall (fun x => get_eq (x !! "user_id") user_id = false) (to_dicts (sheet w "Users")) ->
  fst (get_stock reseller_id user_id w) = Ok (to_dicts (sheet w "Stock")).
Proof.
  intros Ht Hnone. rewrite get_stock_by_user by exact Ht.
  assert (Hscan : lookup_user_scan (to_dicts (sheet w "Users")) user_id = ∅).
  { induction Hnone as [|x us Hx _ IH]; simpl; [reflexivity|]. now rewrite Hx. }
  now rewrite Hscan.
Qed.

(** ** More on prices and quantities *)

(** X19.  A reseller price and a commission that are numbers are the ones the
    sale uses, whatever the product's [base_price] holds. *)
Theorem sale_at_reseller_price (p : gmap string pyval) (w : world) (q : Z) (qf : float)
    (prod rp : record) (s c : string) (f cf : float) :
  py_int (field p "qty" (PInt 1)) = Ok q ->
  float_of_int q = Some qf ->
  lookup_product_scan (to_dicts (sheet w "Products"))
    (field p "product_id" PNone) (field p "short_id" PNone) = prod ->
  dict_empty prod = false ->
  price_scan (reseller_of p) (of_cell (prod !! "product_id")) (today w) ∅
    (to_dicts (sheet w "ResellerPricing")) = Ok rp ->
  rp !! "price" = Some s -> s <> "" -> float_of_str s = Some f ->
  rp !! "commission_pct" = Some c -> c <> "" -> float_of_str c = Some cf ->
  exists w',
    pos_sale p w
    = (Ok (SaleResponse (PrimFloat.mul f qf) (customer_of p) (payment_of p) f cf), w').
Proof.
  intros Hq Hqf Hprod Hfound Hrp Hs Hsne Hf Hc Hcne Hcf.
  assert (Hprice : sale_price rp prod = Ok f).
  { unfold sale_price, price_source, float_or_zero. rewrite Hs. simpl.
    destruct (String.eqb_spec s ""); [contradiction|]. simpl.
    destruct (String.eqb_spec s ""); [contradiction|]. now rewrite Hf. }
  assert (Hcom : sale_commission rp = cf).
  { unfold sale_commission, float_or_zero. rewrite Hc. simpl.
    destruct (String.eqb_spec c ""); [contradiction|]. now rewrite Hcf. }
  assert (Hline : line_resolves p (reseller_of p) w q prod rp f (PrimFloat.mul f qf)).
  { repeat split; try assumption. unfold float_mul_int. now rewrite Hqf. }
  destruct (pos_sale_ok _ _ _ _ _ _ _ Hline) as (w' & new & Hrun & _).
  exists w'. now rewrite Hrun, Hcom.
Qed.

(** X20.  A checkout item whose product exists but whose [qty] does not
    convert fails the checkout with the conversion error, after the rows of
    the items before it were appended; those rows stay. *)
Theorem checkout_stops_at_bad_qty (p : gmap string pyval) (w : world)
    (pls : list line_plan) (bad : gmap string pyval)
    (rest : list (gmap string pyval)) (e : pyerr) :
  Forall (plan_resolves (reseller_of p) w) pls ->
  dict_empty (lookup_product_scan (to_dicts (sheet w "Products"))
                (field bad "product_id" PNone) (field bad "short_id" PNone)) = false ->
  py_int (field bad "qty" (PInt 1)) = Raise e ->
  exists w' new,
    checkout p ((plan_item <$> pls) ++ bad :: rest) w = (Raise e, w')
    /\ same_catalog w' w
    /\ sheet w' "Sales"
       = sheet w "Sales" ++ ((fun x => cell_text <$> plan_row p w x) <$> pls)
    /\ calls w' = calls w ++ new
    /\ appended new = (fun x => ("Sales", plan_row p w x)) <$> pls.
Proof.
  intros Hall Hfound Hqty.
  destruct (after_user_same (user_of p) w) as [Hcat Hsales0].
  destruct (after_user_tabs (user_of p) w) as (_ & _ & _ & Hcalls0).
  destruct (checkout_loop_resolved p w (person_entity (fst_user p w)) pls (bad :: rest)
              0%float 0 (snd (lookup_user (user_of p) w)) Hcat Hall)
    as (w2 & new & Hrun & Hcat2 & Hsales & Hcalls & Happ).
  exists (logged (SheetGet "Products") w2),
    ((if truthy (user_of p) then [SheetGet "Users"] else []) ++ new ++ [SheetGet "Products"]).
  assert (Hitems : exists it items, (plan_item <$> pls) ++ bad :: rest = it :: items).
  { destruct pls; simpl; eauto. }
  destruct Hitems as (it & items & Hitems).
  split; [|split; [|split; [|split]]].
  - rewrite Hitems, checkout_run, <- Hitems, Hrun.
    cbn [checkout_loop]. run_bind. rewrite lookup_product_run. cbv beta iota.
    destruct Hcat2 as (Hs & _ & _). rewrite Hs by discriminate. rewrite Hfound.
    run_bind. rewrite lift_run, Hqty. reflexivity.
  - destruct Hcat2 as (Hs & Ht & Hn). now repeat split.
  - rewrite sheet_logged, Hsales, Hsales0. reflexivity.
  - cbn [calls logged]. rewrite Hcalls, Hcalls0. now rewrite <- !app_assoc.
  - rewrite !appended_app, Happ. simpl. rewrite app_nil_r.
    now destruct (truthy (user_of p)).
Qed.

(** ** Unparseable dates *)








End More.

(** ** Runs on the concrete sheets *)

Section Runs.
Import Fixtures.
#[local] Existing Instance Reference.cpython.

(** Closes an equation between closed terms by evaluating both sides. *)
Ltac evaluated :=
  lazymatch goal with
  | |- @eq ?T ?l ?r => vm_cast_no_check (@eq_refl T r)
  end.

(** With dated windows that overlap, the one that started last is returned,
    and nothing is returned outside every window. *)
Example overlapping_windows :
  fst (lookup_reseller_price (PStr "R1") (PStr "P1") (Some (Date 2024 7 1)) overlapping)
  = Ok (to_dict pricing_header ["R1"; "P1"; "2024-06-01"; "2024-12-31"; "12.5"; "5.0"])
  /\ fst (lookup_reseller_price (PStr "R1") (PStr "P1") (Some (Date 2024 3 1)) overlapping)
     = Ok (to_dict pricing_header ["R1"; "P1"; "2024-01-01"; "2024-12-31"; "10.0"; "5.0"])
  /\ fst (lookup_reseller_price (PStr "R1") (PStr "P1") (Some (Date 2025 1 1)) overlapping)
     = Ok ∅.
Proof. repeat split; evaluated. Qed.

(** C1.  Two prices of reseller R1 for product P1, the first open-ended (both
    date cells empty), the second valid through 2024: on 2024-07-01 both
    windows contain the date and the second starts later, yet the resolver
    raises [ValueError] where it should return the second. *)
Theorem open_ended_incumbent_raises :
  let rows := to_dicts (sheet open_then_dated "ResellerPricing") in
  let day := Date 2024 7 1 in
  Forall (fun r => candidate (PStr "R1") (PStr "P1") day r = true) rows
  /\ date_leb (vf_date (rows !!! 0%nat)) (vf_date (rows !!! 1%nat)) = true
  /\ date_leb (vf_date (rows !!! 1%nat)) (vf_date (rows !!! 0%nat)) = false
  /\ fst (lookup_reseller_price (PStr "R1") (PStr "P1") (Some day) open_then_dated)
     = Raise ValueError.
Proof.
  simpl. split; [|split; [|split]].
  - repeat constructor.
  - reflexivity.
  - reflexivity.
  - evaluated.
Qed.


(** The shop, asked for product P1 and short id S9 at once: both keys are
    supplied, and the lookup is the first row answering either. *)
Lemma lookup_product_scan_order_witness :
  truthy (PStr "P1") = true
  /\ truthy (PStr "S9") = true
  /\ (let ps := to_dicts (sheet shop "Products") in
      fst (lookup_product (PStr "P1") (PStr "S9") shop)
      = Ok (first_hit (PStr "P1") (PStr "S9") ps)
      /\ (forall (pre : list record) (r : record) (post : list record),
            ps = pre ++ r :: post ->
            Forall (fun x => product_hit (PStr "P1") (PStr "S9") x = false) pre ->
            get_eq (r !! "short_id") (PStr "S9") = true ->
            fst (lookup_product (PStr "P1") (PStr "S9") shop) = Ok r)
      /\ (Forall (fun x => product_hit (PStr "P1") (PStr "S9") x = false) ps ->
          fst (lookup_product (PStr "P1") (PStr "S9") shop) = Ok ∅)).
Proof.
  split; [reflexivity|]. split; [reflexivity|].
  exact (lookup_product_scan_order shop (PStr "P1") (PStr "S9") eq_refl eq_refl).
Defined.

Example short_id_row_scanned_first :
  fst (lookup_product (PStr "P1") (PStr "S9") shop) = Ok jam
  /\ jam !! "product_id" = Some "P2"
  /\ honey !! "product_id" = Some "P1".
Proof. repeat split; evaluated. Qed.

Lemma honey_sale_resolves :
  line_resolves (sale_of (PInt 3)) (reseller_of (sale_of (PInt 3))) shop
    3 honey honey_price 10%float 30%float.
Proof. unfold line_resolves. repeat split; evaluated. Defined.

(** Three jars of honey at the shop, at the reseller price 10.0 with
    commission 5.0: the sale resolves, and its total and Sale row follow. *)
Lemma recorded_total_witness :
  line_resolves (sale_of (PInt 3)) (reseller_of (sale_of (PInt 3))) shop
    3 honey honey_price 10%float 30%float
  /\ sale_commission honey_price = 5%float
  /\ exists w' new qf,
       pos_sale (sale_of (PInt 3)) shop
       = (Ok (SaleResponse 30%float (customer_of (sale_of (PInt 3)))
                (payment_of (sale_of (PInt 3))) 10%float (sale_commission honey_price)),
          w')
       /\ float_of_int 3 = Some qf
       /\ 30%float = PrimFloat.mul 10%float qf
       /\ sheet w' "Sales"
          = sheet shop "Sales"
              ++ [cell_text <$> line_row (sale_of (PInt 3)) shop 3 honey honey_price
                                  10%float 30%float]
       /\ calls w' = calls shop ++ new
       /\ appended new
          = [("Sales", line_row (sale_of (PInt 3)) shop 3 honey honey_price
                         10%float 30%float)]
       /\ line_row (sale_of (PInt 3)) shop 3 honey honey_price 10%float 30%float !! 6%nat
          = Some (PInt 3)
       /\ line_row (sale_of (PInt 3)) shop 3 honey honey_price 10%float 30%float !! 7%nat
          = Some (PFloat 10%float)
       /\ line_row (sale_of (PInt 3)) shop 3 honey honey_price 10%float 30%float !! 8%nat
          = Some (PFloat (sale_commission honey_price))
       /\ line_row (sale_of (PInt 3)) shop 3 honey honey_price 10%float 30%float !! 9%nat
          = Some (PFloat 30%float)
       /\ (3 = 3 -> 10%float = 10%float -> 30%float = 30%float).
Proof.
  split; [exact honey_sale_resolves|]. split; [evaluated|].
  exact (recorded_total (sale_of (PInt 3)) shop 3 honey honey_price 10%float 30%float
           honey_sale_resolves).
Defined.

(** The Sale row of that sale, and the sheet after it. *)
Example honey_sale_row :
  line_row (sale_of (PInt 3)) shop 3 honey honey_price 10%float 30%float
  = [PStr "2024-07-01T12:00:00"; PStr "U1"; PStr "person.anna"; PStr "C-000";
     PStr "P1"; PStr "S1"; PInt 3; PFloat 10%float; PFloat 5%float; PFloat 30%float;
     PStr "cash"].
Proof. evaluated. Qed.

Lemma honey_oversale_resolves :
  line_resolves (sale_of (PInt 5)) (reseller_of (sale_of (PInt 5))) shop
    5 honey honey_price 10%float 50%float.
Proof. unfold line_resolves. repeat split; evaluated. Defined.

(** Five jars sold at the shop against a count of 2.  The row of R1 for P1
    that comes first is rewritten to -3; the later row of the same pair keeps
    its 40. *)
Lemma stock_first_match_decremented_witness :
  line_resolves (sale_of (PInt 5)) (reseller_of (sale_of (PInt 5))) shop
    5 honey honey_price 10%float 50%float
  /\ truthy (reseller_of (sale_of (PInt 5))) = true
  /\ sheet shop "Stock"
     = stock_header :: [["P2"; "R1"; "4"]] ++ ["P1"; "R1"; "2"]
         :: [["P1"; "U1"; "9"]; ["P1"; "R1"; "40"]]
  /\ list_index "product_id" stock_header = Some 0%nat
  /\ list_index "reseller_id" stock_header = Some 1%nat
  /\ list_index "reseller_qty" stock_header = Some 2%nat
  /\ Forall (fun x => stock_row_matches 0 1 (of_cell (honey !! "product_id"))
                        (reseller_of (sale_of (PInt 5))) x = false) [["P2"; "R1"; "4"]]
  /\ stock_row_matches 0 1 (of_cell (honey !! "product_id"))
       (reseller_of (sale_of (PInt 5))) ["P1"; "R1"; "2"] = true
  /\ ((cell_at ["P1"; "R1"; "2"] 2 = "" /\ 2%float = 0%float)
      \/ (cell_at ["P1"; "R1"; "2"] 2 <> ""
          /\ float_of_str (cell_at ["P1"; "R1"; "2"] 2) = Some 2%float))
  /\ exists w' new qf out,
       pos_sale (sale_of (PInt 5)) shop
       = (Ok (SaleResponse 50%float (customer_of (sale_of (PInt 5)))
                (payment_of (sale_of (PInt 5))) 10%float (sale_commission honey_price)),
          w')
       /\ float_of_int 5 = Some qf
       /\ out = <[2%nat := PFloat (PrimFloat.sub 2%float qf)]>
                  (padded stock_header ["P1"; "R1"; "2"])
       /\ out !! 2%nat = Some (PFloat (PrimFloat.sub 2%float qf))
       /\ sheet w' "Stock"
          = stock_header :: [["P2"; "R1"; "4"]] ++ (cell_text <$> out)
              :: [["P1"; "U1"; "9"]; ["P1"; "R1"; "40"]]
       /\ calls w' = calls shop ++ new
       /\ updated new = [("Stock", (2 + length [["P2"; "R1"; "4"]])%nat, out)].
Proof.
  assert (Hcur : (cell_at ["P1"; "R1"; "2"] 2 = "" /\ 2%float = 0%float)
                 \/ (cell_at ["P1"; "R1"; "2"] 2 <> ""
                     /\ float_of_str (cell_at ["P1"; "R1"; "2"] 2) = Some 2%float)).
  { right. split; [discriminate|evaluated]. }
  assert (Hpre : Forall (fun x => stock_row_matches 0 1 (of_cell (honey !! "product_id"))
                                    (reseller_of (sale_of (PInt 5))) x = false)
                   [["P2"; "R1"; "4"]]).
  { constructor; [evaluated|constructor]. }
  assert (Hr : stock_row_matches 0 1 (of_cell (honey !! "product_id"))
                 (reseller_of (sale_of (PInt 5))) ["P1"; "R1"; "2"] = true).
  { evaluated. }
  split; [exact honey_oversale_resolves|]. split; [reflexivity|].
  split; [evaluated|]. do 3 (split; [reflexivity|]).
  split; [exact Hpre|]. split; [exact Hr|]. split; [exact Hcur|].
  exact (stock_first_match_decremented (sale_of (PInt 5)) shop 5 honey honey_price
           10%float 50%float 2%float stock_header [["P2"; "R1"; "4"]]
           [["P1"; "U1"; "9"]; ["P1"; "R1"; "40"]] ["P1"; "R1"; "2"] 0 1 2
           honey_oversale_resolves eq_refl eq_refl eq_refl eq_refl eq_refl Hpre Hr Hcur).
Defined.

(** The Stock tab after that sale. *)
Example oversold_stock :
  sheet (snd (pos_sale (sale_of (PInt 5)) shop)) "Stock"
  = [stock_header; ["P2"; "R1"; "4"]; ["P1"; "R1"; "-3"]; ["P1"; "U1"; "9"];
     ["P1"; "R1"; "40"]].
Proof. evaluated. Qed.

Lemma bad_count_sale_resolves :
  line_resolves (sale_of (PInt 3)) (reseller_of (sale_of (PInt 3))) shop_bad_count
    3 honey honey_price 10%float 30%float.
Proof. unfold line_resolves. repeat split; evaluated. Defined.

(** A sale at the shop whose first count is ["n/a"]: it succeeds, and the
    Stock tab stays as it was. *)
Lemma unparsable_stock_skipped_witness :
  line_resolves (sale_of (PInt 3)) (reseller_of (sale_of (PInt 3))) shop_bad_count
    3 honey honey_price 10%float 30%float
  /\ truthy (reseller_of (sale_of (PInt 3))) = true
  /\ sheet shop_bad_count "Stock"
     = stock_header :: [] ++ ["P1"; "R1"; "n/a"] :: [["P1"; "R1"; "40"]]
  /\ list_index "product_id" stock_header = Some 0%nat
  /\ list_index "reseller_id" stock_header = Some 1%nat
  /\ list_index "reseller_qty" stock_header = Some 2%nat
  /\ Forall (fun x => stock_row_matches 0 1 (of_cell (honey !! "product_id"))
                        (reseller_of (sale_of (PInt 3))) x = false) []
  /\ stock_row_matches 0 1 (of_cell (honey !! "product_id"))
       (reseller_of (sale_of (PInt 3))) ["P1"; "R1"; "n/a"] = true
  /\ ["P1"; "R1"; "n/a"] !! 2%nat = Some "n/a"
  /\ "n/a" <> ""
  /\ float_of_str "n/a" = None
  /\ exists w' new,
       pos_sale (sale_of (PInt 3)) shop_bad_count
       = (Ok (SaleResponse 30%float (customer_of (sale_of (PInt 3)))
                (payment_of (sale_of (PInt 3))) 10%float (sale_commission honey_price)),
          w')
       /\ (forall t, t <> "Sales" -> sheet w' t = sheet shop_bad_count t)
       /\ sheet w' "Sales"
          = sheet shop_bad_count "Sales"
              ++ [cell_text <$> line_row (sale_of (PInt 3)) shop_bad_count 3 honey
                                  honey_price 10%float 30%float]
       /\ calls w' = calls shop_bad_count ++ new
       /\ updated new = []
       /\ appended new
          = [("Sales", line_row (sale_of (PInt 3)) shop_bad_count 3 honey honey_price
                         10%float 30%float)].
Proof.
  assert (Hr : stock_row_matches 0 1 (of_cell (honey !! "product_id"))
                 (reseller_of (sale_of (PInt 3))) ["P1"; "R1"; "n/a"] = true).
  { evaluated. }
  assert (Hne : "n/a" <> "") by discriminate.
  split; [exact bad_count_sale_resolves|]. split; [reflexivity|].
  split; [evaluated|]. do 3 (split; [reflexivity|]).
  split; [constructor|]. split; [exact Hr|]. split; [reflexivity|].
  split; [exact Hne|]. split; [reflexivity|].
  exact (unparsable_stock_skipped (sale_of (PInt 3)) shop_bad_count 3 honey honey_price
           10%float 30%float stock_header [] [["P1"; "R1"; "40"]] ["P1"; "R1"; "n/a"]
           0 1 2 "n/a" bad_count_sale_resolves eq_refl eq_refl eq_refl eq_refl eq_refl
           (List.Forall_nil _) Hr eq_refl Hne eq_refl).
Defined.

(** C8, refuted as stated: a request that names no product and whose [qty]
    is not a number fails with [ValueError], which is not the validation
    response; the store is not touched. *)
Lemma nameless_garbled_qty_not_validation :
  truthy (field (nameless (PStr "abc")) "product_id" PNone) = false
  /\ truthy (field (nameless (PStr "abc")) "short_id" PNone) = false
  /\ pos_sale (nameless (PStr "abc")) shop = (Raise ValueError, shop)
  /\ fst (pos_sale (nameless (PStr "abc")) shop)
     <> Raise (HTTPException 400 "product_id or short_id required").
Proof.
  assert (H : pos_sale (nameless (PStr "abc")) shop = (Raise ValueError, shop))
    by (evaluated).
  split; [reflexivity|]. split; [reflexivity|]. split; [exact H|].
  rewrite H. discriminate.
Qed.

(** A request that names no product, with the default quantity: it is
    rejected with the 400 response and the shop is untouched. *)
Lemma missing_ids_rejected_witness :
  truthy (field (nameless (PInt 1)) "product_id" PNone) = false
  /\ truthy (field (nameless (PInt 1)) "short_id" PNone) = false
  /\ snd (pos_sale (nameless (PInt 1)) shop) = shop
  /\ (exists e, fst (pos_sale (nameless (PInt 1)) shop) = Raise e)
  /\ (forall q, py_int (field (nameless (PInt 1)) "qty" (PInt 1)) = Ok q ->
        fst (pos_sale (nameless (PInt 1)) shop)
        = Raise (HTTPException 400 "product_id or short_id required"))
  /\ (forall e, py_int (field (nameless (PInt 1)) "qty" (PInt 1)) = Raise e ->
        fst (pos_sale (nameless (PInt 1)) shop) = Raise e).
Proof.
  split; [reflexivity|]. split; [reflexivity|].
  exact (missing_ids_rejected (nameless (PInt 1)) shop eq_refl eq_refl).
Defined.

(** C2, refuted as stated: a sale of honey whose [qty] is the text ["abc"]
    is not given a default quantity; the request fails with [ValueError]. *)
Lemma garbled_qty_fails :
  field (sale_of (PStr "abc")) "qty" (PInt 1) = PStr "abc"
  /\ int_of_str "abc" = None
  /\ pos_sale (sale_of (PStr "abc")) shop = (Raise ValueError, shop).
Proof. repeat split; evaluated. Qed.

(** At the shop: the garbled quantity on one side; on the other a sale
    against the reseller price ["abc"] with commission ["n/a"], which is
    priced at the base price 12.0 with commission 0. *)
Lemma numeric_fallbacks_witness :
  (field (sale_of (PStr "abc")) "qty" (PInt 1) = PStr "abc"
   /\ int_of_str "abc" = None
   /\ pos_sale (sale_of (PStr "abc")) shop = (Raise ValueError, shop))
  /\ (py_int (field (sale_of (PInt 2)) "qty" (PInt 1)) = Ok 2
      /\ float_of_int 2 = Some 2%float
      /\ lookup_product_scan (to_dicts (sheet shop_bad_price "Products"))
           (field (sale_of (PInt 2)) "product_id" PNone)
           (field (sale_of (PInt 2)) "short_id" PNone) = honey
      /\ dict_empty honey = false
      /\ price_scan (reseller_of (sale_of (PInt 2))) (of_cell (honey !! "product_id"))
           (today shop_bad_price) ∅ (to_dicts (sheet shop_bad_price "ResellerPricing"))
         = Ok garbled_price
      /\ float_or_zero (honey !! "base_price") = Ok 12%float
      /\ unusable (garbled_price !! "price")
      /\ unusable (garbled_price !! "commission_pct")
      /\ exists w' resp,
           pos_sale (sale_of (PInt 2)) shop_bad_price = (Ok resp, w')
           /\ (unusable (garbled_price !! "price") -> sale_price_used resp = 12%float)
           /\ (chosen (honey !! "base_price") = None -> 12%float = 0%float)
           /\ (unusable (garbled_price !! "commission_pct") ->
               sale_commission_pct resp = 0%float)).
Proof.
  split.
  - split; [reflexivity|]. split; [reflexivity|].
    exact (proj1 numeric_fallbacks (sale_of (PStr "abc")) shop "abc" eq_refl eq_refl).
  - assert (Hprod : lookup_product_scan (to_dicts (sheet shop_bad_price "Products"))
                      (field (sale_of (PInt 2)) "product_id" PNone)
                      (field (sale_of (PInt 2)) "short_id" PNone) = honey)
      by (evaluated).
    assert (Hrp : price_scan (reseller_of (sale_of (PInt 2)))
                    (of_cell (honey !! "product_id")) (today shop_bad_price) ∅
                    (to_dicts (sheet shop_bad_price "ResellerPricing")) = Ok garbled_price)
      by (evaluated).
    assert (Hb : float_or_zero (honey !! "base_price") = Ok 12%float)
      by (evaluated).
    split; [reflexivity|]. split; [reflexivity|]. split; [exact Hprod|].
    split; [reflexivity|]. split; [exact Hrp|]. split; [exact Hb|].
    split; [right; exists "abc"; split; evaluated|].
    split; [right; exists "n/a"; split; evaluated|].
    exact (proj2 numeric_fallbacks (sale_of (PInt 2)) shop_bad_price 2 2%float honey
             garbled_price 12%float eq_refl eq_refl Hprod eq_refl Hrp Hb).
Defined.

(** The response of that sale. *)
Example garbled_price_sale :
  fst (pos_sale (sale_of (PInt 2)) shop_bad_price)
  = Ok (SaleResponse 24%float (PStr "C-000") (PStr "cash") 12%float 0%float).
Proof. evaluated. Qed.

Lemma basket_honey_resolves :
  line_resolves honey_item (reseller_of basket_body) shop 2 honey honey_price
    10%float 20%float.
Proof. unfold line_resolves. repeat split; evaluated. Defined.

(** A checkout at the shop: two jars of honey, then a product the shop does
    not have.  The first stock row of R1 for P1 goes from 2 to 0. *)
Lemma checkout_partial_failure_witness :
  line_resolves honey_item (reseller_of basket_body) shop 2 honey honey_price
    10%float 20%float
  /\ dict_empty (lookup_product_scan (to_dicts (sheet shop "Products"))
                   (field ghost_item "product_id" PNone)
                   (field ghost_item "short_id" PNone)) = true
  /\ truthy (reseller_of basket_body) = true
  /\ sheet shop "Stock"
     = stock_header :: [["P2"; "R1"; "4"]] ++ ["P1"; "R1"; "2"]
         :: [["P1"; "U1"; "9"]; ["P1"; "R1"; "40"]]
  /\ list_index "product_id" stock_header = Some 0%nat
  /\ list_index "reseller_id" stock_header = Some 1%nat
  /\ list_index "reseller_qty" stock_header = Some 2%nat
  /\ Forall (fun x => stock_row_matches 0 1 (of_cell (honey !! "product_id"))
                        (reseller_of basket_body) x = false) [["P2"; "R1"; "4"]]
  /\ stock_row_matches 0 1 (of_cell (honey !! "product_id"))
       (reseller_of basket_body) ["P1"; "R1"; "2"] = true
  /\ ((cell_at ["P1"; "R1"; "2"] 2 = "" /\ 2%float = 0%float)
      \/ (cell_at ["P1"; "R1"; "2"] 2 <> ""
          /\ float_of_str (cell_at ["P1"; "R1"; "2"] 2) = Some 2%float))
  /\ exists w1 w' new qf out,
       adjust_stock (of_cell (honey !! "product_id")) (reseller_of basket_body) 2
         (world_sold (user_of basket_body)
            (line_row basket_body shop 2 honey honey_price 10%float 20%float) shop)
       = (Ok tt, w1)
       /\ w' = logged (SheetGet "Products") w1
       /\ checkout basket_body (honey_item :: ghost_item :: []) shop
          = (Raise (HTTPException 404 ("Product not found: " +:+ repr_item ghost_item)), w')
       /\ sheet w' "Sales"
          = sheet shop "Sales"
              ++ [cell_text <$> line_row basket_body shop 2 honey honey_price
                                  10%float 20%float]
       /\ calls w' = calls shop ++ new
       /\ appended new
          = [("Sales", line_row basket_body shop 2 honey honey_price 10%float 20%float)]
       /\ float_of_int 2 = Some qf
       /\ out = <[2%nat := PFloat (PrimFloat.sub 2%float qf)]>
                  (padded stock_header ["P1"; "R1"; "2"])
       /\ out !! 2%nat = Some (PFloat (PrimFloat.sub 2%float qf))
       /\ sheet w' "Stock"
          = stock_header :: [["P2"; "R1"; "4"]] ++ (cell_text <$> out)
              :: [["P1"; "U1"; "9"]; ["P1"; "R1"; "40"]]
       /\ updated new = [("Stock", (2 + length [["P2"; "R1"; "4"]])%nat, out)].
Proof.
  assert (Hmiss : dict_empty (lookup_product_scan (to_dicts (sheet shop "Products"))
                                (field ghost_item "product_id" PNone)
                                (field ghost_item "short_id" PNone)) = true) by evaluated.
  assert (Hstock : sheet shop "Stock"
                   = stock_header :: [["P2"; "R1"; "4"]] ++ ["P1"; "R1"; "2"]
                       :: [["P1"; "U1"; "9"]; ["P1"; "R1"; "40"]]) by evaluated.
  assert (Hpre : Forall (fun x => stock_row_matches 0 1 (of_cell (honey !! "product_id"))
                                    (reseller_of basket_body) x = false)
                   [["P2"; "R1"; "4"]]).
  { apply List.Forall_cons; [evaluated|apply List.Forall_nil]. }
  assert (Hr : stock_row_matches 0 1 (of_cell (honey !! "product_id"))
                 (reseller_of basket_body) ["P1"; "R1"; "2"] = true) by evaluated.
  assert (Hcur : (cell_at ["P1"; "R1"; "2"] 2 = "" /\ 2%float = 0%float)
                 \/ (cell_at ["P1"; "R1"; "2"] 2 <> ""
                     /\ float_of_str (cell_at ["P1"; "R1"; "2"] 2) = Some 2%float)).
  { right. split; [discriminate|evaluated]. }
  split; [exact basket_honey_resolves|]. split; [exact Hmiss|]. split; [reflexivity|].
  split; [exact Hstock|]. do 3 (split; [reflexivity|]).
  split; [exact Hpre|]. split; [exact Hr|]. split; [exact Hcur|].
  destruct (checkout_partial_failure basket_body shop honey_item ghost_item [] 2 honey
              honey_price 10%float 20%float basket_honey_resolves Hmiss)
    as (w1 & w' & new & Hadj & Hw' & Hrun & Hsales & Hcalls & Happ & Hadjusted).
  destruct (Hadjusted stock_header [["P2"; "R1"; "4"]]
              [["P1"; "U1"; "9"]; ["P1"; "R1"; "40"]] ["P1"; "R1"; "2"] 0%nat 1%nat 2%nat
              2%float eq_refl Hstock eq_refl eq_refl eq_refl Hpre Hr Hcur)
    as (qf & out & Hqf & Hout & Hcell & Hsheet & Hupd).
  exists w1, w', new, qf, out.
  repeat (split; [assumption|]). exact Hupd.
Defined.

(** The sheet that checkout leaves behind: one Sale row, the stock of the
    first item adjusted. *)
Example partial_checkout_sheet :
  let w' := snd (checkout basket_body [honey_item; ghost_item] shop) in
  sheet w' "Sales"
  = [["2024-07-01T12:00:00"; "U1"; "person.anna"; "C-000"; "P1"; "S1"; "2"; "10"; "5";
      "20"; "cash"]]
  /\ sheet w' "Stock"
     = [stock_header; ["P2"; "R1"; "4"]; ["P1"; "R1"; "0"]; ["P1"; "U1"; "9"];
        ["P1"; "R1"; "40"]]
  /\ calls w'
     = [SheetGet "Users"; SheetGet "Products"; SheetGet "ResellerPricing";
        SheetAppend "Sales"
          (line_row basket_body shop 2 honey honey_price 10%float 20%float);
        SheetGet "Stock";
        SheetUpdate "Stock" 3 3 [PStr "P1"; PStr "R1"; PFloat 0%float];
        SheetGet "Products"].
Proof. repeat split; evaluated. Qed.

(** On 2024-07-01 that price is selected: its window is read as
    1970-01-01 to 9999-12-31. *)
Example garbled_window_selected :
  fst (lookup_reseller_price (PStr "R1") (PStr "P1") (Some (Date 2024 7 1)) garbled_only)
  = Ok garbled_window.
Proof. evaluated. Qed.

(** C4.  User U1 is associated with reseller R1, whose stock is three rows of
    the shop.  Asked for the stock of user U1, [get_stock] returns instead the
    one row whose [reseller_id] cell is the text ["U1"]: line 121 reads the
    user's [user_id] where the reseller is wanted.  A reseller id given
    besides is ignored, as the spec says. *)
Theorem get_stock_filters_by_user_id :
  let u := lookup_user_scan (to_dicts (sheet shop "Users")) (PStr "U1") in
  let items := to_dicts (sheet shop "Stock") in
  u !! "reseller_id" = Some "R1"
  /\ List.filter (reseller_is (PStr "R1")) items
     = [to_dict stock_header ["P2"; "R1"; "4"]; to_dict stock_header ["P1"; "R1"; "2"];
        to_dict stock_header ["P1"; "R1"; "40"]]
  /\ fst (get_stock PNone (PStr "U1") shop) = Ok [to_dict stock_header ["P1"; "U1"; "9"]]
  /\ fst (get_stock (PStr "R1") (PStr "U1") shop)
     = Ok [to_dict stock_header ["P1"; "U1"; "9"]].
Proof. cbv zeta. repeat split; evaluated. Qed.

(** The rest of the claim holds: without user and reseller every row comes
    back, and a reseller alone filters by it. *)
Example get_stock_without_user :
  fst (get_stock PNone PNone shop) = Ok (to_dicts (sheet shop "Stock"))
  /\ fst (get_stock (PStr "R1") PNone shop)
     = Ok (List.filter (reseller_is (PStr "R1")) (to_dicts (sheet shop "Stock"))).
Proof. split; evaluated. Qed.

(** ** Runs for the further properties *)

Lemma nonempty_record (r : record) : dict_empty r = false -> r <> ∅.
Proof. unfold dict_empty. intros H ->. now rewrite bool_decide_eq_true_2 in H. Qed.

(** A stock row with two cells under the three-column header: the missing
    quantity reads as the empty string. *)
Lemma to_dicts_records_witness :
  [["P1"; "R1"]] !! 0%nat = Some ["P1"; "R1"]
  /\ exists d,
       to_dicts (stock_header :: [["P1"; "R1"]]) !! 0%nat = Some d
       /\ length (to_dicts (stock_header :: [["P1"; "R1"]])) = length [["P1"; "R1"]]
       /\ (forall (i : nat) (h : string),
             stock_header !! i = Some h -> h ∉ drop (S i) stock_header ->
             d !! h = Some (default "" (["P1"; "R1"] !! i)))
       /\ (forall h : string, h ∉ stock_header -> d !! h = None)
       /\ to_dicts [stock_header] = [] /\ to_dicts [] = [].
Proof.
  split; [reflexivity|].
  exact (to_dicts_records stock_header [["P1"; "R1"]] 0 ["P1"; "R1"] eq_refl).
Defined.

Example short_row_record :
  to_dict stock_header ["P1"; "R1"] !! "reseller_qty" = Some ""
  /\ to_dict ["a"; "b"; "a"] ["1"; "2"; "3"] !! "a" = Some "3"
  /\ to_dict stock_header ["P1"; "R1"; "5"; "extra"] !! "extra" = None.
Proof. repeat split. Qed.

Lemma overlapping_reparses :
  Forall (fun r => candidate (PStr "R1") (PStr "P1") (Date 2024 7 1) r = true ->
                   r <> ∅ /\ reparses r) (to_dicts (sheet overlapping "ResellerPricing")).
Proof.
  replace (to_dicts (sheet overlapping "ResellerPricing"))
    with [overlap_first; overlap_second] by evaluated.
  apply List.Forall_cons; [|apply List.Forall_cons; [|apply List.Forall_nil]];
    intros _; (split; [apply nonempty_record; evaluated|]).
  - exists (Date 2024 1 1). evaluated.
  - exists (Date 2024 6 1). evaluated.
Defined.


(** Two dated overlapping prices: every [valid_from] is a date, and the
    resolver returns a latest one. *)
Lemma resolve_latest_witness :
  Forall (fun r => candidate (PStr "R1") (PStr "P1") (Date 2024 7 1) r = true ->
                   r <> ∅ /\ reparses r) (to_dicts (sheet overlapping "ResellerPricing"))
  /\ exists best,
       lookup_reseller_price (PStr "R1") (PStr "P1") (Some (Date 2024 7 1)) overlapping
       = (Ok best, logged (SheetGet "ResellerPricing") overlapping)
       /\ latest_of (PStr "R1") (PStr "P1") (Date 2024 7 1)
            (to_dicts (sheet overlapping "ResellerPricing")) best.
Proof.
  split; [exact overlapping_reparses|].
  exact (resolve_latest overlapping (PStr "R1") (PStr "P1") (Date 2024 7 1)
           overlapping_reparses).
Defined.


(** The open-ended price followed by the dated one. *)
Lemma resolve_raises_witness :
  to_dicts (sheet open_then_dated "ResellerPricing")
  = [] ++ open_price :: [] ++ dated_price :: []
  /\ Forall (fun x => candidate (PStr "R1") (PStr "P1") (Date 2024 7 1) x = false) []
  /\ Forall (fun x => candidate (PStr "R1") (PStr "P1") (Date 2024 7 1) x = false) []
  /\ candidate (PStr "R1") (PStr "P1") (Date 2024 7 1) open_price = true
  /\ candidate (PStr "R1") (PStr "P1") (Date 2024 7 1) dated_price = true
  /\ open_price !! "valid_from" = Some ""
  /\ fromisoformat "" = None
  /\ lookup_reseller_price (PStr "R1") (PStr "P1") (Some (Date 2024 7 1)) open_then_dated
     = (Raise ValueError, logged (SheetGet "ResellerPricing") open_then_dated).
Proof.
  assert (Hrows : to_dicts (sheet open_then_dated "ResellerPricing")
                  = [] ++ open_price :: [] ++ dated_price :: []) by evaluated.
  assert (H1 : candidate (PStr "R1") (PStr "P1") (Date 2024 7 1) open_price = true)
    by evaluated.
  assert (H2 : candidate (PStr "R1") (PStr "P1") (Date 2024 7 1) dated_price = true)
    by evaluated.
  assert (Hs : open_price !! "valid_from" = Some "") by evaluated.
  split; [exact Hrows|]. split; [constructor|]. split; [constructor|].
  split; [exact H1|]. split; [exact H2|]. split; [exact Hs|]. split; [reflexivity|].
  exact (resolve_raises open_then_dated (PStr "R1") (PStr "P1") (Date 2024 7 1)
           [] [] [] open_price dated_price "" Hrows (List.Forall_nil _)
           (List.Forall_nil _) H1 H2 Hs eq_refl).
Defined.

(** The shop has no stock row for reseller R9. *)
Lemma adjust_stock_skips_witness :
  (sheet shop "Stock" = []
   \/ truthy (PStr "R9") = false
   \/ (exists hdr body,
         sheet shop "Stock" = hdr :: body
         /\ (list_index "product_id" hdr = None
             \/ list_index "reseller_id" hdr = None
             \/ list_index "reseller_qty" hdr = None
             \/ (forall pid_idx rid_idx,
                   list_index "product_id" hdr = Some pid_idx ->
                   list_index "reseller_id" hdr = Some rid_idx ->
                   Forall (fun r => stock_row_matches pid_idx rid_idx (PStr "P1")
                                      (PStr "R9") r = false) body))))
  /\ adjust_stock (PStr "P1") (PStr "R9") 1 shop = (Ok tt, logged (SheetGet "Stock") shop).
Proof.
  assert (H : sheet shop "Stock" = []
              \/ truthy (PStr "R9") = false
              \/ (exists hdr body,
                    sheet shop "Stock" = hdr :: body
                    /\ (list_index "product_id" hdr = None
                        \/ list_index "reseller_id" hdr = None
                        \/ list_index "reseller_qty" hdr = None
                        \/ (forall pid_idx rid_idx,
                              list_index "product_id" hdr = Some pid_idx ->
                              list_index "reseller_id" hdr = Some rid_idx ->
                              Forall (fun r => stock_row_matches pid_idx rid_idx (PStr "P1")
                                                 (PStr "R9") r = false) body)))).
  { right. right.
    exists stock_header,
      [["P2"; "R1"; "4"]; ["P1"; "R1"; "2"]; ["P1"; "U1"; "9"]; ["P1"; "R1"; "40"]].
    split; [evaluated|].
    right. right. right. intros pid_idx rid_idx Hp Hr.
    vm_compute in Hp, Hr. injection Hp as <-. injection Hr as <-.
    repeat (apply List.Forall_cons; [reflexivity|]). apply List.Forall_nil. }
  split; [exact H|].
  exact (adjust_stock_skips (PStr "P1") (PStr "R9") 1 shop H).
Defined.

(** A product the shop lacks. *)
Lemma pos_sale_not_found_witness :
  py_int (field ghost_sale "qty" (PInt 1)) = Ok 1
  /\ truthy (field ghost_sale "product_id" PNone)
     || truthy (field ghost_sale "short_id" PNone) = true
  /\ dict_empty (lookup_product_scan (to_dicts (sheet shop "Products"))
                   (field ghost_sale "product_id" PNone)
                   (field ghost_sale "short_id" PNone)) = true
  /\ exists w',
       pos_sale ghost_sale shop = (Raise (HTTPException 404 "Product not found"), w')
       /\ tabs w' = tabs shop
       /\ calls w' = calls shop ++ reads_to_products ghost_sale.
Proof.
  assert (Hmiss : dict_empty (lookup_product_scan (to_dicts (sheet shop "Products"))
                                (field ghost_sale "product_id" PNone)
                                (field ghost_sale "short_id" PNone)) = true) by evaluated.
  split; [reflexivity|]. split; [reflexivity|]. split; [exact Hmiss|].
  exact (pos_sale_not_found ghost_sale shop 1 eq_refl eq_refl Hmiss).
Defined.

Lemma house_sale_resolves :
  line_resolves house_sale (reseller_of house_sale) shop 1 honey ∅ 12%float 12%float.
Proof. unfold line_resolves. repeat split; evaluated. Defined.

(** Honey sold without reseller: priced at the base price, stock untouched. *)
Lemma sale_without_reseller_keeps_stock_witness :
  line_resolves house_sale (reseller_of house_sale) shop 1 honey ∅ 12%float 12%float
  /\ truthy (reseller_of house_sale) = false
  /\ exists w' new,
       pos_sale house_sale shop
       = (Ok (SaleResponse 12%float (customer_of house_sale) (payment_of house_sale)
                12%float (sale_commission ∅)), w')
       /\ (forall t, t <> "Sales" -> sheet w' t = sheet shop t)
       /\ calls w' = calls shop ++ new
       /\ updated new = []
       /\ appended new = [("Sales", line_row house_sale shop 1 honey ∅ 12%float 12%float)].
Proof.
  split; [exact house_sale_resolves|]. split; [reflexivity|].
  exact (sale_without_reseller_keeps_stock house_sale shop 1 honey ∅ 12%float 12%float
           house_sale_resolves eq_refl).
Defined.

(** Honey whose base price is the text ["free"], with no reseller price. *)
Lemma sale_bad_base_price_raises_witness :
  py_int (field house_sale "qty" (PInt 1)) = Ok 1
  /\ lookup_product_scan (to_dicts (sheet shop_bad_base "Products"))
       (field house_sale "product_id" PNone) (field house_sale "short_id" PNone)
     = free_honey
  /\ dict_empty free_honey = false
  /\ price_scan (reseller_of house_sale) (of_cell (free_honey !! "product_id"))
       (today shop_bad_base) ∅ (to_dicts (sheet shop_bad_base "ResellerPricing")) = Ok ∅
  /\ unusable ((∅ : record) !! "price")
  /\ free_honey !! "base_price" = Some "free"
  /\ "free" <> ""
  /\ float_of_str "free" = None
  /\ exists w',
       pos_sale house_sale shop_bad_base = (Raise ValueError, w')
       /\ tabs w' = tabs shop_bad_base
       /\ calls w'
          = calls shop_bad_base ++ reads_to_products house_sale
              ++ [SheetGet "ResellerPricing"].
Proof.
  assert (Hprod : lookup_product_scan (to_dicts (sheet shop_bad_base "Products"))
                    (field house_sale "product_id" PNone)
                    (field house_sale "short_id" PNone) = free_honey) by evaluated.
  assert (Hfound : dict_empty free_honey = false) by evaluated.
  assert (Hrp : price_scan (reseller_of house_sale) (of_cell (free_honey !! "product_id"))
                  (today shop_bad_base) ∅
                  (to_dicts (sheet shop_bad_base "ResellerPricing")) = Ok ∅) by evaluated.
  assert (Hbad : unusable ((∅ : record) !! "price")) by (left; reflexivity).
  assert (Hbase : free_honey !! "base_price" = Some "free") by evaluated.
  assert (Hne : "free" <> "") by discriminate.
  split; [reflexivity|]. split; [exact Hprod|]. split; [exact Hfound|].
  split; [exact Hrp|]. split; [exact Hbad|]. split; [exact Hbase|].
  split; [exact Hne|]. split; [reflexivity|].
  exact (sale_bad_base_price_raises house_sale shop_bad_base 1 free_honey ∅ "free"
           eq_refl Hprod Hfound Hrp Hbad Hbase Hne eq_refl).
Defined.

(** Honey sold for reseller R9, who has no price: two jars at the base
    price 12.0. *)
Lemma sale_without_reseller_price_witness :
  py_int (field stranger_sale "qty" (PInt 1)) = Ok 2
  /\ float_of_int 2 = Some 2%float
  /\ lookup_product_scan (to_dicts (sheet shop "Products"))
       (field stranger_sale "product_id" PNone) (field stranger_sale "short_id" PNone)
     = honey
  /\ dict_empty honey = false
  /\ Forall (fun r => candidate (reseller_of stranger_sale)
                        (of_cell (honey !! "product_id")) (today shop) r = false)
       (to_dicts (sheet shop "ResellerPricing"))
  /\ float_or_zero (honey !! "base_price") = Ok 12%float
  /\ exists w',
       pos_sale stranger_sale shop
       = (Ok (SaleResponse (PrimFloat.mul 12%float 2%float) (customer_of stranger_sale)
                (payment_of stranger_sale) 12%float 0%float), w').
Proof.
  assert (Hprod : lookup_product_scan (to_dicts (sheet shop "Products"))
                    (field stranger_sale "product_id" PNone)
                    (field stranger_sale "short_id" PNone) = honey) by evaluated.
  assert (Hfound : dict_empty honey = false) by evaluated.
  assert (Hnone : Forall (fun r => candidate (reseller_of stranger_sale)
                                     (of_cell (honey !! "product_id")) (today shop) r = false)
                    (to_dicts (sheet shop "ResellerPricing"))).
  { replace (to_dicts (sheet shop "ResellerPricing")) with [honey_price] by evaluated.
    apply List.Forall_cons; [evaluated|apply List.Forall_nil]. }
  assert (Hb : float_or_zero (honey !! "base_price") = Ok 12%float) by evaluated.
  split; [reflexivity|]. split; [reflexivity|]. split; [exact Hprod|].
  split; [exact Hfound|]. split; [exact Hnone|]. split; [exact Hb|].
  exact (sale_without_reseller_price stranger_sale shop 2 2%float honey 12%float
           eq_refl eq_refl Hprod Hfound Hnone Hb).
Defined.

Lemma basket_plans_resolve :
  Forall (plan_resolves (reseller_of basket_body) shop) (honey_plan :: [jam_plan]).
Proof.
  apply List.Forall_cons; [|apply List.Forall_cons; [|apply List.Forall_nil]];
    unfold plan_resolves, line_resolves; repeat split; evaluated.
Defined.

(** A basket of honey (two jars, reseller price 10.0) and jam (one jar, base
    price 8.0). *)
Lemma checkout_all_resolve_witness :
  Forall (plan_resolves (reseller_of basket_body) shop) (honey_plan :: [jam_plan])
  /\ exists w' new,
       checkout basket_body (plan_item <$> honey_plan :: [jam_plan]) shop
       = (Ok (CheckoutResponse (plans_total 0%float (honey_plan :: [jam_plan]))
                (Z.of_nat (length (honey_plan :: [jam_plan]))) (customer_of basket_body)
                (payment_of basket_body)), w')
       /\ same_catalog w' shop
       /\ sheet w' "Sales"
          = sheet shop "Sales"
              ++ ((fun x => cell_text <$> plan_row basket_body shop x)
                    <$> honey_plan :: [jam_plan])
       /\ calls w' = calls shop ++ new
       /\ appended new
          = (fun x => ("Sales", plan_row basket_body shop x)) <$> honey_plan :: [jam_plan].
Proof.
  split; [exact basket_plans_resolve|].
  exact (checkout_all_resolve basket_body shop honey_plan [jam_plan] basket_plans_resolve).
Defined.

(** The response and the Sales tab of that basket. *)
Example basket_checkout :
  fst (checkout basket_body [honey_item; jam_item] shop)
  = Ok (CheckoutResponse 28%float 2 (PStr "C-000") (PStr "cash"))
  /\ sheet (snd (checkout basket_body [honey_item; jam_item] shop)) "Sales"
     = [["2024-07-01T12:00:00"; "U1"; "person.anna"; "C-000"; "P1"; "S1"; "2"; "10"; "5";
         "20"; "cash"];
        ["2024-07-01T12:00:00"; "U1"; "person.anna"; "C-000"; "P2"; "S9"; "1"; "8"; "0";
         "8"; "cash"]].
Proof. split; evaluated. Qed.

(** Honey, jam, then a product the shop lacks, then honey again. *)
Lemma checkout_stops_at_unknown_witness :
  Forall (plan_resolves (reseller_of basket_body) shop) (honey_plan :: [jam_plan])
  /\ dict_empty (lookup_product_scan (to_dicts (sheet shop "Products"))
                   (field ghost_item "product_id" PNone)
                   (field ghost_item "short_id" PNone)) = true
  /\ exists w' new,
       checkout basket_body
         ((plan_item <$> honey_plan :: [jam_plan]) ++ ghost_item :: [honey_item]) shop
       = (Raise (HTTPException 404 ("Product not found: " +:+ repr_item ghost_item)), w')
       /\ same_catalog w' shop
       /\ sheet w' "Sales"
          = sheet shop "Sales"
              ++ ((fun x => cell_text <$> plan_row basket_body shop x)
                    <$> honey_plan :: [jam_plan])
       /\ calls w' = calls shop ++ new
       /\ appended new
          = (fun x => ("Sales", plan_row basket_body shop x)) <$> honey_plan :: [jam_plan].
Proof.
  assert (Hmiss : dict_empty (lookup_product_scan (to_dicts (sheet shop "Products"))
                                (field ghost_item "product_id" PNone)
                                (field ghost_item "short_id" PNone)) = true) by evaluated.
  split; [exact basket_plans_resolve|]. split; [exact Hmiss|].
  exact (checkout_stops_at_unknown basket_body shop (honey_plan :: [jam_plan]) ghost_item
           [honey_item] basket_plans_resolve Hmiss).
Defined.

(** The basket with honey alone against the sale of two jars of honey. *)
Lemma checkout_single_is_sale_witness :
  line_resolves honey_item (reseller_of basket_body) shop 2 honey honey_price
    10%float 20%float
  /\ field (sale_of (PInt 2)) "qty" (PInt 1) = field honey_item "qty" (PInt 1)
  /\ field (sale_of (PInt 2)) "product_id" PNone = field honey_item "product_id" PNone
  /\ field (sale_of (PInt 2)) "short_id" PNone = field honey_item "short_id" PNone
  /\ user_of (sale_of (PInt 2)) = user_of basket_body
  /\ reseller_of (sale_of (PInt 2)) = reseller_of basket_body
  /\ customer_of (sale_of (PInt 2)) = customer_of basket_body
  /\ payment_of (sale_of (PInt 2)) = payment_of basket_body
  /\ exists w',
       pos_sale (sale_of (PInt 2)) shop
       = (Ok (SaleResponse 20%float (customer_of basket_body) (payment_of basket_body)
                10%float (sale_commission honey_price)), w')
       /\ checkout basket_body [honey_item] shop
          = (Ok (CheckoutResponse (PrimFloat.add 0%float 20%float) 1
                   (customer_of basket_body) (payment_of basket_body)), w').
Proof.
  split; [exact basket_honey_resolves|]. do 7 (split; [reflexivity|]).
  exact (checkout_single_is_sale basket_body honey_item (sale_of (PInt 2)) shop 2 honey
           honey_price 10%float 20%float basket_honey_resolves eq_refl eq_refl eq_refl
           eq_refl eq_refl eq_refl eq_refl).
Defined.

(** One jar, then three, against the count of 2 of reseller R1 for P1: the
    sheet shows 1 after the first, and -2 after the second. *)
Lemma stock_adjustments_add_up_witness :
  sheet shop "Stock"
  = stock_header :: [["P2"; "R1"; "4"]] ++ ["P1"; "R1"; "2"]
      :: [["P1"; "U1"; "9"]; ["P1"; "R1"; "40"]]
  /\ list_index "product_id" stock_header = Some 0%nat
  /\ list_index "reseller_id" stock_header = Some 1%nat
  /\ list_index "reseller_qty" stock_header = Some 2%nat
  /\ truthy (PStr "R1") = true
  /\ Forall (fun x => stock_row_matches 0 1 (PStr "P1") (PStr "R1") x = false)
       [["P2"; "R1"; "4"]]
  /\ stock_row_matches 0 1 (PStr "P1") (PStr "R1") ["P1"; "R1"; "2"] = true
  /\ current_qty ["P1"; "R1"; "2"] 2 = Some 2%float
  /\ float_of_int 1 = Some 1%float
  /\ float_of_int 3 = Some 3%float
  /\ sheet_text (PFloat (PrimFloat.sub 2%float 1%float)) <> ""
  /\ float_of_str (sheet_text (PFloat (PrimFloat.sub 2%float 1%float)))
     = Some (PrimFloat.sub 2%float 1%float)
  /\ sheet (snd (adjust_stock (PStr "P1") (PStr "R1") 3
                   (snd (adjust_stock (PStr "P1") (PStr "R1") 1 shop)))) "Stock"
     = stock_header :: [["P2"; "R1"; "4"]]
         ++ (cell_text <$> <[2%nat := PFloat (PrimFloat.sub (PrimFloat.sub 2%float 1%float)
                                              3%float)]>
                             (padded stock_header ["P1"; "R1"; "2"]))
         :: [["P1"; "U1"; "9"]; ["P1"; "R1"; "40"]].
Proof.
  assert (Hstock : sheet shop "Stock"
                   = stock_header :: [["P2"; "R1"; "4"]] ++ ["P1"; "R1"; "2"]
                       :: [["P1"; "U1"; "9"]; ["P1"; "R1"; "40"]]) by evaluated.
  assert (Hpre : Forall (fun x => stock_row_matches 0 1 (PStr "P1") (PStr "R1") x = false)
                   [["P2"; "R1"; "4"]]).
  { apply List.Forall_cons; [reflexivity|apply List.Forall_nil]. }
  assert (Hcur : current_qty ["P1"; "R1"; "2"] 2 = Some 2%float) by evaluated.
  assert (Hshown : sheet_text (PFloat (PrimFloat.sub 2%float 1%float)) <> "").
  { assert (E : sheet_text (PFloat (PrimFloat.sub 2%float 1%float)) = "1") by evaluated.
    rewrite E. discriminate. }
  assert (Hback : float_of_str (sheet_text (PFloat (PrimFloat.sub 2%float 1%float)))
                  = Some (PrimFloat.sub 2%float 1%float)) by evaluated.
  split; [exact Hstock|]. do 4 (split; [reflexivity|]). split; [exact Hpre|].
  split; [reflexivity|]. split; [exact Hcur|]. do 2 (split; [reflexivity|]).
  split; [exact Hshown|]. split; [exact Hback|].
  exact (stock_adjustments_add_up (PStr "P1") (PStr "R1") 1 3 1%float 3%float 2%float shop
           stock_header [["P2"; "R1"; "4"]] [["P1"; "U1"; "9"]; ["P1"; "R1"; "40"]]
           ["P1"; "R1"; "2"] 0 1 2 Hstock eq_refl eq_refl eq_refl eq_refl Hpre eq_refl
           Hcur eq_refl eq_refl Hshown Hback).
Defined.

Example stock_after_two_adjustments :
  sheet (snd (adjust_stock (PStr "P1") (PStr "R1") 3
                (snd (adjust_stock (PStr "P1") (PStr "R1") 1 shop)))) "Stock"
  = [stock_header; ["P2"; "R1"; "4"]; ["P1"; "R1"; "-2"]; ["P1"; "U1"; "9"];
     ["P1"; "R1"; "40"]].
Proof. evaluated. Qed.

(** User U1 at the shop. *)
Lemma lookup_user_first_match_witness :
  truthy (PStr "U1") = true
  /\ (forall (pre post : list record) (u : record),
        to_dicts (sheet shop "Users") = pre ++ u :: post ->
        Forall (fun x => get_eq (x !! "user_id") (PStr "U1") = false) pre ->
        get_eq (u !! "user_id") (PStr "U1") = true ->
        lookup_user (PStr "U1") shop = (Ok u, logged (SheetGet "Users") shop))
  /\ (Forall (fun x => get_eq (x !! "user_id") (PStr "U1") = false)
        (to_dicts (sheet shop "Users")) ->
      lookup_user (PStr "U1") shop = (Ok ∅, logged (SheetGet "Users") shop)).
Proof.
  split; [reflexivity|].
  exact (lookup_user_first_match (PStr "U1") shop eq_refl).
Defined.

Example lookup_user_at_shop :
  fst (lookup_user (PStr "U1") shop) = Ok (to_dict users_header ["U1"; "person.anna"; "R1"])
  /\ lookup_user (PStr "U9") shop = (Ok ∅, logged (SheetGet "Users") shop)
  /\ lookup_user (PStr "") shop = (Ok ∅, shop)
  /\ lookup_user PNone shop = (Ok ∅, shop).
Proof. repeat split; evaluated. Qed.

(** User U9, whom the shop does not know, asks for stock, with and without a
    reseller id. *)
Lemma get_stock_unknown_user_witness :
  truthy (PStr "U9") = true
  /\ Forall (fun x => get_eq (x !! "user_id") (PStr "U9") = false)
       (to_dicts (sheet shop "Users"))
  /\ fst (get_stock (PStr "R1") (PStr "U9") shop) = Ok (to_dicts (sheet shop "Stock")).
Proof.
  assert (Hnone : Forall (fun x => get_eq (x !! "user_id") (PStr "U9") = false)
                    (to_dicts (sheet shop "Users"))).
  { replace (to_dicts (sheet shop "Users"))
      with [to_dict users_header ["U1"; "person.anna"; "R1"]] by evaluated.
    apply List.Forall_cons; [evaluated|apply List.Forall_nil]. }
  split; [reflexivity|]. split; [exact Hnone|].
  exact (get_stock_unknown_user (PStr "R1") (PStr "U9") shop eq_refl Hnone).
Defined.

(** Three jars of honey at the shop: the reseller price 10.0 and the
    commission 5.0 are used, not the base price 12.0. *)
Lemma sale_at_reseller_price_witness :
  py_int (field (sale_of (PInt 3)) "qty" (PInt 1)) = Ok 3
  /\ float_of_int 3 = Some 3%float
  /\ lookup_product_scan (to_dicts (sheet shop "Products"))
       (field (sale_of (PInt 3)) "product_id" PNone)
       (field (sale_of (PInt 3)) "short_id" PNone) = honey
  /\ dict_empty honey = false
  /\ price_scan (reseller_of (sale_of (PInt 3))) (of_cell (honey !! "product_id"))
       (today shop) ∅ (to_dicts (sheet shop "ResellerPricing")) = Ok honey_price
  /\ honey_price !! "price" = Some "10.0" /\ "10.0" <> ""
  /\ float_of_str "10.0" = Some 10%float
  /\ honey_price !! "commission_pct" = Some "5.0" /\ "5.0" <> ""
  /\ float_of_str "5.0" = Some 5%float
  /\ exists w',
       pos_sale (sale_of (PInt 3)) shop
       = (Ok (SaleResponse (PrimFloat.mul 10%float 3%float)
                (customer_of (sale_of (PInt 3))) (payment_of (sale_of (PInt 3)))
                10%float 5%float), w').
Proof.
  assert (Hprod : lookup_product_scan (to_dicts (sheet shop "Products"))
                    (field (sale_of (PInt 3)) "product_id" PNone)
                    (field (sale_of (PInt 3)) "short_id" PNone) = honey) by evaluated.
  assert (Hfound : dict_empty honey = false) by evaluated.
  assert (Hrp : price_scan (reseller_of (sale_of (PInt 3)))
                  (of_cell (honey !! "product_id")) (today shop) ∅
                  (to_dicts (sheet shop "ResellerPricing")) = Ok honey_price) by evaluated.
  assert (Hs : honey_price !! "price" = Some "10.0") by evaluated.
  assert (Hc : honey_price !! "commission_pct" = Some "5.0") by evaluated.
  assert (Hsne : "10.0" <> "") by discriminate.
  assert (Hcne : "5.0" <> "") by discriminate.
  split; [reflexivity|]. split; [reflexivity|]. split; [exact Hprod|].
  split; [exact Hfound|]. split; [exact Hrp|]. split; [exact Hs|]. split; [exact Hsne|].
  split; [reflexivity|]. split; [exact Hc|]. split; [exact Hcne|]. split; [reflexivity|].
  exact (sale_at_reseller_price (sale_of (PInt 3)) shop 3 3%float honey honey_price
           "10.0" "5.0" 10%float 5%float eq_refl eq_refl Hprod Hfound Hrp Hs Hsne eq_refl
           Hc Hcne eq_refl).
Defined.

(** Honey, then jam with the quantity ["two"]. *)
Lemma checkout_stops_at_bad_qty_witness :
  Forall (plan_resolves (reseller_of basket_body) shop) [honey_plan]
  /\ dict_empty (lookup_product_scan (to_dicts (sheet shop "Products"))
                   (field garbled_jam_item "product_id" PNone)
                   (field garbled_jam_item "short_id" PNone)) = false
  /\ py_int (field garbled_jam_item "qty" (PInt 1)) = Raise ValueError
  /\ exists w' new,
       checkout basket_body ((plan_item <$> [honey_plan]) ++ garbled_jam_item :: []) shop
       = (Raise ValueError, w')
       /\ same_catalog w' shop
       /\ sheet w' "Sales"
          = sheet shop "Sales"
              ++ ((fun x => cell_text <$> plan_row basket_body shop x) <$> [honey_plan])
       /\ calls w' = calls shop ++ new
       /\ appended new = (fun x => ("Sales", plan_row basket_body shop x)) <$> [honey_plan].
Proof.
  assert (Hall : Forall (plan_resolves (reseller_of basket_body) shop) [honey_plan]).
  { apply List.Forall_cons; [exact basket_honey_resolves|apply List.Forall_nil]. }
  assert (Hfound : dict_empty (lookup_product_scan (to_dicts (sheet shop "Products"))
                                 (field garbled_jam_item "product_id" PNone)
                                 (field garbled_jam_item "short_id" PNone)) = false)
    by evaluated.
  split; [exact Hall|]. split; [exact Hfound|]. split; [reflexivity|].
  exact (checkout_stops_at_bad_qty basket_body shop [honey_plan] garbled_jam_item []
           ValueError Hall Hfound eq_refl).
Defined.

End Runs.
